(** * ev-server: the OCPP service (src/server/ocpp/services/OCPPService.ts)

    A shallow embedding of the message handlers of [OCPPService] and of the
    private methods they rely on, followed by the properties the
    specification states about them.

    Conventions of the embedding.
    - Dates are [Z], milliseconds since the epoch; one handler invocation
      reads the clock once ([now]).
    - JavaScript numbers are [Z] (Wh, seconds, amps, percent).
    - An optional property ([undefined]/[null]) is an [option].
    - The document store is explicit state ([DB]); a handler is a state
      transformer that may throw, and what was written before the throw
      stays written.  Storage calls themselves are total: an unreachable
      data base is outside the model.  Logging and the deferred timers
      ([setTimeout]) leave no trace in [DB] and are not modelled.
    - Collaborators whose sources are not part of the service file
      (authorization, pricing, billing, roaming, templates, the consumption
      builder) are the fields of the interface [Integrations]. *)

From Stdlib Require Import ZArith List String Bool Lia.
From coqutil Require Import Datatypes.RecordSettersUsingExistingGetters.
Import ListNotations.

Open Scope string_scope.
Open Scope Z_scope.

(* a field written with [r <| f := v |>] reads [v] under [simpl] and [cbn] *)
Arguments RecordSettersUsingExistingGetters.const {E} newValue _ /.

(** ** JavaScript primitives used by the service *)

Module JS.

(** [ToBoolean] on an optional string: [undefined], [null] and the empty
    string are falsy. *)
Definition truthy_string (s : option string) : bool :=
  match s with
  | Some s => negb (s =? "")%string
  | None => false
  end.

(** [ToBoolean] on an optional object (a [Date], a record): present is truthy. *)
Definition truthy {A : Type} (o : option A) : bool :=
  match o with
  | Some _ => true
  | None => false
  end.

(** [ToBoolean] on a number. *)
Definition truthy_number (n : Z) : bool := negb (n =? 0).

(** [a === b] on optional strings. *)
Definition strict_eq_string (a b : option string) : bool :=
  match a, b with
  | Some x, Some y => (x =? y)%string
  | None, None => true
  | _, _ => false
  end.

(** The values a callback can hand back to [Array.prototype.filter]:
    a boolean, or the promise an [async] function returns. *)
Inductive value : Type :=
| Bool (b : bool)
| Promise (settled : value).

(** [ToBoolean]: every object, a promise included, is truthy. *)
Definition ToBoolean (v : value) : bool :=
  match v with
  | Bool b => b
  | Promise _ => true
  end.

(** [Array.prototype.filter]: keeps the elements whose callback result
    coerces to [true]. *)
Definition filter {A : Type} (callback : A -> value) (l : list A) : list A :=
  List.filter (fun x => ToBoolean (callback x)) l.

(** [Array.prototype.every]. *)
Definition every {A : Type} (p : A -> bool) (l : list A) : bool := forallb p l.

(** [moment().isAfter(d)].  For an absent [d], moment compares with the
    instant of the call (or with an invalid date), which is never before
    [now]: the answer is [false]. *)
Definition isAfter (now : Z) (d : option Z) : bool :=
  match d with
  | Some d => d <? now
  | None => false
  end.

(** [Math.floor (a / b)] for a positive divisor. *)
Definition floor_div (a b : Z) : Z := a / b.

End JS.

(** ** Enumerations (types/ocpp/OCPPServer, types/ChargingStation, types/Transaction) *)

Module RegistrationStatus.
Inductive t := ACCEPTED | PENDING | REJECTED.
Definition eqb (a b : t) : bool :=
  match a, b with
  | ACCEPTED, ACCEPTED | PENDING, PENDING | REJECTED, REJECTED => true
  | _, _ => false
  end.
End RegistrationStatus.

Module OCPPProtocol.
Inductive t := SOAP | JSON.
End OCPPProtocol.

Module OCPPVersion.
Inductive t := VERSION_15 | VERSION_16.
Definition eqb (a b : t) : bool :=
  match a, b with
  | VERSION_15, VERSION_15 | VERSION_16, VERSION_16 => true
  | _, _ => false
  end.
End OCPPVersion.

Module ChargePointStatus.
Inductive t :=
| AVAILABLE | PREPARING | CHARGING | SUSPENDED_EV | SUSPENDED_EVSE
| FINISHING | RESERVED | UNAVAILABLE | FAULTED.
Definition eqb (a b : t) : bool :=
  match a, b with
  | AVAILABLE, AVAILABLE | PREPARING, PREPARING | CHARGING, CHARGING
  | SUSPENDED_EV, SUSPENDED_EV | SUSPENDED_EVSE, SUSPENDED_EVSE
  | FINISHING, FINISHING | RESERVED, RESERVED | UNAVAILABLE, UNAVAILABLE
  | FAULTED, FAULTED => true
  | _, _ => false
  end.
End ChargePointStatus.

Module OCPPAuthorizationStatus.
Inductive t := ACCEPTED | INVALID | BLOCKED | EXPIRED.
End OCPPAuthorizationStatus.

Module InactivityStatus.
Inductive t := INFO | WARNING | ERROR.
End InactivityStatus.

Module OCPPReadingContext.
Inductive t :=
| SAMPLE_PERIODIC | SAMPLE_CLOCK | TRANSACTION_BEGIN | TRANSACTION_END
| INTERRUPTION_BEGIN | INTERRUPTION_END | OTHER.
Definition eqb (a b : t) : bool :=
  match a, b with
  | SAMPLE_PERIODIC, SAMPLE_PERIODIC | SAMPLE_CLOCK, SAMPLE_CLOCK
  | TRANSACTION_BEGIN, TRANSACTION_BEGIN | TRANSACTION_END, TRANSACTION_END
  | INTERRUPTION_BEGIN, INTERRUPTION_BEGIN | INTERRUPTION_END, INTERRUPTION_END
  | OTHER, OTHER => true
  | _, _ => false
  end.
End OCPPReadingContext.

Module OCPPMeasurand.
Inductive t :=
| ENERGY_ACTIVE_IMPORT_REGISTER | POWER_ACTIVE_IMPORT | CURRENT_IMPORT
| VOLTAGE | STATE_OF_CHARGE | OTHER.
Definition eqb (a b : t) : bool :=
  match a, b with
  | ENERGY_ACTIVE_IMPORT_REGISTER, ENERGY_ACTIVE_IMPORT_REGISTER
  | POWER_ACTIVE_IMPORT, POWER_ACTIVE_IMPORT | CURRENT_IMPORT, CURRENT_IMPORT
  | VOLTAGE, VOLTAGE | STATE_OF_CHARGE, STATE_OF_CHARGE | OTHER, OTHER => true
  | _, _ => false
  end.
End OCPPMeasurand.

Module OCPPValueFormat.
Inductive t := RAW | SIGNED_DATA.
End OCPPValueFormat.

Module OCPPPhase.
Inductive t := L1 | L2 | L3 | N | L1_N | L2_N | L3_N | L1_L2 | L2_L3 | L3_L1.
End OCPPPhase.

Module OCPPUnitOfMeasure.
Inductive t := WATT_HOUR | KILO_WATT_HOUR | WATT | KILO_WATT | AMP | VOLT | PERCENT.
End OCPPUnitOfMeasure.

Module OCPPLocation.
Inductive t := BODY | CABLE | EV | INLET | OUTLET.
End OCPPLocation.

Module CurrentType.
Inductive t := AC | DC.
End CurrentType.

Module ConnectorCurrentLimitSource.
Inductive t := CHARGING_PROFILE | STATIC_LIMITATION | CONNECTOR.
Definition eqb (a b : t) : bool :=
  match a, b with
  | CHARGING_PROFILE, CHARGING_PROFILE | STATIC_LIMITATION, STATIC_LIMITATION
  | CONNECTOR, CONNECTOR => true
  | _, _ => false
  end.
End ConnectorCurrentLimitSource.

Module ChargingRateUnitType.
Inductive t := WATT | AMPERE.
End ChargingRateUnitType.

Module ChargerVendor.
Definition ABB : string := "ABB".
End ChargerVendor.


Module TenantComponents.
Inductive t := OCPI | OICP | ORGANIZATION | CAR | SMART_CHARGING | PRICING | BILLING.
Definition eqb (a b : t) : bool :=
  match a, b with
  | OCPI, OCPI | OICP, OICP | ORGANIZATION, ORGANIZATION | CAR, CAR
  | SMART_CHARGING, SMART_CHARGING | PRICING, PRICING | BILLING, BILLING => true
  | _, _ => false
  end.
End TenantComponents.

Module TransactionAction.
Inductive t := START | UPDATE | STOP | END.
End TransactionAction.

(** ** Documents *)

Module Tenant.
Record t := {
  id : string;
  name : string;
  subdomain : string;
  components : list TenantComponents.t
}.
End Tenant.

Module User.
Record t := {
  id : string;
  issuer : bool;
  authorizationID : option string;
  locale : option string
}.
End User.

Module Connector.
Record t := {
  connectorId : Z;
  status : ChargePointStatus.t;
  errorCode : option string;
  info : option string;
  vendorErrorCode : option string;
  statusLastChangedOn : option Z;
  power : Z;
  currentTransactionID : Z;
  currentTransactionDate : option Z;
  currentTagID : option string;
  userID : option string;
  currentInstantWatts : Z;
  currentTotalConsumptionWh : Z;
  currentTotalInactivitySecs : Z;
  currentInactivityStatus : InactivityStatus.t;
  currentStateOfCharge : Z
}.
End Connector.

Module ChargingStation.
Record t := {
  id : string;
  chargePointVendor : string;
  chargePointModel : string;
  chargePointSerialNumber : option string;
  chargeBoxSerialNumber : option string;
  firmwareVersion : option string;
  endpoint : option string;
  ocppVersion : option OCPPVersion.t;
  ocppProtocol : option OCPPProtocol.t;
  currentIPAddress : option string;
  chargingStationURL : option string;
  cfApplicationIDAndInstanceIndex : option string;
  registrationStatus : option RegistrationStatus.t;
  issuer : bool;
  public : bool;
  deleted : bool;
  createdOn : option Z;
  powerLimitUnit : option ChargingRateUnitType.t;
  lastReboot : option Z;
  lastSeen : option Z;
  siteAreaID : option string;
  siteID : option string;
  coordinates : option (list Z);
  connectors : list Connector.t
}.
End ChargingStation.

Module RegistrationToken.
Record t := {
  id : string;
  expirationDate : option Z;
  revocationDate : option Z;
  siteAreaID : option string
}.
End RegistrationToken.

Module Address.
Record t := { coordinates : option (list Z) }.
End Address.

Module SiteArea.
Record t := {
  id : string;
  siteID : option string;
  address : option Address.t;
  smartCharging : bool
}.
End SiteArea.

Module LastConsumption.
Record t := { value : Z; timestamp : Z }.
End LastConsumption.

Module RemoteStop.
Record t := { tagID : string; timestamp : Z }.
End RemoteStop.

(** [ocpiData] / [oicpData] of a transaction: the roaming session and, once
    pushed, the charge detail record. *)
Module RoamingData.
Record t := { session : option string; cdr : option string }.
End RoamingData.

Module TransactionStop.
Record t := {
  timestamp : Z;
  meterStop : Z;
  tagID : string;
  userID : option string;
  totalConsumptionWh : Z;
  totalInactivitySecs : Z;
  extraInactivitySecs : Z;
  extraInactivityComputed : bool;
  inactivityStatus : InactivityStatus.t;
  totalDurationSecs : Z;
  stateOfCharge : Z;
  signedData : string;
  price : Z
}.
End TransactionStop.

Module Transaction.
Record t := {
  id : Z;
  issuer : bool;
  chargeBoxID : string;
  connectorId : Z;
  tagID : string;
  userID : option string;
  user : option User.t;
  siteAreaID : option string;
  siteID : option string;
  timestamp : Z;
  meterStart : Z;
  numberOfMeterValues : Z;
  lastConsumption : option LastConsumption.t;
  currentInstantWatts : Z;
  currentInstantWattsL1 : Z;
  currentInstantWattsL2 : Z;
  currentInstantWattsL3 : Z;
  currentInstantWattsDC : Z;
  currentInstantVolts : Z;
  currentInstantVoltsL1 : Z;
  currentInstantVoltsL2 : Z;
  currentInstantVoltsL3 : Z;
  currentInstantVoltsDC : Z;
  currentInstantAmps : Z;
  currentInstantAmpsL1 : Z;
  currentInstantAmpsL2 : Z;
  currentInstantAmpsL3 : Z;
  currentInstantAmpsDC : Z;
  currentStateOfCharge : Z;
  currentConsumptionWh : Z;
  currentTotalConsumptionWh : Z;
  currentTotalInactivitySecs : Z;
  currentInactivityStatus : InactivityStatus.t;
  stateOfCharge : Z;
  signedData : string;
  currentSignedData : string;
  phasesUsed : option Z;
  transactionEndReceived : bool;
  remotestop : option RemoteStop.t;
  ocpiData : option RoamingData.t;
  oicpData : option RoamingData.t;
  stop : option TransactionStop.t
}.
End Transaction.

Module Consumption.
Record t := {
  transactionId : Z;
  startedAt : Z;
  endedAt : Z;
  consumptionWh : Z;
  instantWatts : Z;
  cumulatedConsumptionWh : Z;
  totalInactivitySecs : Z;
  limitSource : option ConnectorCurrentLimitSource.t;
  limitAmps : option Z;
  stateOfCharge : Z;
  toPrice : bool
}.
End Consumption.

Module OCPPAttribute.
Record t := {
  context : OCPPReadingContext.t;
  format : OCPPValueFormat.t;
  measurand : OCPPMeasurand.t;
  location : OCPPLocation.t;
  unit : OCPPUnitOfMeasure.t;
  phase : option OCPPPhase.t
}.
End OCPPAttribute.

(** The [value] of a meter value: a number for [Raw], the payload for
    [SignedData]. *)
Inductive MeterReading : Type :=
| Reading (n : Z)
| Signed (payload : string).

Module OCPPNormalizedMeterValue.
Record t := {
  chargeBoxID : string;
  connectorId : Z;
  transactionId : Z;
  timestamp : Z;
  attribute : OCPPAttribute.t;
  value : MeterReading
}.
End OCPPNormalizedMeterValue.

Module OCPPNormalizedMeterValues.
Record t := {
  chargeBoxID : string;
  values : list OCPPNormalizedMeterValue.t
}.
End OCPPNormalizedMeterValues.

(** ** Messages *)

Module OCPPHeader.
Record t := {
  tenantID : string;
  chargeBoxIdentity : option string;
  currentIPAddress : option string;
  ocppProtocol : option OCPPProtocol.t;
  ocppVersion : option OCPPVersion.t;
  token : option string;
  From : option string;
  chargingStationURL : option string
}.
End OCPPHeader.

Module OCPPBootNotificationRequestExtended.
Record t := {
  chargePointVendor : string;
  chargePointModel : string;
  chargePointSerialNumber : option string;
  chargeBoxSerialNumber : option string;
  firmwareVersion : option string;
  endpoint : option string;
  id : option string;
  chargeBoxID : option string;
  currentIPAddress : option string;
  ocppProtocol : option OCPPProtocol.t;
  ocppVersion : option OCPPVersion.t;
  lastReboot : option Z;
  lastSeen : option Z;
  timestamp : option Z
}.
End OCPPBootNotificationRequestExtended.

Module OCPPBootNotificationResponse.
Record t := {
  status : RegistrationStatus.t;
  currentTime : Z;
  interval : option Z
}.
End OCPPBootNotificationResponse.

Module OCPPStatusNotificationRequestExtended.
Record t := {
  connectorId : Z;
  status : ChargePointStatus.t;
  errorCode : option string;
  info : option string;
  vendorErrorCode : option string;
  timestamp : option Z
}.
End OCPPStatusNotificationRequestExtended.

(** [transactionData] of a StopTransaction: the 1.5 shape ([values]) or the
    1.6 shape (an array of [sampledValue] groups). *)
Inductive TransactionData : Type :=
| OCPP15TransactionData (values : list OCPPNormalizedMeterValue.t)
| OCPP16TransactionData (meterValue : list OCPPNormalizedMeterValue.t).

Module OCPPStopTransactionRequestExtended.
Record t := {
  chargeBoxID : option string;
  transactionId : Z;
  idTag : option string;
  meterStop : Z;
  timestamp : Z;
  transactionData : option TransactionData
}.
End OCPPStopTransactionRequestExtended.

Module OCPPStopTransactionResponse.
Record t := { idTagInfo : OCPPAuthorizationStatus.t }.
End OCPPStopTransactionResponse.

Module ChargingStationConfiguration.
Record t := {
  heartbeatIntervalOCPPSSecs : Z;
  heartbeatIntervalOCPPJSecs : Z;
  notifEndOfChargeEnabled : bool;
  notifBeforeEndOfChargeEnabled : bool;
  notifBeforeEndOfChargePercent : Z
}.
End ChargingStationConfiguration.

Module TemplateUpdateResult.
Record t := {
  chargingStationUpdated : bool;
  ocppStandardUpdated : bool;
  ocppVendorUpdated : bool
}.
End TemplateUpdateResult.

(** ** Notifications *)

(** What the service hands to [NotificationHandler]; sending is
    asynchronous and its outcome is ignored, so the model records the
    hand-over only. *)
Module Notification.
Inductive t :=
| ChargingStationRegistered (chargeBoxID : string)
| EndOfCharge (transactionId : Z)
| OptimalChargeReached (transactionId : Z)
| EndOfSession (transactionId : Z)
| EndOfSignedSession (transactionId : Z).
End Notification.

(** ** The document store *)

(** Every collection is tenant-scoped: a document is stored with the id of
    its tenant, in insertion order. *)
Module DB.
Record t := {
  tenants : list Tenant.t;
  chargingStations : list (string * ChargingStation.t);
  registrationTokens : list (string * RegistrationToken.t);
  siteAreas : list (string * SiteArea.t);
  transactions : list (string * Transaction.t);
  consumptions : list (string * Consumption.t);
  meterValues : list (string * OCPPNormalizedMeterValues.t);
  bootNotifications : list (string * OCPPBootNotificationRequestExtended.t);
  notifications : list (string * Notification.t)
}.
End DB.

(** Replace the first document selected by [same], or append. *)
Fixpoint upsert {A : Type} (same : A -> bool) (x : A) (l : list A) : list A :=
  match l with
  | [] => [x]
  | y :: l' => if same y then x :: l' else y :: upsert same x l'
  end.

(** Delete the first document selected by [same]. *)
Fixpoint delete_first {A : Type} (same : A -> bool) (l : list A) : list A :=
  match l with
  | [] => []
  | y :: l' => if same y then l' else y :: delete_first same l'
  end.

Definition in_tenant {A : Type} (tenantID : string) (p : A -> bool) (d : string * A) : bool :=
  (fst d =? tenantID)%string && p (snd d).

Definition find_in_tenant {A : Type} (tenantID : string) (p : A -> bool)
    (l : list (string * A)) : option A :=
  option_map snd (find (in_tenant tenantID p) l).

(** *** Failures *)

(** The throw sites of the handlers: the [BackendError]s of the service, the
    failure of a collaborator, and the [TypeError] of a property read on
    [undefined]. *)
Inductive Failure : Type :=
| MissingChargeBoxIdentity
| UnknownTenant
| UnknownChargingStation
| ValidationFailed
| TokenRequired
| TokenInvalidOrExpired
| TokenRevoked
| AttributeMismatch
| TransactionNotFound
| TransactionAlreadyStopped
| NotAuthorized
| IntegrationFailed (what : string)
| TypeError.

Inductive Result (A : Type) : Type :=
| Ok (a : A)
| Throw (e : Failure).
Arguments Ok {A} a.
Arguments Throw {A} e.

(** An [async] method of the service: it reads and writes the store and
    either returns or throws; the store it leaves is kept in both cases. *)
Definition M (A : Type) : Type := DB.t -> Result A * DB.t.

Definition ret {A : Type} (a : A) : M A := fun db => (Ok a, db).

Definition throw {A : Type} (e : Failure) : M A := fun db => (Throw e, db).

Definition bind {A B : Type} (m : M A) (k : A -> M B) : M B :=
  fun db =>
    match m db with
    | (Ok a, db') => k a db'
    | (Throw e, db') => (Throw e, db')
    end.

(** [try { m } catch (error) { h error }] *)
Definition try_catch {A : Type} (m : M A) (h : Failure -> M A) : M A :=
  fun db =>
    match m db with
    | (Ok a, db') => (Ok a, db')
    | (Throw e, db') => h e db'
    end.

(** A collaborator that answers without touching the store. *)
Definition lift {A : Type} (r : Result A) : M A := fun db => (r, db).

Definition gets {A : Type} (f : DB.t -> A) : M A := fun db => (Ok (f db), db).

Definition modify (f : DB.t -> DB.t) : M unit := fun db => (Ok tt, f db).

Notation "x <- m ;; k" := (bind m (fun x => k))
  (at level 61, m at next level, right associativity).
Notation "' pat <- m ;; k" := (bind m (fun x => match x with pat => k end))
  (at level 61, pat pattern, m at next level, right associativity).
Notation "m ;;; k" := (bind m (fun _ => k))
  (at level 61, right associativity).

Module NotificationHandler.
Definition send (tenantID : string) (n : Notification.t) : M unit :=
  modify (fun db =>
    db <| DB.notifications := (DB.notifications db ++ [(tenantID, n)])%list |>).
End NotificationHandler.

(** *** Storage (storage/mongodb) *)

(** Modelled from the spec: the storage classes are not part of the service
    file.  Section 6 lists what the core consumes: CRUD on tenants,
    stations, transactions, consumptions and registration tokens, "get
    active transaction on (station, connector)" and "get last transaction
    from station/connector". *)
Module TenantStorage.
Definition getTenant (tenantID : string) (db : DB.t) : option Tenant.t :=
  find (fun t => (Tenant.id t =? tenantID)%string) (DB.tenants db).
End TenantStorage.

Module ChargingStationStorage.
Definition getChargingStation (tenantID id : string) (db : DB.t) : option ChargingStation.t :=
  find_in_tenant tenantID (fun cs => (ChargingStation.id cs =? id)%string)
    (DB.chargingStations db).

Definition saveChargingStation (tenantID : string) (cs : ChargingStation.t) (db : DB.t) : DB.t :=
  db <| DB.chargingStations :=
    upsert (in_tenant tenantID (fun c => (ChargingStation.id c =? ChargingStation.id cs)%string))
      (tenantID, cs) (DB.chargingStations db) |>.
End ChargingStationStorage.

Module RegistrationTokenStorage.
Definition getRegistrationToken (tenantID id : string) (db : DB.t) : option RegistrationToken.t :=
  find_in_tenant tenantID (fun t => (RegistrationToken.id t =? id)%string)
    (DB.registrationTokens db).
End RegistrationTokenStorage.

Module SiteAreaStorage.
Definition getSiteArea (tenantID id : string) (db : DB.t) : option SiteArea.t :=
  find_in_tenant tenantID (fun a => (SiteArea.id a =? id)%string) (DB.siteAreas db).
End SiteAreaStorage.

Module OCPPStorage.
Definition saveBootNotification (tenantID : string)
    (b : OCPPBootNotificationRequestExtended.t) (db : DB.t) : DB.t :=
  db <| DB.bootNotifications := (DB.bootNotifications db ++ [(tenantID, b)])%list |>.

Definition saveMeterValues (tenantID : string) (m : OCPPNormalizedMeterValues.t)
    (db : DB.t) : DB.t :=
  db <| DB.meterValues := (DB.meterValues db ++ [(tenantID, m)])%list |>.
End OCPPStorage.

Module TransactionStorage.
Definition has_id (id : Z) (tx : Transaction.t) : bool := Transaction.id tx =? id.

Definition getTransaction (tenantID : string) (id : Z) (db : DB.t) : option Transaction.t :=
  find_in_tenant tenantID (has_id id) (DB.transactions db).

(** Saving answers the id of the saved transaction. *)
Definition saveTransaction (tenantID : string) (tx : Transaction.t) (db : DB.t) : Z * DB.t :=
  (Transaction.id tx,
   db <| DB.transactions :=
     upsert (in_tenant tenantID (has_id (Transaction.id tx))) (tenantID, tx)
       (DB.transactions db) |>).

Definition deleteTransaction (tenantID : string) (id : Z) (db : DB.t) : DB.t :=
  db <| DB.transactions :=
    delete_first (in_tenant tenantID (has_id id)) (DB.transactions db) |>.

(** A transaction of the connector that has no stop block. *)
Definition is_active_on (chargeBoxID : string) (connectorId : Z) (tx : Transaction.t) : bool :=
  (Transaction.chargeBoxID tx =? chargeBoxID)%string
  && (Transaction.connectorId tx =? connectorId)
  && negb (JS.truthy (Transaction.stop tx)).

Definition getActiveTransaction (tenantID chargeBoxID : string) (connectorId : Z)
    (db : DB.t) : option Transaction.t :=
  find_in_tenant tenantID (is_active_on chargeBoxID connectorId) (DB.transactions db).

Definition is_on (chargeBoxID : string) (connectorId : Z) (tx : Transaction.t) : bool :=
  (Transaction.chargeBoxID tx =? chargeBoxID)%string
  && (Transaction.connectorId tx =? connectorId).

(** The latest started transaction of the connector. *)
Fixpoint latest (best : option Transaction.t) (l : list Transaction.t) : option Transaction.t :=
  match l with
  | [] => best
  | tx :: l' =>
      match best with
      | Some b =>
          if Transaction.timestamp b <? Transaction.timestamp tx
          then latest (Some tx) l' else latest best l'
      | None => latest (Some tx) l'
      end
  end.

Definition getLastTransactionFromChargingStation (tenantID chargeBoxID : string)
    (connectorId : Z) (db : DB.t) : option Transaction.t :=
  latest None
    (map snd (List.filter (in_tenant tenantID (is_on chargeBoxID connectorId))
                (DB.transactions db))).
End TransactionStorage.

Module ConsumptionStorage.
Definition saveConsumption (tenantID : string) (c : Consumption.t) (db : DB.t) : DB.t :=
  db <| DB.consumptions := (DB.consumptions db ++ [(tenantID, c)])%list |>.

(** Insertion into a list sorted by [startedAt], latest first. *)
Fixpoint insert_desc (c : Consumption.t) (l : list Consumption.t) : list Consumption.t :=
  match l with
  | [] => [c]
  | d :: l' =>
      if Consumption.startedAt d <? Consumption.startedAt c
      then c :: d :: l' else d :: insert_desc c l'
  end.

Definition sort_desc (l : list Consumption.t) : list Consumption.t :=
  fold_right insert_desc [] l.

(** [getTransactionConsumptions (tenantID, { transactionId },
    { limit, skip, sort: { startedAt: -1 } })] *)
Definition getTransactionConsumptions (tenantID : string) (transactionId : Z)
    (limit skip : nat) (db : DB.t) : list Consumption.t :=
  firstn limit
    (skipn skip
       (sort_desc
          (map snd
             (List.filter
                (in_tenant tenantID (fun c => Consumption.transactionId c =? transactionId))
                (DB.consumptions db))))).
End ConsumptionStorage.

(** ** Collaborators *)

(** The classes the service calls and whose sources lie outside the service
    file, each behind the signature the call sites show.  A collaborator
    that can reject or fail answers a [Result]; one that mutates the
    transaction or the station it is given answers the mutated object. *)
Class Integrations : Type := {
  (* OCPPValidation *)
  validateBootNotification : OCPPBootNotificationRequestExtended.t -> bool;
  validateStopTransaction :
    ChargingStation.t -> OCPPStopTransactionRequestExtended.t -> bool;
  (* Authorizations, UserStorage *)
  isAuthorizedToStopTransaction :
    string -> ChargingStation.t -> Transaction.t -> string ->
    Result (option User.t * option User.t);
  getUserByTagId : string -> string -> option User.t;
  (* OCPPUtils: consumption builder, pricing, billing, roaming *)
  createTransactionStopMeterValues :
    string -> ChargingStation.t -> Transaction.t ->
    OCPPStopTransactionRequestExtended.t -> list OCPPNormalizedMeterValue.t;
  createConsumptionsFromMeterValues :
    string -> ChargingStation.t -> Transaction.t ->
    list OCPPNormalizedMeterValue.t -> Result (Transaction.t * list Consumption.t);
  updateTransactionWithConsumption :
    ChargingStation.t -> Transaction.t -> Consumption.t -> Transaction.t;
  updateTransactionWithStopTransactionAndStopMeterValues :
    Transaction.t -> OCPPStopTransactionRequestExtended.t ->
    list OCPPNormalizedMeterValue.t -> option User.t -> option User.t -> string ->
    Transaction.t;
  priceTransaction :
    string -> Transaction.t -> Consumption.t -> TransactionAction.t ->
    Result (Transaction.t * Consumption.t);
  billTransaction :
    string -> Transaction.t -> TransactionAction.t -> Result Transaction.t;
  processOCPITransaction :
    Tenant.t -> Transaction.t -> ChargingStation.t -> TransactionAction.t ->
    Result Transaction.t;
  processOICPTransaction :
    Tenant.t -> Transaction.t -> ChargingStation.t -> TransactionAction.t ->
    Result Transaction.t;
  isEnergyActiveImportMeterValue : OCPPNormalizedMeterValue.t -> bool;
  (* LockingHelper *)
  createOCPIPushCdrLock : string -> Z -> bool;
  createOICPPushCdrLock : string -> Z -> bool;
  (* OCPPUtils: charging station template *)
  applyTemplateToChargingStation :
    string -> ChargingStation.t -> ChargingStation.t * TemplateUpdateResult.t;
  checkAndSetChargingStationAmperageLimit : ChargingStation.t -> ChargingStation.t;
  setChargingStationPhaseAssignment : string -> ChargingStation.t -> ChargingStation.t;
  (* Utils *)
  getInactivityStatusLevel : option ChargingStation.t -> Z -> Z -> InactivityStatus.t;
  getChargingStationCurrentType : ChargingStation.t -> Z -> option CurrentType.t;
  getNumberOfConnectedPhases : ChargingStation.t -> Z -> Z;
  (* Constants, StaticLimitAmps, Configuration *)
  BOOT_NOTIFICATION_WAIT_TIME : Z;
  MIN_LIMIT_PER_PHASE : Z;
  getCFApplicationIDAndInstanceIndex : option string
}.

(** ** Helpers of Utils and OCPPUtils *)

Module Utils.

(** Modelled from the spec: [Utils.getConnectorFromID] is not part of the
    service file.  Section 3: the connectors of a station are "keyed by
    connector id". *)
Definition getConnectorFromID (chargingStation : ChargingStation.t) (connectorID : Z)
    : option Connector.t :=
  find (fun c => Connector.connectorId c =? connectorID)
    (ChargingStation.connectors chargingStation).

(** Modelled from the spec: [Utils.isTenantComponentActive] is not part of
    the service file; a tenant carries the optional features it has
    switched on. *)
Definition isTenantComponentActive (tenant : Tenant.t) (c : TenantComponents.t) : bool :=
  existsb (TenantComponents.eqb c) (Tenant.components tenant).

(** Modelled from the spec: [Utils.convertToFloat] is not part of the
    service file.  Section 4.A: "Numeric values are parsed per format";
    a payload that is not a number reads as 0. *)
Definition convertToFloat (v : MeterReading) : Z :=
  match v with
  | Reading n => n
  | Signed _ => 0
  end.

End Utils.

Module OCPPUtils.

(** Modelled from the spec: [OCPPUtils.checkAndGetTenantAndChargingStation]
    is not part of the service file.  Section 2, step (1) of every
    handler: "tenant+station resolution"; section 7: unknown tenant and
    unknown station are failures. *)
Definition checkAndGetTenantAndChargingStation (headers : OCPPHeader.t)
    : M (ChargingStation.t * Tenant.t) :=
  match OCPPHeader.chargeBoxIdentity headers with
  | None => throw MissingChargeBoxIdentity
  | Some chargeBoxIdentity =>
      tenant <- gets (TenantStorage.getTenant (OCPPHeader.tenantID headers)) ;;
      match tenant with
      | None => throw UnknownTenant
      | Some tenant =>
          chargingStation <-
            gets (ChargingStationStorage.getChargingStation (Tenant.id tenant)
                    chargeBoxIdentity) ;;
          match chargingStation with
          | None => throw UnknownChargingStation
          | Some chargingStation => ret (chargingStation, tenant)
          end
      end
  end.

(** The live-session fields of a connector, reset. *)
Definition freeConnector (c : Connector.t) : Connector.t :=
  c <| Connector.currentInstantWatts := 0 |>
    <| Connector.currentTotalConsumptionWh := 0 |>
    <| Connector.currentTotalInactivitySecs := 0 |>
    <| Connector.currentInactivityStatus := InactivityStatus.INFO |>
    <| Connector.currentStateOfCharge := 0 |>
    <| Connector.currentTransactionID := 0 |>
    <| Connector.currentTransactionDate := None |>
    <| Connector.currentTagID := None |>
    <| Connector.userID := None |>.

Fixpoint freeFirst (connectorId : Z) (l : list Connector.t) : list Connector.t :=
  match l with
  | [] => []
  | c :: l' =>
      if Connector.connectorId c =? connectorId
      then freeConnector c :: l' else c :: freeFirst connectorId l'
  end.

(** Modelled from the spec: [OCPPUtils.checkAndFreeChargingStationConnector]
    is not part of the service file.  Section 4.D.3: "Free the connector:
    zero live fields, set currentTransactionId=0, status unchanged"; the
    live fields are those [handleStartTransaction] initialises on the
    connector it finds with [Utils.getConnectorFromID]. *)
Definition checkAndFreeChargingStationConnector (chargingStation : ChargingStation.t)
    (connectorId : Z) : ChargingStation.t :=
  chargingStation <| ChargingStation.connectors :=
    freeFirst connectorId (ChargingStation.connectors chargingStation) |>.

(** Modelled from the spec: [OCPPUtils.updateSignedData] is not part of the
    service file.  Section 4.D.2: a SignedData value at [Transaction.Begin]
    is stored as [transaction.signedData], one at [Transaction.End] is kept
    for [transaction.stop.signedData]; neither is treated as consumption.
    The second component says whether the value was consumed. *)
Definition updateSignedData (transaction : Transaction.t)
    (meterValue : OCPPNormalizedMeterValue.t) : Transaction.t * bool :=
  match OCPPAttribute.format (OCPPNormalizedMeterValue.attribute meterValue),
        OCPPNormalizedMeterValue.value meterValue with
  | OCPPValueFormat.SIGNED_DATA, Signed payload =>
      match OCPPAttribute.context (OCPPNormalizedMeterValue.attribute meterValue) with
      | OCPPReadingContext.TRANSACTION_BEGIN =>
          (transaction <| Transaction.signedData := payload |>, true)
      | OCPPReadingContext.TRANSACTION_END =>
          (transaction <| Transaction.currentSignedData := payload |>, true)
      | _ => (transaction, false)
      end
  | _, _ => (transaction, false)
  end.

(** Modelled from the spec: [OCPPUtils.buildExtraConsumptionInactivity] is
    not part of the service file.  Section 4.D.6: "an extra consumption
    interval with zero consumption but the full gap as duration is
    appended". *)
Definition buildExtraConsumptionInactivity (tenantID : string)
    (transaction : Transaction.t) : M unit :=
  match Transaction.stop transaction with
  | None => throw TypeError
  | Some stop =>
      modify (ConsumptionStorage.saveConsumption tenantID
        {| Consumption.transactionId := Transaction.id transaction;
           Consumption.startedAt := TransactionStop.timestamp stop;
           Consumption.endedAt :=
             TransactionStop.timestamp stop
             + 1000 * TransactionStop.extraInactivitySecs stop;
           Consumption.consumptionWh := 0;
           Consumption.instantWatts := 0;
           Consumption.cumulatedConsumptionWh := TransactionStop.totalConsumptionWh stop;
           Consumption.totalInactivitySecs :=
             TransactionStop.totalInactivitySecs stop
             + TransactionStop.extraInactivitySecs stop;
           Consumption.limitSource := None;
           Consumption.limitAmps := None;
           Consumption.stateOfCharge := TransactionStop.stateOfCharge stop;
           Consumption.toPrice := false |})
  end.

End OCPPUtils.

(** ** The service *)

Section OCPPService.

Context {I : Integrations}.

(** [this.chargingStationConfig], set by the constructor. *)
Variable chargingStationConfig : ChargingStationConfiguration.t.

(** *** StopTransaction *)

Definition getStopTransactionTagId (now : Z)
    (stopTransaction : OCPPStopTransactionRequestExtended.t)
    (transaction : Transaction.t) : string :=
  let remotely :=
    match Transaction.remotestop transaction with
    | Some remotestop =>
        (* moment.duration(moment().diff(...)).asSeconds() < 60 *)
        if now - RemoteStop.timestamp remotestop <? 60 * 1000
        then Some (RemoteStop.tagID remotestop) else None
    | None => None
    end in
  match remotely with
  | Some tagID => tagID
  | None =>
      match OCPPStopTransactionRequestExtended.idTag stopTransaction with
      | Some idTag =>
          if JS.truthy_string (Some idTag) then idTag else Transaction.tagID transaction
      | None => Transaction.tagID transaction
      end
  end.

(** The body of the [for (const consumption of consumptions)] loop of
    [handleStopTransaction], iterated. *)
Fixpoint stopWithConsumptions (tenantID : string) (chargingStation : ChargingStation.t)
    (stopTransaction : OCPPStopTransactionRequestExtended.t)
    (stopMeterValues : list OCPPNormalizedMeterValue.t)
    (user alternateUser : option User.t) (tagId : string)
    (transaction : Transaction.t) (consumptions : list Consumption.t)
    : M Transaction.t :=
  match consumptions with
  | [] => ret transaction
  | consumption :: consumptions' =>
      let transaction :=
        updateTransactionWithConsumption chargingStation transaction consumption in
      let transaction :=
        updateTransactionWithStopTransactionAndStopMeterValues
          transaction stopTransaction stopMeterValues user alternateUser tagId in
      '(transaction, consumption) <-
        (if Consumption.toPrice consumption then
           '(transaction, consumption) <-
             lift (priceTransaction tenantID transaction consumption
                     TransactionAction.STOP) ;;
           transaction <-
             lift (billTransaction tenantID transaction TransactionAction.STOP) ;;
           ret (transaction, consumption)
         else ret (transaction, consumption)) ;;
      modify (ConsumptionStorage.saveConsumption tenantID consumption) ;;;
      stopWithConsumptions tenantID chargingStation stopTransaction stopMeterValues
        user alternateUser tagId transaction consumptions'
  end.

(** The roaming block: [try { OCPI; OICP } catch { log }].  A failure is
    logged and the transaction is kept as it was when the failing call
    started. *)
Definition processRoaming (tenant : Tenant.t) (chargingStation : ChargingStation.t)
    (action : TransactionAction.t) (transaction : Transaction.t) : Transaction.t :=
  let ocpi :=
    match Transaction.ocpiData transaction with
    | Some data =>
        if JS.truthy (RoamingData.session data)
        then processOCPITransaction tenant transaction chargingStation action
        else Ok transaction
    | None => Ok transaction
    end in
  match ocpi with
  | Throw _ => transaction
  | Ok transaction =>
      let oicp :=
        match Transaction.oicpData transaction with
        | Some data =>
            if JS.truthy_string (RoamingData.session data)
            then processOICPTransaction tenant transaction chargingStation action
            else Ok transaction
        | None => Ok transaction
        end in
      match oicp with
      | Throw _ => transaction
      | Ok transaction => transaction
      end
  end.

(** [notifyStopTransaction] sends asynchronously, but it builds the message
    first and reads [transaction.stop.totalConsumptionWh] for it: without a
    stop block that read throws. *)
Definition notifyStopTransaction (tenant : Tenant.t) (transaction : Transaction.t)
    (user alternateUser : option User.t) : M unit :=
  (* User provided? *)
  match user with
  | Some _ =>
      match Transaction.stop transaction with
      | Some stop =>
          NotificationHandler.send (Tenant.id tenant)
            (Notification.EndOfSession (Transaction.id transaction)) ;;;
          if negb (TransactionStop.signedData stop =? "")%string then
            NotificationHandler.send (Tenant.id tenant)
              (Notification.EndOfSignedSession (Transaction.id transaction))
          else ret tt
      | None => throw TypeError
      end
  | None => ret tt
  end.

Definition stopAccepted : OCPPStopTransactionResponse.t :=
  {| OCPPStopTransactionResponse.idTagInfo := OCPPAuthorizationStatus.ACCEPTED |}.

Definition stopInvalid : OCPPStopTransactionResponse.t :=
  {| OCPPStopTransactionResponse.idTagInfo := OCPPAuthorizationStatus.INVALID |}.

(** The [try] block of [handleStopTransaction]. *)
Definition handleStopTransaction_try (now : Z) (headers : OCPPHeader.t)
    (stopTransaction : OCPPStopTransactionRequestExtended.t)
    (isSoftStop stoppedByCentralSystem : bool) : M OCPPStopTransactionResponse.t :=
  (* Get the charging station *)
  '(chargingStation, tenant) <- OCPPUtils.checkAndGetTenantAndChargingStation headers ;;
  (* Check props *)
  (if validateStopTransaction chargingStation stopTransaction
   then ret tt else throw ValidationFailed) ;;;
  (* Check Transaction ID = 0 *)
  if OCPPStopTransactionRequestExtended.transactionId stopTransaction =? 0 then
    (* Ignore it! (DELTA bug) *)
    ret stopAccepted
  else
    (* Set header *)
    let stopTransaction :=
      stopTransaction <| OCPPStopTransactionRequestExtended.chargeBoxID :=
        Some (ChargingStation.id chargingStation) |> in
    (* Get the transaction *)
    transaction <-
      gets (TransactionStorage.getTransaction (Tenant.id tenant)
              (OCPPStopTransactionRequestExtended.transactionId stopTransaction)) ;;
    match transaction with
    | None => throw TransactionNotFound
    | Some transaction =>
        (* Get the TagID that stopped the transaction *)
        let tagId := getStopTransactionTagId now stopTransaction transaction in
        (* Transaction is stopped by central system? *)
        '(user, alternateUser) <-
          (if negb stoppedByCentralSystem then
             lift (isAuthorizedToStopTransaction (Tenant.id tenant) chargingStation
                     transaction tagId)
           else
             ret (getUserByTagId (Tenant.id tenant) tagId, None)) ;;
        (* Check if the transaction has already been stopped *)
        if JS.truthy (Transaction.stop transaction) then
          throw TransactionAlreadyStopped
        else
          (* Free the connector *)
          let chargingStation :=
            OCPPUtils.checkAndFreeChargingStationConnector chargingStation
              (Transaction.connectorId transaction) in
          let chargingStation :=
            chargingStation <| ChargingStation.lastSeen := Some now |> in
          (* Save Charging Station *)
          modify (ChargingStationStorage.saveChargingStation (Tenant.id tenant)
                    chargingStation) ;;;
          (* Soft Stop? *)
          let stopTransaction :=
            if isSoftStop then
              match Transaction.lastConsumption transaction with
              | Some lastConsumption =>
                  stopTransaction <| OCPPStopTransactionRequestExtended.meterStop :=
                    LastConsumption.value lastConsumption |>
              | None =>
                  stopTransaction <| OCPPStopTransactionRequestExtended.meterStop := 0 |>
              end
            else stopTransaction in
          (* Create last meter values *)
          let stopMeterValues :=
            createTransactionStopMeterValues (Tenant.id tenant) chargingStation
              transaction stopTransaction in
          (* Build final Consumptions *)
          '(transaction, consumptions) <-
            lift (createConsumptionsFromMeterValues (Tenant.id tenant) chargingStation
                    transaction stopMeterValues) ;;
          (* Update *)
          transaction <-
            stopWithConsumptions (Tenant.id tenant) chargingStation stopTransaction
              stopMeterValues user alternateUser tagId transaction consumptions ;;
          (* Roaming *)
          let transaction :=
            processRoaming tenant chargingStation TransactionAction.STOP transaction in
          (* Save the transaction *)
          id <- (fun db => let (id, db') :=
                   TransactionStorage.saveTransaction (Tenant.id tenant) transaction db in
                 (Ok id, db')) ;;
          let transaction := transaction <| Transaction.id := id |> in
          (* Notify User *)
          notifyStopTransaction tenant transaction user alternateUser ;;;
          (* Recompute the Smart Charging Plan: the TX charging profiles are
             deleted (a collection the store of this model does not hold,
             failures are caught) and the optimisation is deferred *)
          (* Success *)
          ret stopAccepted
    end.

(** [handleStopTransaction]: whatever is thrown is logged and answered with
    [Invalid]. *)
Definition handleStopTransaction (now : Z) (headers : OCPPHeader.t)
    (stopTransaction : OCPPStopTransactionRequestExtended.t)
    (isSoftStop stoppedByCentralSystem : bool) (db : DB.t)
    : OCPPStopTransactionResponse.t * DB.t :=
  match handleStopTransaction_try now headers stopTransaction isSoftStop
          stoppedByCentralSystem db with
  | (Ok response, db') => (response, db')
  | (Throw _, db') => (stopInvalid, db')
  end.

(** *** Cleanup of the active transactions of a connector *)

(** The header and the request [stopOrDeleteActiveTransactions] builds to
    simulate a StopTransaction. *)
Definition cleanupHeaders (tenant : Tenant.t) (activeTransaction : Transaction.t)
    : OCPPHeader.t :=
  {| OCPPHeader.tenantID := Tenant.id tenant;
     OCPPHeader.chargeBoxIdentity := Some (Transaction.chargeBoxID activeTransaction);
     OCPPHeader.currentIPAddress := None;
     OCPPHeader.ocppProtocol := None;
     OCPPHeader.ocppVersion := None;
     OCPPHeader.token := None;
     OCPPHeader.From := None;
     OCPPHeader.chargingStationURL := None |}.

Definition cleanupStopTransaction (activeTransaction : Transaction.t)
    : OCPPStopTransactionRequestExtended.t :=
  {| OCPPStopTransactionRequestExtended.chargeBoxID :=
       Some (Transaction.chargeBoxID activeTransaction);
     OCPPStopTransactionRequestExtended.transactionId := Transaction.id activeTransaction;
     OCPPStopTransactionRequestExtended.idTag := None;
     OCPPStopTransactionRequestExtended.meterStop :=
       match Transaction.lastConsumption activeTransaction with
       | Some lastConsumption => LastConsumption.value lastConsumption
       | None => Transaction.meterStart activeTransaction
       end;
     OCPPStopTransactionRequestExtended.timestamp :=
       match Transaction.lastConsumption activeTransaction with
       | Some lastConsumption => LastConsumption.timestamp lastConsumption
       | None => Transaction.timestamp activeTransaction
       end;
     OCPPStopTransactionRequestExtended.transactionData := None |}.

(** What one turn of the [do ... while (activeTransaction)] loop does to
    the store once it has fetched [activeTransaction] and found it
    different from the last one checked. *)
Definition stopOrDelete (now : Z) (tenant : Tenant.t) (activeTransaction : Transaction.t)
    (db : DB.t) : DB.t :=
  (* Has consumption? *)
  if Transaction.currentTotalConsumptionWh activeTransaction <=? 0 then
    (* No consumption: delete *)
    TransactionStorage.deleteTransaction (Tenant.id tenant)
      (Transaction.id activeTransaction) db
  else
    (* Simulate a Stop Transaction *)
    snd (handleStopTransaction now (cleanupHeaders tenant activeTransaction)
           (cleanupStopTransaction activeTransaction) false true db).

(** [stopOrDeleteActiveTransactions]; [fuel] bounds the number of turns of
    the loop, [None] is "still looping". *)
Fixpoint stopOrDeleteActiveTransactions_loop (fuel : nat) (now : Z) (tenant : Tenant.t)
    (chargeBoxID : string) (connectorId : Z) (lastCheckedTransactionID : option Z)
    (db : DB.t) : option DB.t :=
  match fuel with
  | O => None
  | S fuel' =>
      (* Check if the charging station has already a transaction *)
      match TransactionStorage.getActiveTransaction (Tenant.id tenant) chargeBoxID
              connectorId db with
      | None => Some db
      | Some activeTransaction =>
          (* Avoid infinite Loop *)
          if match lastCheckedTransactionID with
             | Some last => last =? Transaction.id activeTransaction
             | None => false
             end
          then Some db
          else
            stopOrDeleteActiveTransactions_loop fuel' now tenant chargeBoxID connectorId
              (* Keep last Transaction ID *)
              (Some (Transaction.id activeTransaction))
              (stopOrDelete now tenant activeTransaction db)
      end
  end.

Definition stopOrDeleteActiveTransactions (fuel : nat) (now : Z) (tenant : Tenant.t)
    (chargeBoxID : string) (connectorId : Z) (db : DB.t) : option DB.t :=
  stopOrDeleteActiveTransactions_loop fuel now tenant chargeBoxID connectorId None db.

(** [checkStatusNotificationOngoingTransaction]: the in-memory station it
    is given comes back with the connector freed; the store is cleaned. *)
Definition checkStatusNotificationOngoingTransaction (fuel : nat) (now : Z)
    (tenant : Tenant.t) (chargingStation : ChargingStation.t)
    (statusNotification : OCPPStatusNotificationRequestExtended.t)
    (connector : Connector.t) (db : DB.t) : option (ChargingStation.t * DB.t) :=
  (* Check the status *)
  if (0 <? OCPPStatusNotificationRequestExtended.connectorId statusNotification)
     && (0 <? Connector.currentTransactionID connector)
     && ChargePointStatus.eqb (OCPPStatusNotificationRequestExtended.status statusNotification)
          ChargePointStatus.AVAILABLE
  then
    (* Cleanup ongoing transactions on the connector *)
    match stopOrDeleteActiveTransactions fuel now tenant
            (ChargingStation.id chargingStation)
            (OCPPStatusNotificationRequestExtended.connectorId statusNotification) db with
    | None => None
    | Some db' =>
        (* Clean up connector *)
        Some (OCPPUtils.checkAndFreeChargingStationConnector chargingStation
                (OCPPStatusNotificationRequestExtended.connectorId statusNotification),
              db')
    end
  else Some (chargingStation, db).

(** *** BootNotification *)

Definition heartbeatIntervalSecs (headers : OCPPHeader.t) : option Z :=
  match OCPPHeader.ocppProtocol headers with
  | Some OCPPProtocol.SOAP =>
      Some (ChargingStationConfiguration.heartbeatIntervalOCPPSSecs chargingStationConfig)
  | Some OCPPProtocol.JSON =>
      Some (ChargingStationConfiguration.heartbeatIntervalOCPPJSecs chargingStationConfig)
  | None => None
  end.

(** [!token || !token.expirationDate || moment().isAfter(token.expirationDate)] *)
Definition tokenInvalidOrExpired (now : Z) (token : option RegistrationToken.t) : bool :=
  match token with
  | None => true
  | Some token =>
      negb (JS.truthy (RegistrationToken.expirationDate token))
      || JS.isAfter now (RegistrationToken.expirationDate token)
  end.

(** [token.revocationDate || moment().isAfter(token.revocationDate)] *)
Definition tokenRevoked (now : Z) (token : RegistrationToken.t) : bool :=
  JS.truthy (RegistrationToken.revocationDate token)
  || JS.isAfter now (RegistrationToken.revocationDate token).

(** [chargingStation = {}; for (const key in bootNotification)
    chargingStation[key] = bootNotification[key]]: the properties of the
    notification, every other property still unset. *)
Definition copyBootNotification (chargeBoxIdentity : string)
    (bootNotification : OCPPBootNotificationRequestExtended.t) : ChargingStation.t :=
  {| ChargingStation.id := chargeBoxIdentity;
     ChargingStation.chargePointVendor :=
       OCPPBootNotificationRequestExtended.chargePointVendor bootNotification;
     ChargingStation.chargePointModel :=
       OCPPBootNotificationRequestExtended.chargePointModel bootNotification;
     ChargingStation.chargePointSerialNumber :=
       OCPPBootNotificationRequestExtended.chargePointSerialNumber bootNotification;
     ChargingStation.chargeBoxSerialNumber :=
       OCPPBootNotificationRequestExtended.chargeBoxSerialNumber bootNotification;
     ChargingStation.firmwareVersion :=
       OCPPBootNotificationRequestExtended.firmwareVersion bootNotification;
     ChargingStation.endpoint :=
       OCPPBootNotificationRequestExtended.endpoint bootNotification;
     ChargingStation.ocppVersion :=
       OCPPBootNotificationRequestExtended.ocppVersion bootNotification;
     ChargingStation.ocppProtocol :=
       OCPPBootNotificationRequestExtended.ocppProtocol bootNotification;
     ChargingStation.currentIPAddress :=
       OCPPBootNotificationRequestExtended.currentIPAddress bootNotification;
     ChargingStation.chargingStationURL := None;
     ChargingStation.cfApplicationIDAndInstanceIndex := None;
     ChargingStation.registrationStatus := None;
     ChargingStation.issuer := false;
     ChargingStation.public := false;
     ChargingStation.deleted := false;
     ChargingStation.createdOn := None;
     ChargingStation.powerLimitUnit := None;
     ChargingStation.lastReboot :=
       OCPPBootNotificationRequestExtended.lastReboot bootNotification;
     ChargingStation.lastSeen :=
       OCPPBootNotificationRequestExtended.lastSeen bootNotification;
     ChargingStation.siteAreaID := None;
     ChargingStation.siteID := None;
     ChargingStation.coordinates := None;
     ChargingStation.connectors := [] |}.

(** [siteArea?.address?.coordinates?.length === 2] *)
Definition twoCoordinates (siteArea : SiteArea.t) : option (list Z) :=
  match SiteArea.address siteArea with
  | Some address =>
      match Address.coordinates address with
      | Some coordinates =>
          if (List.length coordinates =? 2)%nat then Some coordinates else None
      | None => None
      end
  | None => None
  end.

(** The branch [if (!chargingStation)] of [handleBootNotification]: a
    station the tenant does not know registers with a token. *)
Definition registerChargingStation (now : Z) (headers : OCPPHeader.t)
    (tenant : Tenant.t) (chargeBoxIdentity : string)
    (bootNotification : OCPPBootNotificationRequestExtended.t) : M ChargingStation.t :=
  match OCPPHeader.token headers with
  | None => throw TokenRequired
  | Some tokenID =>
      if negb (JS.truthy_string (Some tokenID)) then throw TokenRequired
      else
        token <- gets (RegistrationTokenStorage.getRegistrationToken (Tenant.id tenant)
                         tokenID) ;;
        if tokenInvalidOrExpired now token then throw TokenInvalidOrExpired
        else
          match token with
          | None => throw TokenInvalidOrExpired
          | Some token =>
              if tokenRevoked now token then throw TokenRevoked
              else
                (* New Charging Station: Create *)
                let chargingStation :=
                  copyBootNotification chargeBoxIdentity bootNotification in
                (* Update props *)
                let chargingStation :=
                  chargingStation
                    <| ChargingStation.createdOn := Some now |>
                    <| ChargingStation.issuer := true |>
                    <| ChargingStation.powerLimitUnit :=
                         Some ChargingRateUnitType.AMPERE |>
                    <| ChargingStation.registrationStatus :=
                         Some RegistrationStatus.ACCEPTED |> in
                (* Assign to Site Area *)
                match RegistrationToken.siteAreaID token with
                | Some siteAreaID =>
                    if JS.truthy_string (Some siteAreaID) then
                      siteArea <- gets (SiteAreaStorage.getSiteArea (Tenant.id tenant)
                                          siteAreaID) ;;
                      match siteArea with
                      | Some siteArea =>
                          let chargingStation :=
                            chargingStation
                              <| ChargingStation.siteAreaID := Some siteAreaID |>
                              <| ChargingStation.siteID := SiteArea.siteID siteArea |> in
                          (* Set the same coordinates *)
                          match twoCoordinates siteArea with
                          | Some coordinates =>
                              ret (chargingStation
                                     <| ChargingStation.coordinates := Some coordinates |>)
                          | None => ret chargingStation
                          end
                      | None => ret chargingStation
                      end
                    else ret chargingStation
                | None => ret chargingStation
                end
          end
  end.

(** The condition of "Not the same Charging Station!". *)
Definition attributeMismatch (chargingStation : ChargingStation.t)
    (bootNotification : OCPPBootNotificationRequestExtended.t) : bool :=
  (negb (ChargingStation.chargePointVendor chargingStation
         =? OCPPBootNotificationRequestExtended.chargePointVendor bootNotification)%string
   || negb (ChargingStation.chargePointModel chargingStation
            =? OCPPBootNotificationRequestExtended.chargePointModel bootNotification)%string)
  || (JS.truthy_string (ChargingStation.chargePointSerialNumber chargingStation)
      && JS.truthy_string
           (OCPPBootNotificationRequestExtended.chargePointSerialNumber bootNotification)
      && negb (JS.strict_eq_string
                 (ChargingStation.chargePointSerialNumber chargingStation)
                 (OCPPBootNotificationRequestExtended.chargePointSerialNumber
                    bootNotification))).

(** The branch [else] of [handleBootNotification]: a station the tenant
    knows boots again. *)
Definition rebootChargingStation (chargingStation : ChargingStation.t)
    (bootNotification : OCPPBootNotificationRequestExtended.t) : M ChargingStation.t :=
  (* Check if same vendor and model *)
  if attributeMismatch chargingStation bootNotification then
    (* Not the same Charging Station! *)
    throw AttributeMismatch
  else
    ret (chargingStation
           <| ChargingStation.chargePointSerialNumber :=
                OCPPBootNotificationRequestExtended.chargePointSerialNumber
                  bootNotification |>
           <| ChargingStation.chargeBoxSerialNumber :=
                OCPPBootNotificationRequestExtended.chargeBoxSerialNumber
                  bootNotification |>
           <| ChargingStation.firmwareVersion :=
                OCPPBootNotificationRequestExtended.firmwareVersion bootNotification |>
           <| ChargingStation.lastReboot :=
                OCPPBootNotificationRequestExtended.lastReboot bootNotification |>
           <| ChargingStation.registrationStatus := Some RegistrationStatus.ACCEPTED |>
           (* Back again *)
           <| ChargingStation.deleted := false |>).

(** The notification once the handler has stamped it with the header and
    the clock. *)
Definition stampBootNotification (now : Z) (headers : OCPPHeader.t)
    (chargeBoxIdentity : string)
    (bootNotification : OCPPBootNotificationRequestExtended.t)
    : OCPPBootNotificationRequestExtended.t :=
  bootNotification
    <| OCPPBootNotificationRequestExtended.id := Some chargeBoxIdentity |>
    <| OCPPBootNotificationRequestExtended.chargeBoxID := Some chargeBoxIdentity |>
    <| OCPPBootNotificationRequestExtended.currentIPAddress :=
         OCPPHeader.currentIPAddress headers |>
    <| OCPPBootNotificationRequestExtended.ocppProtocol :=
         OCPPHeader.ocppProtocol headers |>
    <| OCPPBootNotificationRequestExtended.ocppVersion :=
         OCPPHeader.ocppVersion headers |>
    (* Set the default *)
    <| OCPPBootNotificationRequestExtended.lastReboot := Some now |>
    <| OCPPBootNotificationRequestExtended.lastSeen := Some now |>
    <| OCPPBootNotificationRequestExtended.timestamp := Some now |>.

(** Lines 199-210: what both branches do to the station afterwards. *)
Definition stampChargingStation (headers : OCPPHeader.t)
    (bootNotification : OCPPBootNotificationRequestExtended.t)
    (chargingStation : ChargingStation.t) : ChargingStation.t :=
  let chargingStation :=
    chargingStation
      <| ChargingStation.ocppVersion := OCPPHeader.ocppVersion headers |>
      <| ChargingStation.ocppProtocol := OCPPHeader.ocppProtocol headers |>
      <| ChargingStation.lastSeen :=
           OCPPBootNotificationRequestExtended.lastSeen bootNotification |>
      <| ChargingStation.currentIPAddress :=
           OCPPBootNotificationRequestExtended.currentIPAddress bootNotification |> in
  (* Set the Charging Station URL? *)
  let chargingStation :=
    if JS.truthy_string (OCPPHeader.chargingStationURL headers)
    then chargingStation <| ChargingStation.chargingStationURL :=
           OCPPHeader.chargingStationURL headers |>
    else chargingStation in
  (* Update CF Instance *)
  match getCFApplicationIDAndInstanceIndex with
  | Some instance =>
      chargingStation <| ChargingStation.cfApplicationIDAndInstanceIndex := Some instance |>
  | None => chargingStation
  end.

(** The station object of the handler when it reaches the template step:
    lines 103-210. *)
Definition bootChargingStation (now : Z) (headers : OCPPHeader.t) (tenant : Tenant.t)
    (chargeBoxIdentity : string)
    (bootNotification : OCPPBootNotificationRequestExtended.t) : M ChargingStation.t :=
  (* Get the charging station *)
  chargingStation <-
    gets (ChargingStationStorage.getChargingStation (Tenant.id tenant)
            chargeBoxIdentity) ;;
  chargingStation <-
    match chargingStation with
    | None => registerChargingStation now headers tenant chargeBoxIdentity bootNotification
    | Some chargingStation => rebootChargingStation chargingStation bootNotification
    end ;;
  ret (stampChargingStation headers bootNotification chargingStation).

(** The [try] block of [handleBootNotification]. *)
Definition handleBootNotification_try (now : Z) (headers : OCPPHeader.t)
    (bootNotification : OCPPBootNotificationRequestExtended.t)
    : M OCPPBootNotificationResponse.t :=
  (* Check props *)
  (if validateBootNotification bootNotification
   then ret tt else throw ValidationFailed) ;;;
  (* Set the endpoint *)
  let bootNotification :=
    match OCPPHeader.From headers with
    | Some address =>
        bootNotification <| OCPPBootNotificationRequestExtended.endpoint := Some address |>
    | None => bootNotification
    end in
  (* Set the ChargeBox ID *)
  match OCPPHeader.chargeBoxIdentity headers with
  | None => throw MissingChargeBoxIdentity
  | Some chargeBoxIdentity =>
      if negb (JS.truthy_string (Some chargeBoxIdentity))
      then throw MissingChargeBoxIdentity
      else
        (* Get Tenant *)
        tenant <- gets (TenantStorage.getTenant (OCPPHeader.tenantID headers)) ;;
        match tenant with
        | None => throw UnknownTenant
        | Some tenant =>
            let bootNotification :=
              stampBootNotification now headers chargeBoxIdentity bootNotification in
            chargingStation <-
              bootChargingStation now headers tenant chargeBoxIdentity bootNotification ;;
            (* Apply Charging Station Template *)
            let '(chargingStation, chargingStationTemplateUpdateResult) :=
              applyTemplateToChargingStation (Tenant.id tenant) chargingStation in
            (* No matching template or manual configuration *)
            (if negb (TemplateUpdateResult.chargingStationUpdated
                        chargingStationTemplateUpdateResult)
             then
               let chargingStation :=
                 checkAndSetChargingStationAmperageLimit chargingStation in
               let chargingStation :=
                 setChargingStationPhaseAssignment (Tenant.id tenant) chargingStation in
               (* Save Charging Station *)
               modify (ChargingStationStorage.saveChargingStation (Tenant.id tenant)
                         chargingStation)
             else ret tt) ;;;
            (* Save Boot Notification *)
            modify (OCPPStorage.saveBootNotification (Tenant.id tenant) bootNotification) ;;;
            (* Send Notification (Async) *)
            NotificationHandler.send (Tenant.id tenant)
              (Notification.ChargingStationRegistered
                 (ChargingStation.id chargingStation)) ;;;
            (* Return the result *)
            ret {| OCPPBootNotificationResponse.currentTime := now;
                   OCPPBootNotificationResponse.status := RegistrationStatus.ACCEPTED;
                   OCPPBootNotificationResponse.interval := heartbeatIntervalSecs headers |}
        end
  end.

(** [handleBootNotification]: whatever is thrown is logged and answered
    with [Rejected]. *)
Definition handleBootNotification (now : Z) (headers : OCPPHeader.t)
    (bootNotification : OCPPBootNotificationRequestExtended.t) (db : DB.t)
    : OCPPBootNotificationResponse.t * DB.t :=
  match handleBootNotification_try now headers bootNotification db with
  | (Ok response, db') => (response, db')
  | (Throw _, db') =>
      ({| OCPPBootNotificationResponse.status := RegistrationStatus.REJECTED;
          OCPPBootNotificationResponse.currentTime := now;
          OCPPBootNotificationResponse.interval := Some BOOT_NOTIFICATION_WAIT_TIME |},
       db')
  end.

(** *** MeterValues *)

(** "First time: clear all values" *)
Definition clearInstantValues (transaction : Transaction.t) : Transaction.t :=
  transaction
    <| Transaction.currentInstantWatts := 0 |>
    <| Transaction.currentInstantWattsL1 := 0 |>
    <| Transaction.currentInstantWattsL2 := 0 |>
    <| Transaction.currentInstantWattsL3 := 0 |>
    <| Transaction.currentInstantWattsDC := 0 |>
    <| Transaction.currentInstantVolts := 0 |>
    <| Transaction.currentInstantVoltsL1 := 0 |>
    <| Transaction.currentInstantVoltsL2 := 0 |>
    <| Transaction.currentInstantVoltsL3 := 0 |>
    <| Transaction.currentInstantVoltsDC := 0 |>
    <| Transaction.currentInstantAmps := 0 |>
    <| Transaction.currentInstantAmpsL1 := 0 |>
    <| Transaction.currentInstantAmpsL2 := 0 |>
    <| Transaction.currentInstantAmpsL3 := 0 |>
    <| Transaction.currentInstantAmpsDC := 0 |>
    <| Transaction.transactionEndReceived := true |>.

(** The first statement of the loop body of
    [updateTransactionWithMeterValues]. *)
Definition flagTransactionEnd (transaction : Transaction.t)
    (meterValue : OCPPNormalizedMeterValue.t) : Transaction.t :=
  if OCPPReadingContext.eqb
       (OCPPAttribute.context (OCPPNormalizedMeterValue.attribute meterValue))
       OCPPReadingContext.TRANSACTION_END
  then
    (* Flag it *)
    if negb (Transaction.transactionEndReceived transaction)
    then clearInstantValues transaction
    else transaction
  else transaction.

Definition setVoltage (chargingStation : ChargingStation.t) (transaction : Transaction.t)
    (meterValue : OCPPNormalizedMeterValue.t) : Transaction.t :=
  let voltage := Utils.convertToFloat (OCPPNormalizedMeterValue.value meterValue) in
  match getChargingStationCurrentType chargingStation
          (Transaction.connectorId transaction) with
  | Some CurrentType.DC => transaction <| Transaction.currentInstantVoltsDC := voltage |>
  | Some CurrentType.AC =>
      match OCPPAttribute.phase (OCPPNormalizedMeterValue.attribute meterValue) with
      | Some OCPPPhase.L1_N | Some OCPPPhase.L1 =>
          transaction <| Transaction.currentInstantVoltsL1 := voltage |>
      | Some OCPPPhase.L2_N | Some OCPPPhase.L2 =>
          transaction <| Transaction.currentInstantVoltsL2 := voltage |>
      | Some OCPPPhase.L3_N | Some OCPPPhase.L3 =>
          transaction <| Transaction.currentInstantVoltsL3 := voltage |>
      | Some OCPPPhase.L1_L2 | Some OCPPPhase.L2_L3 | Some OCPPPhase.L3_L1 =>
          (* Do nothing *)
          transaction
      | _ => transaction <| Transaction.currentInstantVolts := voltage |>
      end
  | None => transaction
  end.

Definition setPower (chargingStation : ChargingStation.t) (transaction : Transaction.t)
    (meterValue : OCPPNormalizedMeterValue.t) : Transaction.t :=
  let powerInMeterValue :=
    Utils.convertToFloat (OCPPNormalizedMeterValue.value meterValue) in
  let powerInMeterValueWatts :=
    match OCPPAttribute.unit (OCPPNormalizedMeterValue.attribute meterValue) with
    | OCPPUnitOfMeasure.KILO_WATT => powerInMeterValue * 1000
    | _ => powerInMeterValue
    end in
  match getChargingStationCurrentType chargingStation
          (Transaction.connectorId transaction) with
  | Some CurrentType.DC =>
      transaction <| Transaction.currentInstantWattsDC := powerInMeterValueWatts |>
  | Some CurrentType.AC =>
      match OCPPAttribute.phase (OCPPNormalizedMeterValue.attribute meterValue) with
      | Some OCPPPhase.L1_N | Some OCPPPhase.L1 =>
          transaction <| Transaction.currentInstantWattsL1 := powerInMeterValueWatts |>
      | Some OCPPPhase.L2_N | Some OCPPPhase.L2 =>
          transaction <| Transaction.currentInstantWattsL2 := powerInMeterValueWatts |>
      | Some OCPPPhase.L3_N | Some OCPPPhase.L3 =>
          transaction <| Transaction.currentInstantWattsL3 := powerInMeterValueWatts |>
      | _ => transaction <| Transaction.currentInstantWatts := powerInMeterValueWatts |>
      end
  | None => transaction
  end.

Definition setCurrent (chargingStation : ChargingStation.t) (transaction : Transaction.t)
    (meterValue : OCPPNormalizedMeterValue.t) : Transaction.t :=
  let amperage := Utils.convertToFloat (OCPPNormalizedMeterValue.value meterValue) in
  match getChargingStationCurrentType chargingStation
          (Transaction.connectorId transaction) with
  | Some CurrentType.DC => transaction <| Transaction.currentInstantAmpsDC := amperage |>
  | Some CurrentType.AC =>
      match OCPPAttribute.phase (OCPPNormalizedMeterValue.attribute meterValue) with
      | Some OCPPPhase.L1 => transaction <| Transaction.currentInstantAmpsL1 := amperage |>
      | Some OCPPPhase.L2 => transaction <| Transaction.currentInstantAmpsL2 := amperage |>
      | Some OCPPPhase.L3 => transaction <| Transaction.currentInstantAmpsL3 := amperage |>
      | _ =>
          (* the meter value is per phase, the transaction holds the total *)
          transaction <| Transaction.currentInstantAmps :=
            amperage * getNumberOfConnectedPhases chargingStation
                         (Transaction.connectorId transaction) |>
      end
  | None => transaction
  end.

(** What the loop body does with the value once the end flag is handled:
    signed data, state of charge, voltage / power / current at
    [Transaction.End], and the count of energy readings. *)
Definition recordMeterValue (chargingStation : ChargingStation.t)
    (transaction : Transaction.t) (meterValue : OCPPNormalizedMeterValue.t)
    : Transaction.t :=
  let attribute := OCPPNormalizedMeterValue.attribute meterValue in
  (* Signed Data *)
  let '(transaction, signed) := OCPPUtils.updateSignedData transaction meterValue in
  if signed then transaction
  else
    match OCPPAttribute.measurand attribute, OCPPAttribute.context attribute with
    (* SoC *)
    | OCPPMeasurand.STATE_OF_CHARGE, OCPPReadingContext.TRANSACTION_BEGIN =>
        transaction <| Transaction.stateOfCharge :=
          Utils.convertToFloat (OCPPNormalizedMeterValue.value meterValue) |>
    | OCPPMeasurand.STATE_OF_CHARGE, OCPPReadingContext.TRANSACTION_END =>
        transaction <| Transaction.currentStateOfCharge :=
          Utils.convertToFloat (OCPPNormalizedMeterValue.value meterValue) |>
    (* Voltage, Power, Current *)
    | OCPPMeasurand.VOLTAGE, OCPPReadingContext.TRANSACTION_END =>
        setVoltage chargingStation transaction meterValue
    | OCPPMeasurand.POWER_ACTIVE_IMPORT, OCPPReadingContext.TRANSACTION_END =>
        setPower chargingStation transaction meterValue
    | OCPPMeasurand.CURRENT_IMPORT, OCPPReadingContext.TRANSACTION_END =>
        setCurrent chargingStation transaction meterValue
    (* Consumption *)
    | _, _ =>
        if isEnergyActiveImportMeterValue meterValue
        then transaction <| Transaction.numberOfMeterValues :=
               Transaction.numberOfMeterValues transaction + 1 |>
        else transaction
    end.

(** One turn of the loop of [updateTransactionWithMeterValues]. *)
Definition updateTransactionWithMeterValue (chargingStation : ChargingStation.t)
    (transaction : Transaction.t) (meterValue : OCPPNormalizedMeterValue.t)
    : Transaction.t :=
  recordMeterValue chargingStation (flagTransactionEnd transaction meterValue) meterValue.

Definition updateTransactionWithMeterValues (chargingStation : ChargingStation.t)
    (transaction : Transaction.t) (meterValues : list OCPPNormalizedMeterValue.t)
    : Transaction.t :=
  fold_left (updateTransactionWithMeterValue chargingStation) meterValues transaction.

(** The callback given to [filter]: an [async] arrow function, so what
    [filter] receives is the promise of the boolean the body returns. *)
Definition removeSampleClock (meterValue : OCPPNormalizedMeterValue.t) : JS.value :=
  JS.Promise
    ((* Remove Sample Clock *)
     if OCPPReadingContext.eqb
          (OCPPAttribute.context (OCPPNormalizedMeterValue.attribute meterValue))
          OCPPReadingContext.SAMPLE_CLOCK
     then JS.Bool false
     else JS.Bool true).

Definition filterMeterValuesOnSpecificChargingStations
    (chargingStation : ChargingStation.t) (meterValues : OCPPNormalizedMeterValues.t)
    : OCPPNormalizedMeterValues.t :=
  (* Clean up Sample.Clock meter value *)
  if negb (ChargingStation.chargePointVendor chargingStation =? ChargerVendor.ABB)%string
     || negb (match ChargingStation.ocppVersion chargingStation with
              | Some v => OCPPVersion.eqb v OCPPVersion.VERSION_15
              | None => false
              end)
  then
    (* Filter Sample.Clock meter value for all chargers except ABB using OCPP 1.5 *)
    meterValues <| OCPPNormalizedMeterValues.values :=
      JS.filter removeSampleClock (OCPPNormalizedMeterValues.values meterValues) |>
  else meterValues.

(** *** End of charge *)

(** [transactionDurationToString]: the duration the message carries runs
    from the start of the transaction to its last consumption while it is
    open, and to its stop once it is closed.  The value is the difference
    in milliseconds, which the source hands to the formatter of the
    duration.  The read of [lastConsumption.timestamp] on a transaction
    that has no last consumption is the [TypeError] of a property read on
    [undefined]. *)
Definition transactionDurationToString (transaction : Transaction.t) : Result Z :=
  match Transaction.stop transaction with
  | None =>
      match Transaction.lastConsumption transaction with
      | Some lastConsumption =>
          Ok (LastConsumption.timestamp lastConsumption
              - Transaction.timestamp transaction)
      | None => Throw TypeError
      end
  | Some stop =>
      Ok (TransactionStop.timestamp stop - Transaction.timestamp transaction)
  end.

(** The message, its [totalDuration] included, is built before it is
    handed over. *)
Definition notifyEndOfCharge (tenant : Tenant.t) (transaction : Transaction.t) : M unit :=
  match Transaction.user transaction with
  | Some _ =>
      lift (transactionDurationToString transaction) ;;;
      NotificationHandler.send (Tenant.id tenant)
        (Notification.EndOfCharge (Transaction.id transaction))
  | None => ret tt
  end.

Definition notifyOptimalChargeReached (tenant : Tenant.t) (transaction : Transaction.t)
    : M unit :=
  match Transaction.user transaction with
  | Some _ =>
      NotificationHandler.send (Tenant.id tenant)
        (Notification.OptimalChargeReached (Transaction.id transaction))
  | None => ret tt
  end.

(** The test [every] applies to each of the last consumptions. *)
Definition idleAndUnthrottled (chargingStation : ChargingStation.t)
    (transaction : Transaction.t) (consumption : Consumption.t) : bool :=
  (Consumption.consumptionWh consumption =? 0)
  && (negb (match Consumption.limitSource consumption with
            | Some source =>
                ConnectorCurrentLimitSource.eqb source
                  ConnectorCurrentLimitSource.CHARGING_PROFILE
            | None => false
            end)
      || match Consumption.limitAmps consumption with
         | Some limitAmps =>
             MIN_LIMIT_PER_PHASE
             * getNumberOfConnectedPhases chargingStation
                 (Transaction.connectorId transaction) <=? limitAmps
         | None => false
         end).

Definition checkNotificationEndOfCharge (tenant : Tenant.t)
    (chargingStation : ChargingStation.t) (transaction : Transaction.t) : M unit :=
  (* Transaction in progress? *)
  if negb (JS.truthy (Transaction.stop transaction)) then
    (* Has consumption? *)
    if (1 <? Transaction.numberOfMeterValues transaction)
       && (0 <? Transaction.currentTotalConsumptionWh transaction) then
      (* End of charge? *)
      if ChargingStationConfiguration.notifEndOfChargeEnabled chargingStationConfig
         && (0 <? Transaction.currentTotalConsumptionWh transaction) then
        (* Battery full *)
        if Transaction.currentStateOfCharge transaction =? 100 then
          (* Send Notification *)
          notifyEndOfCharge tenant transaction
        else
          (* Check last consumptions *)
          consumptions <-
            gets (ConsumptionStorage.getTransactionConsumptions (Tenant.id tenant)
                    (Transaction.id transaction) 3 0) ;;
          if JS.every (idleAndUnthrottled chargingStation transaction) consumptions then
            (* Send Notification *)
            notifyEndOfCharge tenant transaction
          else ret tt
      (* Optimal Charge? (SoC) *)
      else if ChargingStationConfiguration.notifBeforeEndOfChargeEnabled
                chargingStationConfig
              && (ChargingStationConfiguration.notifBeforeEndOfChargePercent
                    chargingStationConfig
                  <=? Transaction.currentStateOfCharge transaction) then
        (* Send Notification *)
        notifyOptimalChargeReached tenant transaction
      else ret tt
    else ret tt
  else ret tt.

(** *** StatusNotification: the last transaction of the connector *)

Definition checkAndSendOCPITransactionCdr (tenant : Tenant.t)
    (transaction : Transaction.t) (chargingStation : ChargingStation.t)
    : M Transaction.t :=
  (* CDR not already pushed *)
  match Transaction.ocpiData transaction with
  | Some data =>
      if negb (JS.truthy_string (RoamingData.cdr data)) then
        (* Get the lock *)
        if createOCPIPushCdrLock (Tenant.id tenant) (Transaction.id transaction) then
          (* Process; the lock is released whatever happens *)
          lift (processOCPITransaction tenant transaction chargingStation
                  TransactionAction.END)
        else ret transaction
      else ret transaction
  | None => ret transaction
  end.

Definition checkAndSendOICPTransactionCdr (tenant : Tenant.t)
    (transaction : Transaction.t) (chargingStation : ChargingStation.t)
    : M Transaction.t :=
  (* CDR not already pushed *)
  match Transaction.oicpData transaction with
  | Some data =>
      if negb (JS.truthy_string (RoamingData.cdr data)) then
        (* Get the lock *)
        if createOICPPushCdrLock (Tenant.id tenant) (Transaction.id transaction) then
          (* Process; the lock is released whatever happens *)
          lift (processOICPTransaction tenant transaction chargingStation
                  TransactionAction.END)
        else ret transaction
      else ret transaction
  | None => ret transaction
  end.

(** The block guarded by [!lastTransaction.stop.extraInactivityComputed]:
    the stop block with the extra inactivity, the flag and the new
    severity.  [chargeBox] is the station the storage attached to the
    transaction ([withChargingStation]). *)
Definition computeExtraInactivity (chargeBox : option ChargingStation.t)
    (lastTransaction : Transaction.t) (stop : TransactionStop.t)
    (currentStatusNotifTimestamp : Z) : TransactionStop.t :=
  let transactionStopTimestamp := TransactionStop.timestamp stop in
  (* Diff *)
  let stop :=
    stop <| TransactionStop.extraInactivitySecs :=
      JS.floor_div (currentStatusNotifTimestamp - transactionStopTimestamp) 1000 |> in
  (* Flag *)
  let stop := stop <| TransactionStop.extraInactivityComputed := true |> in
  (* Fix the Inactivity severity *)
  stop <| TransactionStop.inactivityStatus :=
    getInactivityStatusLevel chargeBox (Transaction.connectorId lastTransaction)
      (TransactionStop.totalInactivitySecs stop
       + TransactionStop.extraInactivitySecs stop) |>.

Definition checkLastTransaction (tenant : Tenant.t) (chargingStation : ChargingStation.t)
    (statusNotification : OCPPStatusNotificationRequestExtended.t)
    (connector : Connector.t) : M unit :=
  (* Check last transaction *)
  if ChargePointStatus.eqb (OCPPStatusNotificationRequestExtended.status statusNotification)
       ChargePointStatus.AVAILABLE
  then
    (* Get the last transaction *)
    lastTransaction <-
      gets (TransactionStorage.getLastTransactionFromChargingStation (Tenant.id tenant)
              (ChargingStation.id chargingStation) (Connector.connectorId connector)) ;;
    match lastTransaction with
    | Some lastTransaction =>
        match Transaction.stop lastTransaction with
        (* Transaction completed *)
        | Some stop =>
            lastTransaction <-
              (* Check Inactivity *)
              match OCPPStatusNotificationRequestExtended.timestamp statusNotification with
              | Some timestamp =>
                  (* Session is finished *)
                  if negb (TransactionStop.extraInactivityComputed stop) then
                    chargeBox <-
                      gets (ChargingStationStorage.getChargingStation (Tenant.id tenant)
                              (Transaction.chargeBoxID lastTransaction)) ;;
                    let lastTransaction :=
                      lastTransaction <| Transaction.stop :=
                        Some (computeExtraInactivity chargeBox lastTransaction stop
                                timestamp) |> in
                    (* Build extra inactivity consumption *)
                    OCPPUtils.buildExtraConsumptionInactivity (Tenant.id tenant)
                      lastTransaction ;;;
                    ret lastTransaction
                  else ret lastTransaction
              | None => ret lastTransaction
              end ;;
            (* OCPI: Post the CDR *)
            lastTransaction <-
              match Transaction.ocpiData lastTransaction with
              | Some data =>
                  if JS.truthy (RoamingData.session data)
                  then checkAndSendOCPITransactionCdr tenant lastTransaction
                         chargingStation
                  else ret lastTransaction
              | None => ret lastTransaction
              end ;;
            (* OICP: Post the CDR *)
            lastTransaction <-
              match Transaction.oicpData lastTransaction with
              | Some data =>
                  if JS.truthy (RoamingData.session data)
                  then checkAndSendOICPTransactionCdr tenant lastTransaction
                         chargingStation
                  else ret lastTransaction
              | None => ret lastTransaction
              end ;;
            (* Save *)
            modify (fun db =>
              snd (TransactionStorage.saveTransaction (Tenant.id tenant)
                     lastTransaction db))
        | None =>
            (* a transaction is ongoing: warning *)
            ret tt
        end
    | None => ret tt
    end
  else ret tt.

End OCPPService.

(** ** A small installation, for the examples *)

Module Sample.

Definition user : User.t :=
  {| User.id := "u1"; User.issuer := true; User.authorizationID := None;
     User.locale := None |}.

(** The stop block the sample consumption builder writes. *)
Definition writeStop (transaction : Transaction.t)
    (stopTransaction : OCPPStopTransactionRequestExtended.t) (tagId : string)
    : Transaction.t :=
  transaction <| Transaction.stop := Some
    {| TransactionStop.timestamp := OCPPStopTransactionRequestExtended.timestamp stopTransaction;
       TransactionStop.meterStop := OCPPStopTransactionRequestExtended.meterStop stopTransaction;
       TransactionStop.tagID := tagId;
       TransactionStop.userID := Transaction.userID transaction;
       TransactionStop.totalConsumptionWh :=
         OCPPStopTransactionRequestExtended.meterStop stopTransaction
         - Transaction.meterStart transaction;
       TransactionStop.totalInactivitySecs := Transaction.currentTotalInactivitySecs transaction;
       TransactionStop.extraInactivitySecs := 0;
       TransactionStop.extraInactivityComputed := false;
       TransactionStop.inactivityStatus := InactivityStatus.INFO;
       TransactionStop.totalDurationSecs :=
         (OCPPStopTransactionRequestExtended.timestamp stopTransaction
          - Transaction.timestamp transaction) / 1000;
       TransactionStop.stateOfCharge := Transaction.currentStateOfCharge transaction;
       TransactionStop.signedData := Transaction.currentSignedData transaction;
       TransactionStop.price := 0 |} |>.

Definition closingConsumption (transaction : Transaction.t) : Consumption.t :=
  {| Consumption.transactionId := Transaction.id transaction;
     Consumption.startedAt := Transaction.timestamp transaction;
     Consumption.endedAt := Transaction.timestamp transaction + 60000;
     Consumption.consumptionWh := 0;
     Consumption.instantWatts := 0;
     Consumption.cumulatedConsumptionWh := Transaction.currentTotalConsumptionWh transaction;
     Consumption.totalInactivitySecs := 0;
     Consumption.limitSource := None;
     Consumption.limitAmps := None;
     Consumption.stateOfCharge := 0;
     Consumption.toPrice := true |}.

(** Collaborators that accept everything; [pricing] says whether the
    pricing integration answers. *)
Definition integrations (pricing : bool) : Integrations :=
  {| validateBootNotification := fun _ => true;
     validateStopTransaction := fun _ _ => true;
     isAuthorizedToStopTransaction := fun _ _ _ _ => Ok (Some user, None);
     getUserByTagId := fun _ _ => Some user;
     createTransactionStopMeterValues := fun _ _ _ _ => [];
     createConsumptionsFromMeterValues :=
       fun _ _ transaction _ => Ok (transaction, [closingConsumption transaction]);
     updateTransactionWithConsumption := fun _ transaction _ => transaction;
     updateTransactionWithStopTransactionAndStopMeterValues :=
       fun transaction stopTransaction _ _ _ tagId =>
         writeStop transaction stopTransaction tagId;
     priceTransaction :=
       fun _ transaction consumption _ =>
         if pricing then Ok (transaction, consumption)
         else Throw (IntegrationFailed "pricing");
     billTransaction := fun _ transaction _ => Ok transaction;
     processOCPITransaction := fun _ transaction _ _ => Ok transaction;
     processOICPTransaction := fun _ transaction _ _ => Ok transaction;
     isEnergyActiveImportMeterValue :=
       fun meterValue =>
         OCPPMeasurand.eqb
           (OCPPAttribute.measurand (OCPPNormalizedMeterValue.attribute meterValue))
           OCPPMeasurand.ENERGY_ACTIVE_IMPORT_REGISTER;
     createOCPIPushCdrLock := fun _ _ => true;
     createOICPPushCdrLock := fun _ _ => true;
     applyTemplateToChargingStation :=
       fun _ chargingStation =>
         (chargingStation,
          {| TemplateUpdateResult.chargingStationUpdated := false;
             TemplateUpdateResult.ocppStandardUpdated := false;
             TemplateUpdateResult.ocppVendorUpdated := false |});
     checkAndSetChargingStationAmperageLimit := fun chargingStation => chargingStation;
     setChargingStationPhaseAssignment := fun _ chargingStation => chargingStation;
     getInactivityStatusLevel :=
       fun _ _ secs =>
         if secs <? 600 then InactivityStatus.INFO
         else if secs <? 3600 then InactivityStatus.WARNING
         else InactivityStatus.ERROR;
     getChargingStationCurrentType := fun _ _ => Some CurrentType.AC;
     getNumberOfConnectedPhases := fun _ _ => 3;
     BOOT_NOTIFICATION_WAIT_TIME := 60;
     MIN_LIMIT_PER_PHASE := 6;
     getCFApplicationIDAndInstanceIndex := None |}.

Definition config : ChargingStationConfiguration.t :=
  {| ChargingStationConfiguration.heartbeatIntervalOCPPSSecs := 180;
     ChargingStationConfiguration.heartbeatIntervalOCPPJSecs := 300;
     ChargingStationConfiguration.notifEndOfChargeEnabled := true;
     ChargingStationConfiguration.notifBeforeEndOfChargeEnabled := true;
     ChargingStationConfiguration.notifBeforeEndOfChargePercent := 85 |}.

Definition tenant : Tenant.t :=
  {| Tenant.id := "t1"; Tenant.name := "Tenant"; Tenant.subdomain := "tenant";
     Tenant.components := [] |}.

Definition connector (transactionID : Z) : Connector.t :=
  {| Connector.connectorId := 1;
     Connector.status := ChargePointStatus.CHARGING;
     Connector.errorCode := Some "NoError";
     Connector.info := None;
     Connector.vendorErrorCode := None;
     Connector.statusLastChangedOn := None;
     Connector.power := 22080;
     Connector.currentTransactionID := transactionID;
     Connector.currentTransactionDate := Some 1000;
     Connector.currentTagID := Some "TAG1";
     Connector.userID := Some "u1";
     Connector.currentInstantWatts := 7000;
     Connector.currentTotalConsumptionWh := 1200;
     Connector.currentTotalInactivitySecs := 0;
     Connector.currentInactivityStatus := InactivityStatus.INFO;
     Connector.currentStateOfCharge := 50 |}.

Definition station : ChargingStation.t :=
  {| ChargingStation.id := "CS1";
     ChargingStation.chargePointVendor := "Schneider Electric";
     ChargingStation.chargePointModel := "MONOBLOCK";
     ChargingStation.chargePointSerialNumber := Some "X";
     ChargingStation.chargeBoxSerialNumber := Some "BX";
     ChargingStation.firmwareVersion := Some "3.2.0";
     ChargingStation.endpoint := None;
     ChargingStation.ocppVersion := Some OCPPVersion.VERSION_16;
     ChargingStation.ocppProtocol := Some OCPPProtocol.JSON;
     ChargingStation.currentIPAddress := Some "10.0.0.7";
     ChargingStation.chargingStationURL := None;
     ChargingStation.cfApplicationIDAndInstanceIndex := None;
     ChargingStation.registrationStatus := Some RegistrationStatus.ACCEPTED;
     ChargingStation.issuer := true;
     ChargingStation.public := false;
     ChargingStation.deleted := false;
     ChargingStation.createdOn := Some 0;
     ChargingStation.powerLimitUnit := Some ChargingRateUnitType.AMPERE;
     ChargingStation.lastReboot := Some 500;
     ChargingStation.lastSeen := Some 900;
     ChargingStation.siteAreaID := None;
     ChargingStation.siteID := None;
     ChargingStation.coordinates := None;
     ChargingStation.connectors := [connector 42] |}.

Definition stopBlock (timestamp : Z) : TransactionStop.t :=
  {| TransactionStop.timestamp := timestamp;
     TransactionStop.meterStop := 1200;
     TransactionStop.tagID := "TAG1";
     TransactionStop.userID := Some "u1";
     TransactionStop.totalConsumptionWh := 1200;
     TransactionStop.totalInactivitySecs := 120;
     TransactionStop.extraInactivitySecs := 0;
     TransactionStop.extraInactivityComputed := false;
     TransactionStop.inactivityStatus := InactivityStatus.INFO;
     TransactionStop.totalDurationSecs := 840;
     TransactionStop.stateOfCharge := 0;
     TransactionStop.signedData := "";
     TransactionStop.price := 0 |}.

(** A session on connector 1 of CS1 with [wh] Wh so far. *)
Definition transaction (id wh : Z) (stop : option TransactionStop.t) : Transaction.t :=
  {| Transaction.id := id;
     Transaction.issuer := true;
     Transaction.chargeBoxID := "CS1";
     Transaction.connectorId := 1;
     Transaction.tagID := "TAG1";
     Transaction.userID := Some "u1";
     Transaction.user := Some user;
     Transaction.siteAreaID := None;
     Transaction.siteID := None;
     Transaction.timestamp := 1000;
     Transaction.meterStart := 0;
     Transaction.numberOfMeterValues := 3;
     Transaction.lastConsumption :=
       Some {| LastConsumption.value := wh; LastConsumption.timestamp := 181000 |};
     Transaction.currentInstantWatts := 7000;
     Transaction.currentInstantWattsL1 := 2300;
     Transaction.currentInstantWattsL2 := 2300;
     Transaction.currentInstantWattsL3 := 2400;
     Transaction.currentInstantWattsDC := 0;
     Transaction.currentInstantVolts := 230;
     Transaction.currentInstantVoltsL1 := 230;
     Transaction.currentInstantVoltsL2 := 231;
     Transaction.currentInstantVoltsL3 := 229;
     Transaction.currentInstantVoltsDC := 0;
     Transaction.currentInstantAmps := 30;
     Transaction.currentInstantAmpsL1 := 10;
     Transaction.currentInstantAmpsL2 := 10;
     Transaction.currentInstantAmpsL3 := 10;
     Transaction.currentInstantAmpsDC := 0;
     Transaction.currentStateOfCharge := 50;
     Transaction.currentConsumptionWh := 100;
     Transaction.currentTotalConsumptionWh := wh;
     Transaction.currentTotalInactivitySecs := 0;
     Transaction.currentInactivityStatus := InactivityStatus.INFO;
     Transaction.stateOfCharge := 20;
     Transaction.signedData := "";
     Transaction.currentSignedData := "";
     Transaction.phasesUsed := Some 3;
     Transaction.transactionEndReceived := false;
     Transaction.remotestop := None;
     Transaction.ocpiData := None;
     Transaction.oicpData := None;
     Transaction.stop := stop |}.

Definition token (siteAreaID : option string) : RegistrationToken.t :=
  {| RegistrationToken.id := "tok";
     RegistrationToken.expirationDate := Some 5000;
     RegistrationToken.revocationDate := None;
     RegistrationToken.siteAreaID := siteAreaID |}.

(** The store: tenant t1, station CS1, the given transactions and tokens. *)
Definition db (transactions : list Transaction.t) (tokens : list RegistrationToken.t)
    : DB.t :=
  {| DB.tenants := [tenant];
     DB.chargingStations := [("t1", station)];
     DB.registrationTokens := map (fun t => ("t1", t)) tokens;
     DB.siteAreas := [];
     DB.transactions := map (fun t => ("t1", t)) transactions;
     DB.consumptions := [];
     DB.meterValues := [];
     DB.bootNotifications := [];
     DB.notifications := [] |}.

Definition headers (chargeBoxIdentity : string) (token : option string) : OCPPHeader.t :=
  {| OCPPHeader.tenantID := "t1";
     OCPPHeader.chargeBoxIdentity := Some chargeBoxIdentity;
     OCPPHeader.currentIPAddress := Some "10.0.0.7";
     OCPPHeader.ocppProtocol := Some OCPPProtocol.JSON;
     OCPPHeader.ocppVersion := Some OCPPVersion.VERSION_16;
     OCPPHeader.token := token;
     OCPPHeader.From := None;
     OCPPHeader.chargingStationURL := None |}.

Definition stopTransaction (transactionId : Z) : OCPPStopTransactionRequestExtended.t :=
  {| OCPPStopTransactionRequestExtended.chargeBoxID := None;
     OCPPStopTransactionRequestExtended.transactionId := transactionId;
     OCPPStopTransactionRequestExtended.idTag := Some "TAG1";
     OCPPStopTransactionRequestExtended.meterStop := 1200;
     OCPPStopTransactionRequestExtended.timestamp := 200000;
     OCPPStopTransactionRequestExtended.transactionData := None |}.

Definition bootNotification (serial : option string)
    : OCPPBootNotificationRequestExtended.t :=
  {| OCPPBootNotificationRequestExtended.chargePointVendor := "Schneider Electric";
     OCPPBootNotificationRequestExtended.chargePointModel := "MONOBLOCK";
     OCPPBootNotificationRequestExtended.chargePointSerialNumber := serial;
     OCPPBootNotificationRequestExtended.chargeBoxSerialNumber := Some "BX";
     OCPPBootNotificationRequestExtended.firmwareVersion := Some "3.3.0";
     OCPPBootNotificationRequestExtended.endpoint := None;
     OCPPBootNotificationRequestExtended.id := None;
     OCPPBootNotificationRequestExtended.chargeBoxID := None;
     OCPPBootNotificationRequestExtended.currentIPAddress := None;
     OCPPBootNotificationRequestExtended.ocppProtocol := None;
     OCPPBootNotificationRequestExtended.ocppVersion := None;
     OCPPBootNotificationRequestExtended.lastReboot := None;
     OCPPBootNotificationRequestExtended.lastSeen := None;
     OCPPBootNotificationRequestExtended.timestamp := None |}.

Definition meterValue (context : OCPPReadingContext.t) (measurand : OCPPMeasurand.t)
    (value : Z) : OCPPNormalizedMeterValue.t :=
  {| OCPPNormalizedMeterValue.chargeBoxID := "CS1";
     OCPPNormalizedMeterValue.connectorId := 1;
     OCPPNormalizedMeterValue.transactionId := 42;
     OCPPNormalizedMeterValue.timestamp := 240000;
     OCPPNormalizedMeterValue.attribute :=
       {| OCPPAttribute.context := context;
          OCPPAttribute.format := OCPPValueFormat.RAW;
          OCPPAttribute.measurand := measurand;
          OCPPAttribute.location := OCPPLocation.OUTLET;
          OCPPAttribute.unit := OCPPUnitOfMeasure.WATT_HOUR;
          OCPPAttribute.phase := None |};
     OCPPNormalizedMeterValue.value := Reading value |}.

Definition statusNotification (status : ChargePointStatus.t) (timestamp : option Z)
    : OCPPStatusNotificationRequestExtended.t :=
  {| OCPPStatusNotificationRequestExtended.connectorId := 1;
     OCPPStatusNotificationRequestExtended.status := status;
     OCPPStatusNotificationRequestExtended.errorCode := Some "NoError";
     OCPPStatusNotificationRequestExtended.info := None;
     OCPPStatusNotificationRequestExtended.vendorErrorCode := None;
     OCPPStatusNotificationRequestExtended.timestamp := timestamp |}.

End Sample.

(** ** Vocabulary of the properties *)

(** How many documents of a collection a selector picks. *)
Definition count {A : Type} (sel : A -> bool) (l : list A) : nat :=
  List.length (List.filter sel l).

(** The transactions without stop block the store holds for a connector. *)
Definition activeTransactions (tenantID chargeBoxID : string) (connectorId : Z)
    (db : DB.t) : nat :=
  count (in_tenant tenantID (TransactionStorage.is_active_on chargeBoxID connectorId))
    (DB.transactions db).

(** Two states of one charging session: same id, same station, same
    connector. *)
Definition same_session (a b : Transaction.t) : Prop :=
  Transaction.id b = Transaction.id a
  /\ Transaction.chargeBoxID b = Transaction.chargeBoxID a
  /\ Transaction.connectorId b = Transaction.connectorId a.

(** The consumption builder, pricing, billing and roaming work on the
    running totals, the stop block, the prices and the roaming data of the
    transaction they are given; they do not make it another session. *)
Record KeepsSession (I : Integrations) : Prop := {
  keeps_createConsumptions :
    forall t cs tx m tx' l,
      createConsumptionsFromMeterValues t cs tx m = Ok (tx', l) -> same_session tx tx';
  keeps_updateWithConsumption :
    forall cs tx c, same_session tx (updateTransactionWithConsumption cs tx c);
  keeps_updateWithStop :
    forall tx s m u a g,
      same_session tx (updateTransactionWithStopTransactionAndStopMeterValues tx s m u a g);
  keeps_price :
    forall t tx c a tx' c',
      priceTransaction t tx c a = Ok (tx', c') -> same_session tx tx';
  keeps_bill :
    forall t tx a tx', billTransaction t tx a = Ok tx' -> same_session tx tx';
  keeps_ocpi :
    forall t tx cs a tx', processOCPITransaction t tx cs a = Ok tx' -> same_session tx tx';
  keeps_oicp :
    forall t tx cs a tx', processOICPTransaction t tx cs a = Ok tx' -> same_session tx tx'
}.

(** The attribute mismatch of a re-registration, in the words of the
    specification: the vendor differs, or the model differs, or both sides
    provide a serial number and the two differ. *)
Definition attributesDiffer (chargingStation : ChargingStation.t)
    (bootNotification : OCPPBootNotificationRequestExtended.t) : Prop :=
  ChargingStation.chargePointVendor chargingStation
  <> OCPPBootNotificationRequestExtended.chargePointVendor bootNotification
  \/ ChargingStation.chargePointModel chargingStation
     <> OCPPBootNotificationRequestExtended.chargePointModel bootNotification
  \/ exists stored reported,
       ChargingStation.chargePointSerialNumber chargingStation = Some stored
       /\ OCPPBootNotificationRequestExtended.chargePointSerialNumber bootNotification
          = Some reported
       /\ stored <> "" /\ reported <> "" /\ stored <> reported.

(** The token that lets an unknown station register: presented in the
    header, stored for the tenant, carrying an expiration date that has not
    passed and no revocation date. *)
Definition tokenAdmits (now : Z) (headers : OCPPHeader.t) (tenantID : string)
    (db : DB.t) (token : RegistrationToken.t) : Prop :=
  exists tokenID expirationDate,
    OCPPHeader.token headers = Some tokenID
    /\ tokenID <> ""
    /\ RegistrationTokenStorage.getRegistrationToken tenantID tokenID db = Some token
    /\ RegistrationToken.expirationDate token = Some expirationDate
    /\ now <= expirationDate
    /\ RegistrationToken.revocationDate token = None.

(** The notification as [handleBootNotification] holds it when it looks the
    station up: the endpoint of the SOAP header, the identity of the
    header, the clock. *)
Definition stampedBootNotification (now : Z) (headers : OCPPHeader.t)
    (chargeBoxIdentity : string)
    (bootNotification : OCPPBootNotificationRequestExtended.t)
    : OCPPBootNotificationRequestExtended.t :=
  stampBootNotification now headers chargeBoxIdentity
    (match OCPPHeader.From headers with
     | Some address =>
         bootNotification
           <| OCPPBootNotificationRequestExtended.endpoint := Some address |>
     | None => bootNotification
     end).

(** The station [handleBootNotification] saves when the template reports
    no update: the amperage limit and the phase assignment are set on the
    station the template step returned. *)
Definition savedAfterBoot {I : Integrations} (tenantID : string)
    (chargingStation : ChargingStation.t) : ChargingStation.t :=
  setChargingStationPhaseAssignment tenantID
    (checkAndSetChargingStationAmperageLimit
       (fst (applyTemplateToChargingStation tenantID chargingStation))).

(** Every instant value of the transaction reads 0: watts, volts and amps,
    total, per phase and DC. *)
Definition instantValuesCleared (transaction : Transaction.t) : Prop :=
  Transaction.currentInstantWatts transaction = 0
  /\ Transaction.currentInstantWattsL1 transaction = 0
  /\ Transaction.currentInstantWattsL2 transaction = 0
  /\ Transaction.currentInstantWattsL3 transaction = 0
  /\ Transaction.currentInstantWattsDC transaction = 0
  /\ Transaction.currentInstantVolts transaction = 0
  /\ Transaction.currentInstantVoltsL1 transaction = 0
  /\ Transaction.currentInstantVoltsL2 transaction = 0
  /\ Transaction.currentInstantVoltsL3 transaction = 0
  /\ Transaction.currentInstantVoltsDC transaction = 0
  /\ Transaction.currentInstantAmps transaction = 0
  /\ Transaction.currentInstantAmpsL1 transaction = 0
  /\ Transaction.currentInstantAmpsL2 transaction = 0
  /\ Transaction.currentInstantAmpsL3 transaction = 0
  /\ Transaction.currentInstantAmpsDC transaction = 0.

Definition atTransactionEnd (meterValue : OCPPNormalizedMeterValue.t) : Prop :=
  OCPPAttribute.context (OCPPNormalizedMeterValue.attribute meterValue)
  = OCPPReadingContext.TRANSACTION_END.

(** The key of a stored transaction: its tenant and its id. *)
Definition transactionKey (d : string * Transaction.t) : string * Z :=
  (fst d, Transaction.id (snd d)).

(** Section 3: a transaction id is "unique within tenant". *)
Definition uniqueTransactionIds (db : DB.t) : Prop :=
  NoDup (map transactionKey (DB.transactions db)).

(** Two states of one closed session: same session, same start, same
    stop block. *)
Definition same_stopped_session (a b : Transaction.t) : Prop :=
  same_session a b
  /\ Transaction.timestamp b = Transaction.timestamp a
  /\ Transaction.stop b = Transaction.stop a.

(** Pushing the charge detail record of a closed session records the push
    in the roaming data; the session, its start and its stop block stay. *)
Record KeepsStop (I : Integrations) : Prop := {
  keeps_stop_ocpi :
    forall t tx cs a tx',
      processOCPITransaction t tx cs a = Ok tx' -> same_stopped_session tx tx';
  keeps_stop_oicp :
    forall t tx cs a tx',
      processOICPTransaction t tx cs a = Ok tx' -> same_stopped_session tx tx'
}.

(** ** The service, continued: connectors and authorizations *)

Module OCPPAuthorizeRequestExtended.
Record t := {
  idTag : string;
  chargeBoxID : option string;
  timestamp : option Z;
  timezone : option string;
  authorizationId : option string;
  user : option User.t
}.
End OCPPAuthorizeRequestExtended.

Module OCPPAuthorizeResponse.
Record t := { idTagInfo : OCPPAuthorizationStatus.t }.
End OCPPAuthorizeResponse.

(** The connector object [Utils.getConnectorFromID] returns is a reference
    into [chargingStation.connectors]: assigning its properties changes the
    first connector of the station that has the id. *)
Fixpoint assignFirst (connectorId : Z) (assign : Connector.t -> Connector.t)
    (l : list Connector.t) : list Connector.t :=
  match l with
  | [] => []
  | c :: l' =>
      if Connector.connectorId c =? connectorId
      then assign c :: l' else c :: assignFirst connectorId assign l'
  end.

Definition assignFoundConnector (chargingStation : ChargingStation.t) (connectorId : Z)
    (assign : Connector.t -> Connector.t) : ChargingStation.t :=
  chargingStation <| ChargingStation.connectors :=
    assignFirst connectorId assign (ChargingStation.connectors chargingStation) |>.

Section OCPPServiceConnectors.

Context {I : Integrations}.

(** [updateChargingStationWithTransaction]: the station object of the
    caller after the call.  [chargeBox] is [transaction.chargeBox], the
    station the storage attached to the transaction, if it did. *)
Definition updateChargingStationWithTransaction (now : Z)
    (chargeBox : option ChargingStation.t) (chargingStation : ChargingStation.t)
    (transaction : Transaction.t) : ChargingStation.t :=
  (* Get the connector *)
  match Utils.getConnectorFromID chargingStation (Transaction.connectorId transaction) with
  | Some foundConnector =>
      (* Active transaction? *)
      if negb (JS.truthy (Transaction.stop transaction)) then
        let chargingStation :=
          assignFoundConnector chargingStation (Transaction.connectorId transaction)
            (fun foundConnector =>
               foundConnector
                 (* Set consumption *)
                 <| Connector.currentInstantWatts :=
                      Transaction.currentInstantWatts transaction |>
                 <| Connector.currentTotalConsumptionWh :=
                      Transaction.currentTotalConsumptionWh transaction |>
                 <| Connector.currentTotalInactivitySecs :=
                      Transaction.currentTotalInactivitySecs transaction |>
                 <| Connector.currentInactivityStatus :=
                      getInactivityStatusLevel chargeBox
                        (Transaction.connectorId transaction)
                        (Transaction.currentTotalInactivitySecs transaction) |>
                 <| Connector.currentStateOfCharge :=
                      Transaction.currentStateOfCharge transaction |>
                 <| Connector.currentTagID := Some (Transaction.tagID transaction) |>
                 (* Set Transaction ID *)
                 <| Connector.currentTransactionID := Transaction.id transaction |>
                 <| Connector.userID := Transaction.userID transaction |>) in
        (* Update lastSeen *)
        chargingStation <| ChargingStation.lastSeen := Some now |>
      else
        (* Cleanup connector transaction data *)
        OCPPUtils.checkAndFreeChargingStationConnector chargingStation
          (Connector.connectorId foundConnector)
  | None => chargingStation
  end.

End OCPPServiceConnectors.

Section OCPPServiceAuthorize.

(** The collaborators of [handleAuthorize], outside the service file:
    [OCPPValidation.validateAuthorize], which throws on an invalid payload,
    [Authorizations.isAuthorizedOnChargingStation], which answers the user
    of the tag (none for a tag without user) or throws, and
    [Utils.getTimezone]. *)
Variable validateAuthorize : OCPPAuthorizeRequestExtended.t -> bool.
Variable isAuthorizedOnChargingStation :
  string -> ChargingStation.t -> string -> Result (option User.t).
Variable getTimezone : option (list Z) -> option string.

(** The [try] block of [handleAuthorize].  [OCPPStorage.saveAuthorize]
    writes the collection of the authorizations, which is no part of [DB]
    and which the service never reads: the block answers the record it
    saves, with the tenant it saves it for. *)
Definition handleAuthorize_try (now : Z) (headers : OCPPHeader.t)
    (authorize : OCPPAuthorizeRequestExtended.t)
    : M (string * OCPPAuthorizeRequestExtended.t) :=
  (* Get the charging station *)
  '(chargingStation, tenant) <- OCPPUtils.checkAndGetTenantAndChargingStation headers ;;
  (* Check props *)
  (if validateAuthorize authorize then ret tt else throw ValidationFailed) ;;;
  (* Set header *)
  let authorize :=
    authorize
      <| OCPPAuthorizeRequestExtended.chargeBoxID :=
           Some (ChargingStation.id chargingStation) |>
      <| OCPPAuthorizeRequestExtended.timestamp := Some now |>
      <| OCPPAuthorizeRequestExtended.timezone :=
           getTimezone (ChargingStation.coordinates chargingStation) |> in
  (* Check *)
  user <- lift (isAuthorizedOnChargingStation (Tenant.id tenant) chargingStation
                  (OCPPAuthorizeRequestExtended.idTag authorize)) ;;
  authorize <-
    match user with
    | Some roaming =>
        (* Roaming User *)
        if negb (User.issuer roaming) then
          (* Authorization ID provided? *)
          if JS.truthy_string (User.authorizationID roaming) then
            (* Public Charging Station *)
            if ChargingStation.public chargingStation then
              (* Keep Roaming Auth ID *)
              ret (authorize <| OCPPAuthorizeRequestExtended.authorizationId :=
                     User.authorizationID roaming |>)
            else
              (* Cannot authorize a roaming user on a private charging station *)
              throw NotAuthorized
          else
            (* Authorization ID has not been supplied *)
            throw NotAuthorized
        else ret authorize
    | None => ret authorize
    end ;;
  (* Set *)
  let authorize := authorize <| OCPPAuthorizeRequestExtended.user := user |> in
  (* Save *)
  ret (Tenant.id tenant, authorize).

(** [handleAuthorize]: the answer, the authorizations saved, the store. *)
Definition handleAuthorize (now : Z) (headers : OCPPHeader.t)
    (authorize : OCPPAuthorizeRequestExtended.t) (db : DB.t)
    : OCPPAuthorizeResponse.t * list (string * OCPPAuthorizeRequestExtended.t) * DB.t :=
  match handleAuthorize_try now headers authorize db with
  | (Ok saved, db') =>
      ({| OCPPAuthorizeResponse.idTagInfo := OCPPAuthorizationStatus.ACCEPTED |},
       [saved], db')
  | (Throw _, db') =>
      ({| OCPPAuthorizeResponse.idTagInfo := OCPPAuthorizationStatus.INVALID |},
       [], db')
  end.

End OCPPServiceAuthorize.

(** ** The service, continued: status notifications *)

Module ChargePointErrorCode.
Definition NO_ERROR : string := "NoError".
End ChargePointErrorCode.

(** A status notification as [OCPPStorage.saveStatusNotification] receives
    it: for a tenant, and stamped by the handler with the station and its
    time zone. *)
Module SavedStatusNotification.
Record t := {
  tenantID : string;
  chargeBoxID : string;
  timezone : option string;
  statusNotification : OCPPStatusNotificationRequestExtended.t
}.
End SavedStatusNotification.

(** What [NotificationHandler.sendChargingStationStatusError] is handed. *)
Module StatusError.
Record t := {
  tenantID : string;
  chargeBoxID : string;
  connectorId : Z;
  status : ChargePointStatus.t;
  errorCode : option string;
  info : option string
}.
End StatusError.

(** What a status notification leaves outside [DB]: the notifications saved
    and the errors handed over for notification. *)
Module StatusNotificationJournal.
Record t := {
  saved : list SavedStatusNotification.t;
  errors : list StatusError.t
}.
Definition empty : t := {| saved := []; errors := [] |}.
End StatusNotificationJournal.

(** [connectors.sort((connector1, connector2) => connector1?.connectorId -
    connector2?.connectorId)]: the sort is stable. *)
Fixpoint insertConnector (connector : Connector.t) (sorted : list Connector.t)
    : list Connector.t :=
  match sorted with
  | [] => [connector]
  | next :: sorted' =>
      if Connector.connectorId connector <=? Connector.connectorId next
      then connector :: next :: sorted'
      else next :: insertConnector connector sorted'
  end.

Definition sortConnectors (connectors : list Connector.t) : list Connector.t :=
  fold_right insertConnector [] connectors.

Section OCPPServiceStatusNotification.

Context {I : Integrations}.

(** The collaborators of the status notification, outside the service
    file: [OCPPValidation.validateStatusNotification], which throws on an
    invalid payload, [Utils.getTimezone], and the charging station
    template, which configures a connector the station did not have. *)
Variable validateStatusNotification : OCPPStatusNotificationRequestExtended.t -> bool.
Variable getTimezone : option (list Z) -> option string.
Variable ChargingStationTemplate : Type.
Variable getChargingStationTemplate : ChargingStation.t -> option ChargingStationTemplate.
Variable enrichChargingStationConnectorWithTemplate :
  string -> ChargingStation.t -> Z -> ChargingStationTemplate -> ChargingStation.t.

(** [notifyStatusNotification]: the error handed over for notification, if
    the status is one. *)
Definition notifyStatusNotification (tenant : Tenant.t)
    (chargingStation : ChargingStation.t)
    (statusNotification : OCPPStatusNotificationRequestExtended.t)
    : list StatusError.t :=
  (* Faulted? *)
  if negb (ChargePointStatus.eqb
             (OCPPStatusNotificationRequestExtended.status statusNotification)
             ChargePointStatus.AVAILABLE)
     && negb (ChargePointStatus.eqb
                (OCPPStatusNotificationRequestExtended.status statusNotification)
                ChargePointStatus.FINISHING)
     && negb (JS.strict_eq_string
                (OCPPStatusNotificationRequestExtended.errorCode statusNotification)
                (Some ChargePointErrorCode.NO_ERROR))
  then
    (* Send Notification (Async) *)
    [{| StatusError.tenantID := Tenant.id tenant;
        StatusError.chargeBoxID := ChargingStation.id chargingStation;
        StatusError.connectorId :=
          OCPPStatusNotificationRequestExtended.connectorId statusNotification;
        StatusError.status :=
          OCPPStatusNotificationRequestExtended.status statusNotification;
        StatusError.errorCode :=
          OCPPStatusNotificationRequestExtended.errorCode statusNotification;
        StatusError.info :=
          OCPPStatusNotificationRequestExtended.info statusNotification |}]
  else [].

(** The connector [updateConnectorStatus] creates for an id the station
    does not have.  The literal sets the transaction fields, the instant
    power, the status and the power; the live totals it leaves unset read
    as the freed connector has them. *)
Definition createdConnector (connectorId : Z) : Connector.t :=
  {| Connector.connectorId := connectorId;
     Connector.status := ChargePointStatus.UNAVAILABLE;
     Connector.errorCode := None;
     Connector.info := None;
     Connector.vendorErrorCode := None;
     Connector.statusLastChangedOn := None;
     Connector.power := 0;
     Connector.currentTransactionID := 0;
     Connector.currentTransactionDate := None;
     Connector.currentTagID := None;
     Connector.userID := None;
     Connector.currentInstantWatts := 0;
     Connector.currentTotalConsumptionWh := 0;
     Connector.currentTotalInactivitySecs := 0;
     Connector.currentInactivityStatus := InactivityStatus.INFO;
     Connector.currentStateOfCharge := 0 |}.

(** "Set connector data" *)
Definition setConnectorData
    (statusNotification : OCPPStatusNotificationRequestExtended.t)
    (foundConnector : Connector.t) : Connector.t :=
  foundConnector
    <| Connector.connectorId :=
         OCPPStatusNotificationRequestExtended.connectorId statusNotification |>
    <| Connector.status :=
         OCPPStatusNotificationRequestExtended.status statusNotification |>
    <| Connector.errorCode :=
         OCPPStatusNotificationRequestExtended.errorCode statusNotification |>
    <| Connector.info :=
         Some (if JS.truthy_string
                    (OCPPStatusNotificationRequestExtended.info statusNotification)
               then match OCPPStatusNotificationRequestExtended.info statusNotification with
                    | Some info => info
                    | None => ""
                    end
               else "") |>
    <| Connector.vendorErrorCode :=
         Some (if JS.truthy_string
                    (OCPPStatusNotificationRequestExtended.vendorErrorCode
                       statusNotification)
               then match OCPPStatusNotificationRequestExtended.vendorErrorCode
                            statusNotification with
                    | Some vendorErrorCode => vendorErrorCode
                    | None => ""
                    end
               else "") |>
    <| Connector.statusLastChangedOn :=
         OCPPStatusNotificationRequestExtended.timestamp statusNotification |>.

(** "Check if status has changed" *)
Definition sameStatus (foundConnector : Connector.t)
    (statusNotification : OCPPStatusNotificationRequestExtended.t) : bool :=
  ChargePointStatus.eqb (Connector.status foundConnector)
    (OCPPStatusNotificationRequestExtended.status statusNotification)
  && JS.strict_eq_string (Connector.errorCode foundConnector)
       (OCPPStatusNotificationRequestExtended.errorCode statusNotification)
  && JS.strict_eq_string (Connector.info foundConnector)
       (OCPPStatusNotificationRequestExtended.info statusNotification).

(** [updateConnectorStatus].  [fuel] bounds the turns of the cleanup loop,
    [None] is "still looping".  The connector status sent to the roaming
    platforms and the smart charging trigger run behind a [try]/[catch]
    of their own and write nothing to [DB]: they are not part of the
    model.  A connector the station did not have is pushed onto its
    connectors and configured by the template in place, so that
    [foundConnector] is the connector the configured station has under
    the id. *)
Definition updateConnectorStatus (fuel : nat) (now : Z) (tenant : Tenant.t)
    (chargingStation : ChargingStation.t)
    (statusNotification : OCPPStatusNotificationRequestExtended.t) (db : DB.t)
    : option (Result StatusNotificationJournal.t * DB.t) :=
  let connectorId := OCPPStatusNotificationRequestExtended.connectorId statusNotification in
  (* Get it *)
  let '(chargingStation, foundConnector) :=
    match Utils.getConnectorFromID chargingStation connectorId with
    | Some foundConnector => (chargingStation, foundConnector)
    | None =>
        (* Does not exist: Create *)
        let foundConnector := createdConnector connectorId in
        let chargingStation :=
          chargingStation <| ChargingStation.connectors :=
            (ChargingStation.connectors chargingStation ++ [foundConnector])%list |> in
        (* Enrich Charging Station's Connector *)
        match getChargingStationTemplate chargingStation with
        | Some chargingStationTemplate =>
            let chargingStation :=
              enrichChargingStationConnectorWithTemplate (Tenant.id tenant)
                chargingStation connectorId chargingStationTemplate in
            (chargingStation,
             match Utils.getConnectorFromID chargingStation connectorId with
             | Some enriched => enriched
             | None => foundConnector
             end)
        | None => (chargingStation, foundConnector)
        end
    end in
  (* Check if status has changed *)
  if sameStatus foundConnector statusNotification then
    (* No Change: Do not save it *)
    Some (Ok StatusNotificationJournal.empty, db)
  else
    (* Check last transaction *)
    match checkLastTransaction tenant chargingStation statusNotification foundConnector
            db with
    | (Throw e, db) => Some (Throw e, db)
    | (Ok _, db) =>
        (* Set connector data *)
        let chargingStation :=
          assignFoundConnector chargingStation connectorId
            (setConnectorData statusNotification) in
        let foundConnector := setConnectorData statusNotification foundConnector in
        (* Save Status Notification *)
        let saved :=
          {| SavedStatusNotification.tenantID := Tenant.id tenant;
             SavedStatusNotification.chargeBoxID := ChargingStation.id chargingStation;
             SavedStatusNotification.timezone :=
               getTimezone (ChargingStation.coordinates chargingStation);
             SavedStatusNotification.statusNotification := statusNotification |} in
        (* Update lastSeen *)
        let chargingStation :=
          chargingStation <| ChargingStation.lastSeen := Some now |> in
        (* Check if transaction is ongoing (ABB bug)!!! *)
        match checkStatusNotificationOngoingTransaction fuel now tenant chargingStation
                statusNotification foundConnector db with
        | None => None
        | Some (chargingStation, db) =>
            (* Notify admins *)
            let errors :=
              notifyStatusNotification tenant chargingStation statusNotification in
            (* Update connector's order *)
            let chargingStation :=
              match ChargingStation.connectors chargingStation with
              | [] => chargingStation
              | connectors =>
                  chargingStation <| ChargingStation.connectors :=
                    sortConnectors connectors |>
              end in
            (* Save *)
            Some (Ok {| StatusNotificationJournal.saved := [saved];
                        StatusNotificationJournal.errors := errors |},
                  ChargingStationStorage.saveChargingStation (Tenant.id tenant)
                    chargingStation db)
        end
    end.

(** [handleStatusNotification]: the answer is the empty object whatever
    happens; what remains is the journal and the store. *)
Definition handleStatusNotification (fuel : nat) (now : Z) (headers : OCPPHeader.t)
    (statusNotification : OCPPStatusNotificationRequestExtended.t) (db : DB.t)
    : option (StatusNotificationJournal.t * DB.t) :=
  (* Get charging station *)
  match OCPPUtils.checkAndGetTenantAndChargingStation headers db with
  | (Throw _, db) => Some (StatusNotificationJournal.empty, db)
  | (Ok (chargingStation, tenant), db) =>
      (* Check props *)
      if validateStatusNotification statusNotification then
        (* Skip connectorId = 0 case *)
        if 0 <? OCPPStatusNotificationRequestExtended.connectorId statusNotification then
          (* Update only the given Connector ID *)
          match updateConnectorStatus fuel now tenant chargingStation statusNotification
                  db with
          | None => None
          | Some (Ok journal, db) => Some (journal, db)
          | Some (Throw _, db) => Some (StatusNotificationJournal.empty, db)
          end
        else Some (StatusNotificationJournal.empty, db)
      else Some (StatusNotificationJournal.empty, db)
  end.

End OCPPServiceStatusNotification.

(** ** Further examples *)

Module Examples.

(** The sample collaborators, with an authorization that refuses every
    tag at StopTransaction. *)
Definition refusing : Integrations :=
  (Sample.integrations true)
    <| @isAuthorizedToStopTransaction := fun _ _ _ _ => Throw NotAuthorized |>.

(** A roaming user, known by the authorization id of their operator. *)
Definition roamingUser : User.t :=
  {| User.id := "r1"; User.issuer := false; User.authorizationID := Some "AUTH1";
     User.locale := None |}.

(** An authorization that knows the tag ROAM of the roaming user and takes
    every other tag for a tag of the sample user. *)
Definition isAuthorizedOnChargingStation (tenantID : string)
    (chargingStation : ChargingStation.t) (tagID : string) : Result (option User.t) :=
  if (tagID =? "ROAM")%string then Ok (Some roamingUser) else Ok (Some Sample.user).

Definition authorize (idTag : string) : OCPPAuthorizeRequestExtended.t :=
  {| OCPPAuthorizeRequestExtended.idTag := idTag;
     OCPPAuthorizeRequestExtended.chargeBoxID := None;
     OCPPAuthorizeRequestExtended.timestamp := None;
     OCPPAuthorizeRequestExtended.timezone := None;
     OCPPAuthorizeRequestExtended.authorizationId := None;
     OCPPAuthorizeRequestExtended.user := None |}.

(** The sample store, the station made public or not. *)
Definition db (public : bool) : DB.t :=
  (Sample.db [] [])
    <| DB.chargingStations :=
         [("t1", Sample.station <| ChargingStation.public := public |>)] |>.

End Examples.

(** What identifies a station at boot: its id, vendor, model and serial
    number. *)
Definition sameIdentity (a b : ChargingStation.t) : Prop :=
  ChargingStation.id b = ChargingStation.id a
  /\ ChargingStation.chargePointVendor b = ChargingStation.chargePointVendor a
  /\ ChargingStation.chargePointModel b = ChargingStation.chargePointModel a
  /\ ChargingStation.chargePointSerialNumber b
     = ChargingStation.chargePointSerialNumber a.

(** The template, the amperage limit and the phase assignment configure a
    station; they do not rename it. *)
Record KeepsIdentity (I : Integrations) : Prop := {
  keeps_identity_template :
    forall t cs, sameIdentity cs (fst (applyTemplateToChargingStation t cs));
  keeps_identity_limit :
    forall cs, sameIdentity cs (checkAndSetChargingStationAmperageLimit cs);
  keeps_identity_phases :
    forall t cs, sameIdentity cs (setChargingStationPhaseAssignment t cs)
}.

(** The notifications the end of a session can hand over: none, the end
    of session, or the end of session followed by the end of the signed
    session. *)
Definition endOfSessionNotifications (tenantID : string)
    (sent : list (string * Notification.t)) : Prop :=
  sent = []
  \/ exists id,
       sent = [(tenantID, Notification.EndOfSession id)]
       \/ sent = [(tenantID, Notification.EndOfSession id);
                  (tenantID, Notification.EndOfSignedSession id)].

(** What a transaction records about the session besides the instant
    values: who charges where, the energy and inactivity totals, the
    roaming data and the stop block. *)
Definition booking (transaction : Transaction.t) :=
  (Transaction.id transaction, Transaction.chargeBoxID transaction,
   Transaction.connectorId transaction, Transaction.tagID transaction,
   Transaction.userID transaction, Transaction.user transaction,
   Transaction.timestamp transaction, Transaction.meterStart transaction,
   Transaction.lastConsumption transaction,
   Transaction.currentConsumptionWh transaction,
   Transaction.currentTotalConsumptionWh transaction,
   Transaction.currentTotalInactivitySecs transaction,
   Transaction.currentInactivityStatus transaction,
   Transaction.phasesUsed transaction, Transaction.remotestop transaction,
   Transaction.ocpiData transaction, Transaction.oicpData transaction,
   Transaction.stop transaction).

(** [meterValue.attribute.context === OCPPReadingContext.TRANSACTION_END] *)
Definition isTransactionEnd (meterValue : OCPPNormalizedMeterValue.t) : bool :=
  OCPPReadingContext.eqb
    (OCPPAttribute.context (OCPPNormalizedMeterValue.attribute meterValue))
    OCPPReadingContext.TRANSACTION_END.

(** A value sampled during the session: neither at its begin nor at its
    end. *)
Definition sampledInSession (meterValue : OCPPNormalizedMeterValue.t) : Prop :=
  OCPPAttribute.context (OCPPNormalizedMeterValue.attribute meterValue)
  <> OCPPReadingContext.TRANSACTION_BEGIN
  /\ OCPPAttribute.context (OCPPNormalizedMeterValue.attribute meterValue)
     <> OCPPReadingContext.TRANSACTION_END.

(** Whom [handleAuthorize] lets through once the tag is authorized: a tag
    without user, a user of this system, or a roaming user with an
    authorization id on a public station. *)
Definition admitted (chargingStation : ChargingStation.t) (user : option User.t) : Prop :=
  match user with
  | Some u =>
      User.issuer u = true
      \/ (exists authorizationID,
            User.authorizationID u = Some authorizationID /\ authorizationID <> "")
         /\ ChargingStation.public chargingStation = true
  | None => True
  end.


(** The stop block the store holds for a transaction id of a tenant, if
    the transaction is stored and has one. *)
Definition storedStop (tenantID : string) (transactionId : Z) (db : DB.t)
    : option TransactionStop.t :=
  match TransactionStorage.getTransaction tenantID transactionId db with
  | Some transaction => Transaction.stop transaction
  | None => None
  end.

(** ** The cleanup of the active transactions, as the specification words it *)

(** What one turn of the cleanup did to the transaction it fetched. *)
Inductive CleanupTurn : Type :=
| Deleted (transactionId : Z)
| Stopped (transactionId meterStop : Z).

Definition turnTransactionId (turn : CleanupTurn) : Z :=
  match turn with
  | Deleted transactionId => transactionId
  | Stopped transactionId _ => transactionId
  end.

Section CleanupSpecification.

Context {I : Integrations}.
Variables (now : Z) (tenant : Tenant.t) (chargeBoxID : string) (connectorId : Z).

(** Written from the specification, which words the cleanup so: "Loop:
    find the active transaction for (station, connectorId).  If none,
    return.  Detect a fixed-point: if the found id equals the last seen
    id, break (defense against infinite loop).  If
    currentTotalConsumptionWh <= 0, delete the transaction.  Otherwise,
    call StopTransaction recursively in soft-stop/central-system mode with
    meterStop = last known cumulative.  Loop."  The stop is the one of
    the central system, which runs without a tag; the request carries the
    last cumulative value, the meter start when there is none.
    [cleanupTurns lastSeen db turns db'] says that the cleanup, entered
    with [lastSeen] in the store [db], takes the turns [turns], in that
    order, and returns in the store [db']. *)
Inductive cleanupTurns : option Z -> DB.t -> list CleanupTurn -> DB.t -> Prop :=
| cleanup_returns (lastSeen : option Z) (db : DB.t) :
    TransactionStorage.getActiveTransaction (Tenant.id tenant) chargeBoxID connectorId db
    = None ->
    cleanupTurns lastSeen db [] db
| cleanup_breaks (activeTransaction : Transaction.t) (db : DB.t) :
    TransactionStorage.getActiveTransaction (Tenant.id tenant) chargeBoxID connectorId db
    = Some activeTransaction ->
    cleanupTurns (Some (Transaction.id activeTransaction)) db [] db
| cleanup_deletes (lastSeen : option Z) (activeTransaction : Transaction.t)
    (db : DB.t) (turns : list CleanupTurn) (db' : DB.t) :
    TransactionStorage.getActiveTransaction (Tenant.id tenant) chargeBoxID connectorId db
    = Some activeTransaction ->
    lastSeen <> Some (Transaction.id activeTransaction) ->
    Transaction.currentTotalConsumptionWh activeTransaction <= 0 ->
    cleanupTurns (Some (Transaction.id activeTransaction))
      (TransactionStorage.deleteTransaction (Tenant.id tenant)
         (Transaction.id activeTransaction) db)
      turns db' ->
    cleanupTurns lastSeen db (Deleted (Transaction.id activeTransaction) :: turns) db'
| cleanup_stops (lastSeen : option Z) (activeTransaction : Transaction.t)
    (stopTransaction : OCPPStopTransactionRequestExtended.t)
    (db : DB.t) (turns : list CleanupTurn) (db' : DB.t) :
    TransactionStorage.getActiveTransaction (Tenant.id tenant) chargeBoxID connectorId db
    = Some activeTransaction ->
    lastSeen <> Some (Transaction.id activeTransaction) ->
    0 < Transaction.currentTotalConsumptionWh activeTransaction ->
    OCPPStopTransactionRequestExtended.transactionId stopTransaction
    = Transaction.id activeTransaction ->
    OCPPStopTransactionRequestExtended.meterStop stopTransaction
    = match Transaction.lastConsumption activeTransaction with
      | Some lastConsumption => LastConsumption.value lastConsumption
      | None => Transaction.meterStart activeTransaction
      end ->
    OCPPStopTransactionRequestExtended.idTag stopTransaction = None ->
    cleanupTurns (Some (Transaction.id activeTransaction))
      (snd (handleStopTransaction now
              {| OCPPHeader.tenantID := Tenant.id tenant;
                 OCPPHeader.chargeBoxIdentity :=
                   Some (Transaction.chargeBoxID activeTransaction);
                 OCPPHeader.currentIPAddress := None;
                 OCPPHeader.ocppProtocol := None;
                 OCPPHeader.ocppVersion := None;
                 OCPPHeader.token := None;
                 OCPPHeader.From := None;
                 OCPPHeader.chargingStationURL := None |}
              stopTransaction false true db))
      turns db' ->
    cleanupTurns lastSeen db
      (Stopped (Transaction.id activeTransaction)
         (OCPPStopTransactionRequestExtended.meterStop stopTransaction) :: turns)
      db'.

End CleanupSpecification.

(** * Properties *)

(** ** The store *)

Section Collections.

Context {A : Type}.
Variables same sel : A -> bool.

Lemma find_upsert_hit (x : A) (l : list A) :
  same x = true -> find same (upsert same x l) = Some x.
Proof.
  intros Hx. induction l as [|y l IH]; simpl.
  - now rewrite Hx.
  - destruct (same y) eqn:Hy; simpl.
    + now rewrite Hx.
    + now rewrite Hy.
Qed.

(** Replacing a document leaves the documents another selector picks,
    as long as the selector tells neither the old nor the new one. *)
Lemma find_upsert_other (x : A) (l : list A) :
  sel x = false -> (forall y, same y = true -> sel y = false) ->
  find sel (upsert same x l) = find sel l.
Proof.
  intros Hx Hsame. induction l as [|y l IH]; simpl.
  - now rewrite Hx.
  - destruct (same y) eqn:Hy; simpl.
    + now rewrite Hx, (Hsame y Hy).
    + now rewrite IH.
Qed.

(** Deleting the document [same] selects, when the first document [sel]
    selects is one of those: one selected document less, or the first
    selected document is still there. *)
Lemma find_delete_first (a : A) (l : list A) :
  find sel l = Some a -> same a = true ->
  (count sel (delete_first same l) < count sel l)%nat
  \/ find sel (delete_first same l) = Some a.
Proof.
  unfold count. induction l as [|y l IH]; simpl; [discriminate|].
  intros Hfind Ha.
  destruct (same y) eqn:Hy.
  - destruct (sel y) eqn:Hs; simpl.
    + left. lia.
    + now right.
  - destruct (sel y) eqn:Hs; simpl.
    + injection Hfind as ->. congruence.
    + rewrite Hs. destruct (IH Hfind Ha) as [Hlt|Heq]; [left; lia | now right].
Qed.

(** Replacing the document [same] selects by [x], when [x] is selected by
    [sel] only if the replaced document was: one selected document less,
    or the first selected document is the old one or [x]. *)
Lemma find_upsert_first (a x : A) (l : list A) :
  find sel l = Some a -> same a = true ->
  (forall b, find same l = Some b -> sel x = true -> sel b = true) ->
  (count sel (upsert same x l) < count sel l)%nat
  \/ find sel (upsert same x l) = Some a
  \/ find sel (upsert same x l) = Some x.
Proof.
  unfold count. induction l as [|y l IH]; simpl; [discriminate|].
  intros Hfind Ha Hrepl.
  destruct (same y) eqn:Hy.
  - destruct (sel y) eqn:Hs; simpl.
    + destruct (sel x) eqn:Hx; simpl; [now right; right | left; lia].
    + destruct (sel x) eqn:Hx; simpl.
      * specialize (Hrepl y eq_refl eq_refl). congruence.
      * now right; left.
  - destruct (sel y) eqn:Hs; simpl.
    + injection Hfind as ->. congruence.
    + rewrite Hs. destruct (IH Hfind Ha Hrepl) as [Hlt|[Heq|Heq]];
        [left; lia | now right; left | now right; right].
Qed.

Lemma count_find_none (l : list A) : count sel l = 0%nat -> find sel l = None.
Proof.
  unfold count. induction l as [|y l IH]; simpl; [reflexivity|].
  destruct (sel y); simpl; [discriminate | exact IH].
Qed.

End Collections.

Lemma find_in_tenant_some {A : Type} (tenantID : string) (p : A -> bool)
    (l : list (string * A)) (a : A) :
  find_in_tenant tenantID p l = Some a ->
  find (in_tenant tenantID p) l = Some (tenantID, a) /\ p a = true.
Proof.
  unfold find_in_tenant. destruct (find _ l) as [[t b]|] eqn:Hf; simpl; [|discriminate].
  intros [= ->]. apply find_some in Hf as [_ Hp]. unfold in_tenant in Hp; simpl in Hp.
  apply andb_true_iff in Hp as [Ht Hp]. apply String.eqb_eq in Ht. now subst.
Qed.

Lemma getTenant_id (tenantID : string) (db : DB.t) (tenant : Tenant.t) :
  TenantStorage.getTenant tenantID db = Some tenant -> Tenant.id tenant = tenantID.
Proof.
  unfold TenantStorage.getTenant. intros H. apply find_some in H as [_ H].
  now apply String.eqb_eq in H.
Qed.

(** ** StopTransaction *)

Section StopTransaction.

Context {I : Integrations}.

(** Resolution reads the store and answers the tenant of the header. *)
Lemma resolve_reads (headers : OCPPHeader.t) (db : DB.t) :
  snd (OCPPUtils.checkAndGetTenantAndChargingStation headers db) = db.
Proof.
  unfold OCPPUtils.checkAndGetTenantAndChargingStation, bind, gets, throw, ret.
  destruct (OCPPHeader.chargeBoxIdentity headers); simpl; [|reflexivity].
  destruct (TenantStorage.getTenant _ db); simpl; [|reflexivity].
  destruct (ChargingStationStorage.getChargingStation _ _ db); reflexivity.
Qed.

Lemma resolve_ok (headers : OCPPHeader.t) (db db' : DB.t)
    (chargingStation : ChargingStation.t) (tenant : Tenant.t) :
  OCPPUtils.checkAndGetTenantAndChargingStation headers db
  = (Ok (chargingStation, tenant), db') ->
  db' = db
  /\ Tenant.id tenant = OCPPHeader.tenantID headers
  /\ ChargingStationStorage.getChargingStation (Tenant.id tenant)
       (ChargingStation.id chargingStation) db = Some chargingStation.
Proof.
  intros H. pose proof (resolve_reads headers db) as Hdb. rewrite H in Hdb. simpl in Hdb.
  split; [assumption|]. revert H.
  unfold OCPPUtils.checkAndGetTenantAndChargingStation, bind, gets, throw, ret.
  destruct (OCPPHeader.chargeBoxIdentity headers) as [cb|]; [|discriminate].
  destruct (TenantStorage.getTenant _ db) as [t|] eqn:Ht; simpl; [|discriminate].
  destruct (ChargingStationStorage.getChargingStation _ _ db) as [cs|] eqn:Hcs;
    [|discriminate].
  intros [= -> -> _]. split; [now apply getTenant_id in Ht|].
  pose proof Hcs as Hcs'. unfold ChargingStationStorage.getChargingStation in Hcs'.
  apply find_in_tenant_some in Hcs' as [_ Hid]. apply String.eqb_eq in Hid.
  now rewrite Hid.
Qed.

(** C9.  A StopTransaction with [transactionId = 0] writes nothing: the
    store, notifications included, is the one the handler found; and once
    the station of the header is resolved and the payload validated, the
    answer is [Accepted]. *)
Theorem stop_transaction_id_zero (now : Z) (headers : OCPPHeader.t)
    (stopTransaction : OCPPStopTransactionRequestExtended.t)
    (isSoftStop stoppedByCentralSystem : bool) (db : DB.t) :
  OCPPStopTransactionRequestExtended.transactionId stopTransaction = 0 ->
  snd (handleStopTransaction now headers stopTransaction isSoftStop
         stoppedByCentralSystem db) = db
  /\ (forall chargingStation tenant,
        OCPPUtils.checkAndGetTenantAndChargingStation headers db
        = (Ok (chargingStation, tenant), db) ->
        validateStopTransaction chargingStation stopTransaction = true ->
        handleStopTransaction now headers stopTransaction isSoftStop
          stoppedByCentralSystem db = (stopAccepted, db)).
Proof.
  intros Hzero.
  unfold handleStopTransaction, handleStopTransaction_try, bind.
  pose proof (resolve_reads headers db) as Hdb.
  destruct (OCPPUtils.checkAndGetTenantAndChargingStation headers db)
    as [[[cs tenant]|e] db0] eqn:Hres; simpl in Hdb; subst db0.
  - rewrite Hzero. simpl.
    destruct (validateStopTransaction cs stopTransaction) eqn:Hval; simpl.
    + split; [reflexivity|]. intros cs' tenant' [= <- <-] _. reflexivity.
    + split; [reflexivity|]. intros cs' tenant' [= <- <-] Hval'. congruence.
  - simpl. split; [reflexivity|]. intros cs' tenant' H. discriminate.
Qed.

(** C1.  A StopTransaction for a transaction that has its stop block is
    answered [Invalid] and writes nothing: the store after the handler is
    the store before it.  Id 0 is not a transaction id, it is the "no
    transaction" mark of a connector. *)
Theorem stop_transaction_already_stopped (now : Z) (headers : OCPPHeader.t)
    (stopTransaction : OCPPStopTransactionRequestExtended.t)
    (isSoftStop stoppedByCentralSystem : bool) (db : DB.t)
    (transaction : Transaction.t) (stop : TransactionStop.t) :
  OCPPStopTransactionRequestExtended.transactionId stopTransaction <> 0 ->
  TransactionStorage.getTransaction (OCPPHeader.tenantID headers)
    (OCPPStopTransactionRequestExtended.transactionId stopTransaction) db
  = Some transaction ->
  Transaction.stop transaction = Some stop ->
  handleStopTransaction now headers stopTransaction isSoftStop
    stoppedByCentralSystem db = (stopInvalid, db).
Proof.
  intros Hid Htx Hstop.
  unfold handleStopTransaction, handleStopTransaction_try, bind.
  destruct (OCPPUtils.checkAndGetTenantAndChargingStation headers db)
    as [[[cs tenant]|e] db0] eqn:Hres.
  - apply resolve_ok in Hres as (-> & Htenant & _). simpl.
    destruct (validateStopTransaction cs stopTransaction); simpl; [|reflexivity].
    apply Z.eqb_neq in Hid. rewrite Hid. unfold gets. simpl.
    rewrite Htenant, Htx.
    destruct stoppedByCentralSystem; simpl.
    + unfold ret. rewrite Hstop. reflexivity.
    + unfold lift.
      destruct (isAuthorizedToStopTransaction _ _ _ _) as [[user alternateUser]|e];
        [|reflexivity].
      rewrite Hstop. reflexivity.
  - pose proof (resolve_reads headers db) as Hdb. rewrite Hres in Hdb. simpl in Hdb.
    now subst db0.
Qed.

(** Writing consumptions touches neither the stations nor the
    transactions. *)
Lemma stopWithConsumptions_frame (tenantID : string) (chargingStation : ChargingStation.t)
    (stopTransaction : OCPPStopTransactionRequestExtended.t)
    (stopMeterValues : list OCPPNormalizedMeterValue.t)
    (user alternateUser : option User.t) (tagId : string)
    (consumptions : list Consumption.t) :
  forall (transaction : Transaction.t) (db : DB.t),
    let out := stopWithConsumptions tenantID chargingStation stopTransaction
                 stopMeterValues user alternateUser tagId transaction consumptions db in
    DB.transactions (snd out) = DB.transactions db
    /\ DB.chargingStations (snd out) = DB.chargingStations db
    /\ DB.tenants (snd out) = DB.tenants db.
Proof.
  induction consumptions as [|consumption consumptions IH]; intros transaction db; simpl.
  - repeat split.
  - unfold bind, lift, ret, modify.
    destruct (Consumption.toPrice consumption).
    + destruct (priceTransaction _ _ _ _) as [[transaction1 consumption1]|e];
        [|repeat split].
      destruct (billTransaction _ _ _) as [transaction2|e]; [|repeat split].
      exact (IH transaction2 (ConsumptionStorage.saveConsumption tenantID consumption1 db)).
    + exact (IH _ (ConsumptionStorage.saveConsumption tenantID consumption db)).
Qed.

Lemma getChargingStation_saved (tenantID : string) (chargingStation : ChargingStation.t)
    (db : DB.t) :
  ChargingStationStorage.getChargingStation tenantID (ChargingStation.id chargingStation)
    (ChargingStationStorage.saveChargingStation tenantID chargingStation db)
  = Some chargingStation.
Proof.
  unfold ChargingStationStorage.getChargingStation,
    ChargingStationStorage.saveChargingStation, find_in_tenant. cbn.
  rewrite find_upsert_hit; [reflexivity|].
  unfold in_tenant. cbn. now rewrite !String.eqb_refl.
Qed.

Lemma getStopTransactionTagId_chargeBoxID (now : Z)
    (stopTransaction : OCPPStopTransactionRequestExtended.t) (chargeBoxID : option string)
    (transaction : Transaction.t) :
  getStopTransactionTagId now
    (stopTransaction <| OCPPStopTransactionRequestExtended.chargeBoxID := chargeBoxID |>)
    transaction
  = getStopTransactionTagId now stopTransaction transaction.
Proof. reflexivity. Qed.

Lemma freeFirst_found (connectorId : Z) (connectors : list Connector.t) (c : Connector.t) :
  find (fun c => Connector.connectorId c =? connectorId) connectors = Some c ->
  find (fun c => Connector.connectorId c =? connectorId)
    (OCPPUtils.freeFirst connectorId connectors)
  = Some (OCPPUtils.freeConnector c).
Proof.
  induction connectors as [|d connectors IH]; simpl; [discriminate|].
  destruct (Connector.connectorId d =? connectorId) eqn:Hd; simpl.
  - intros [= ->]. cbn. now rewrite Hd.
  - rewrite Hd. exact IH.
Qed.

(** The transaction the store holds under an id, after a transaction
    without stop block has been saved: still one without stop block,
    whenever the one it held had none. *)
Lemma getTransaction_saved_unstopped (tenantID : string) (id : Z)
    (saved old : Transaction.t) (db : DB.t) :
  TransactionStorage.getTransaction tenantID id db = Some old ->
  Transaction.stop old = None -> Transaction.stop saved = None ->
  exists transaction,
    TransactionStorage.getTransaction tenantID id
      (snd (TransactionStorage.saveTransaction tenantID saved db)) = Some transaction
    /\ Transaction.stop transaction = None.
Proof.
  intros Hold Hstop Hsaved.
  unfold TransactionStorage.getTransaction, TransactionStorage.saveTransaction in *.
  cbn.
  destruct (Z.eq_dec (Transaction.id saved) id) as [Heq|Hne].
  - subst id. exists saved. split; [|assumption].
    unfold find_in_tenant. rewrite find_upsert_hit; [reflexivity|].
    unfold in_tenant, TransactionStorage.has_id. cbn.
    now rewrite String.eqb_refl, Z.eqb_refl.
  - exists old. split; [|assumption].
    unfold find_in_tenant. rewrite find_upsert_other; [exact Hold| |].
    + unfold in_tenant, TransactionStorage.has_id. cbn.
      apply Z.eqb_neq in Hne. rewrite Hne. apply andb_false_r.
    + intros [t y]. unfold in_tenant, TransactionStorage.has_id. cbn.
      intros H. apply andb_true_iff in H as [_ H]. apply Z.eqb_eq in H.
      rewrite H. apply Z.eqb_neq in Hne. rewrite Hne. apply andb_false_r.
Qed.

Lemma notifyStopTransaction_frame (tenant : Tenant.t) (transaction : Transaction.t)
    (user alternateUser : option User.t) (db : DB.t) :
  let out := notifyStopTransaction tenant transaction user alternateUser db in
  DB.transactions (snd out) = DB.transactions db
  /\ DB.chargingStations (snd out) = DB.chargingStations db
  /\ (forall e, fst out = Throw e -> Transaction.stop transaction = None).
Proof.
  unfold notifyStopTransaction, NotificationHandler.send, bind, modify, ret, throw.
  destruct user; [|cbn; repeat split; discriminate].
  destruct (Transaction.stop transaction) as [stop|]; [|cbn; repeat split].
  cbn. destruct (negb _); cbn; repeat split; discriminate.
Qed.

(** C10.  StopTransaction on a transaction without stop block, from a
    resolved station, with a valid payload and an authorised tag: the
    station, with the connector of the transaction freed and [lastSeen]
    set, is saved before anything else is written, and nothing saves a
    station afterwards.  So the store the handler leaves always holds the
    freed station; a consumption builder that throws leaves exactly that
    store; and whenever the answer is [Invalid], the transaction the store
    holds under the id still has no stop block. *)
Theorem stop_transaction_error_path_not_atomic (now : Z) (headers : OCPPHeader.t)
    (stopTransaction : OCPPStopTransactionRequestExtended.t)
    (isSoftStop stoppedByCentralSystem : bool) (db : DB.t)
    (chargingStation : ChargingStation.t) (tenant : Tenant.t)
    (transaction : Transaction.t) :
  OCPPUtils.checkAndGetTenantAndChargingStation headers db
  = (Ok (chargingStation, tenant), db) ->
  validateStopTransaction chargingStation stopTransaction = true ->
  OCPPStopTransactionRequestExtended.transactionId stopTransaction <> 0 ->
  TransactionStorage.getTransaction (Tenant.id tenant)
    (OCPPStopTransactionRequestExtended.transactionId stopTransaction) db
  = Some transaction ->
  Transaction.stop transaction = None ->
  (stoppedByCentralSystem = false ->
   exists users,
     isAuthorizedToStopTransaction (Tenant.id tenant) chargingStation transaction
       (getStopTransactionTagId now stopTransaction transaction) = Ok users) ->
  let freed :=
    (OCPPUtils.checkAndFreeChargingStationConnector chargingStation
       (Transaction.connectorId transaction))
      <| ChargingStation.lastSeen := Some now |> in
  let out := handleStopTransaction now headers stopTransaction isSoftStop
               stoppedByCentralSystem db in
  ChargingStationStorage.getChargingStation (Tenant.id tenant)
    (ChargingStation.id chargingStation) (snd out) = Some freed
  /\ (forall connector,
        Utils.getConnectorFromID chargingStation (Transaction.connectorId transaction)
        = Some connector ->
        Utils.getConnectorFromID freed (Transaction.connectorId transaction)
        = Some (OCPPUtils.freeConnector connector)
        /\ Connector.currentTransactionID (OCPPUtils.freeConnector connector) = 0)
  /\ ((forall t c x m, exists e, createConsumptionsFromMeterValues t c x m = Throw e) ->
      out = (stopInvalid,
             ChargingStationStorage.saveChargingStation (Tenant.id tenant) freed db))
  /\ (fst out = stopInvalid ->
      exists stored,
        TransactionStorage.getTransaction (Tenant.id tenant)
          (OCPPStopTransactionRequestExtended.transactionId stopTransaction) (snd out)
        = Some stored
        /\ Transaction.stop stored = None).
Proof.
  intros Hres Hval Hid Htx Hstop Hauth freed out.
  assert (Hsaved : forall db1,
            DB.chargingStations db1
            = DB.chargingStations
                (ChargingStationStorage.saveChargingStation (Tenant.id tenant) freed db) ->
            ChargingStationStorage.getChargingStation (Tenant.id tenant)
              (ChargingStation.id chargingStation) db1 = Some freed).
  { intros db1 H. unfold ChargingStationStorage.getChargingStation. rewrite H.
    exact (getChargingStation_saved (Tenant.id tenant) freed db). }
  assert (Hkept : forall db1,
            DB.transactions db1 = DB.transactions db ->
            exists stored,
              TransactionStorage.getTransaction (Tenant.id tenant)
                (OCPPStopTransactionRequestExtended.transactionId stopTransaction) db1
              = Some stored
              /\ Transaction.stop stored = None).
  { intros db1 H. exists transaction. split; [|assumption].
    unfold TransactionStorage.getTransaction in *. now rewrite H. }
  split; [|split].
  2:{ intros connector Hc. split; [|reflexivity].
      unfold Utils.getConnectorFromID in *. cbn. now apply freeFirst_found. }
  all: subst out; unfold handleStopTransaction, handleStopTransaction_try, bind.
  all: rewrite Hres; cbn; rewrite Hval; cbn.
  all: apply Z.eqb_neq in Hid; rewrite Hid; unfold gets; cbn; rewrite Htx.
  all: assert (Husers : exists users,
         (if negb stoppedByCentralSystem
          then lift (isAuthorizedToStopTransaction (Tenant.id tenant) chargingStation
                       transaction
                       (getStopTransactionTagId now stopTransaction transaction))
          else ret (getUserByTagId (Tenant.id tenant)
                      (getStopTransactionTagId now stopTransaction transaction), None)) db
         = (Ok users, db))
    by (destruct stoppedByCentralSystem; cbn;
        [eexists; reflexivity
        | destruct (Hauth eq_refl) as [users Hu]; exists users; unfold lift;
          now rewrite Hu]).
  all: destruct Husers as [[user alternateUser] Husers].
  all: rewrite getStopTransactionTagId_chargeBoxID, Husers, Hstop; cbn.
  all: unfold modify, lift; cbn.
  - (* the station of the final store *)
    destruct (createConsumptionsFromMeterValues _ _ _ _)
      as [[transaction1 consumptions]|e]; cbn; [|now apply Hsaved].
    match goal with
    | |- context [stopWithConsumptions ?t ?c ?s ?m ?u ?a ?g ?x ?l ?d] =>
        pose proof (stopWithConsumptions_frame t c s m u a g l x d) as Hframe;
        destruct (stopWithConsumptions t c s m u a g x l d) as [[transaction2|e] db2]
    end; cbn in Hframe; destruct Hframe as (_ & Hcs & _); [|now apply Hsaved].
    cbn.
    match goal with
    | |- context [notifyStopTransaction ?t ?x ?u ?a ?d] =>
        pose proof (notifyStopTransaction_frame t x u a d) as Hnotify;
        destruct (notifyStopTransaction t x u a d) as [[[]|e] db3]
    end; cbn in Hnotify; destruct Hnotify as (_ & Hcs3 & _); cbn;
      apply Hsaved; rewrite Hcs3; exact Hcs.
  - (* a consumption builder that throws *)
    split.
    + intros Hthrow.
      match goal with
      | |- context [createConsumptionsFromMeterValues ?t ?c ?x ?m] =>
          destruct (Hthrow t c x m) as [e He]; rewrite He
      end. reflexivity.
    + (* the transaction of the final store *)
      destruct (createConsumptionsFromMeterValues _ _ _ _)
        as [[transaction1 consumptions]|e]; cbn; [|intros _; now apply Hkept].
      match goal with
      | |- context [stopWithConsumptions ?t ?c ?s ?m ?u ?a ?g ?x ?l ?d] =>
          pose proof (stopWithConsumptions_frame t c s m u a g l x d) as Hframe;
          destruct (stopWithConsumptions t c s m u a g x l d) as [[transaction2|e] db2]
      end; cbn in Hframe; destruct Hframe as (Htxs & _ & _);
        [|intros _; now apply Hkept].
      cbn.
      match goal with
      | |- context [notifyStopTransaction ?t ?x ?u ?a ?d] =>
          pose proof (notifyStopTransaction_frame t x u a d) as Hnotify;
          destruct (notifyStopTransaction t x u a d) as [[[]|e] db3] eqn:Hn
      end; cbn in Hnotify; destruct Hnotify as (Htxs3 & _ & Hthrown); cbn;
        [discriminate|].
      intros _. specialize (Hthrown e eq_refl). cbn in Hthrown.
      destruct (Hkept db2 Htxs) as (old & Hold & Hold_stop).
      destruct (getTransaction_saved_unstopped (Tenant.id tenant)
                  (OCPPStopTransactionRequestExtended.transactionId stopTransaction)
                  _ old db2 Hold Hold_stop Hthrown) as (stored & Hstored & Hstored_stop).
      exists stored. split; [|assumption].
      unfold TransactionStorage.getTransaction in *. rewrite Htxs3. exact Hstored.
Qed.

End StopTransaction.

(** ** Cleanup of the active transactions *)

Lemma getActiveTransaction_none (tenantID chargeBoxID : string) (connectorId : Z)
    (db : DB.t) :
  activeTransactions tenantID chargeBoxID connectorId db = 0%nat ->
  TransactionStorage.getActiveTransaction tenantID chargeBoxID connectorId db = None.
Proof.
  intros H. unfold TransactionStorage.getActiveTransaction, find_in_tenant.
  unfold activeTransactions in H. now rewrite (count_find_none _ _ H).
Qed.

Section Cleanup.

Context {I : Integrations}.
Hypothesis keeps : KeepsSession I.

Lemma same_session_refl (a : Transaction.t) : same_session a a.
Proof. repeat split. Qed.

Lemma same_session_trans (a b c : Transaction.t) :
  same_session a b -> same_session b c -> same_session a c.
Proof. unfold same_session. intros (? & ? & ?) (? & ? & ?). repeat split; congruence. Qed.

Lemma stopWithConsumptions_session (tenantID : string)
    (chargingStation : ChargingStation.t)
    (stopTransaction : OCPPStopTransactionRequestExtended.t)
    (stopMeterValues : list OCPPNormalizedMeterValue.t)
    (user alternateUser : option User.t) (tagId : string)
    (consumptions : list Consumption.t) :
  forall (transaction closed : Transaction.t) (db db' : DB.t),
    stopWithConsumptions tenantID chargingStation stopTransaction stopMeterValues
      user alternateUser tagId transaction consumptions db = (Ok closed, db') ->
    same_session transaction closed.
Proof.
  induction consumptions as [|consumption consumptions IH];
    intros transaction closed db db'; simpl.
  - unfold ret. intros [= <- _]. apply same_session_refl.
  - unfold bind, lift, ret, modify.
    pose proof (keeps_updateWithConsumption I keeps chargingStation transaction
                  consumption) as H1.
    pose proof (keeps_updateWithStop I keeps
                  (updateTransactionWithConsumption chargingStation transaction
                     consumption)
                  stopTransaction stopMeterValues user alternateUser tagId) as H2.
    pose proof (same_session_trans _ _ _ H1 H2) as H12.
    destruct (Consumption.toPrice consumption).
    + destruct (priceTransaction _ _ _ _) as [[transaction1 consumption1]|e] eqn:Hp;
        [|discriminate].
      destruct (billTransaction _ _ _) as [transaction2|e] eqn:Hb; [|discriminate].
      intros H. apply IH in H.
      apply (keeps_price I keeps) in Hp. apply (keeps_bill I keeps) in Hb.
      eauto using same_session_trans.
    + intros H. apply IH in H. eauto using same_session_trans.
Qed.

Lemma processRoaming_session (tenant : Tenant.t) (chargingStation : ChargingStation.t)
    (action : TransactionAction.t) (transaction : Transaction.t) :
  same_session transaction (processRoaming tenant chargingStation action transaction).
Proof.
  unfold processRoaming.
  assert (H1 : forall r,
            (r = Ok transaction
             \/ r = processOCPITransaction tenant transaction chargingStation action) ->
            match r with
            | Throw _ => True
            | Ok t => same_session transaction t
            end).
  { intros r [->| ->]; [apply same_session_refl|].
    destruct (processOCPITransaction _ _ _ _) eqn:H; [|exact Logic.I].
    eapply keeps_ocpi; eassumption. }
  match goal with
  | |- same_session _ (match ?r with _ => _ end) =>
      assert (Hr : match r with
                   | Throw _ => True
                   | Ok t => same_session transaction t
                   end)
        by (apply H1; destruct (Transaction.ocpiData transaction) as [d|];
            [destruct (JS.truthy (RoamingData.session d))|]; auto);
      destruct r as [transaction1|e]
  end; [|apply same_session_refl].
  destruct (Transaction.oicpData transaction1) as [d|]; [|assumption].
  destruct (JS.truthy_string (RoamingData.session d)); [|assumption].
  destruct (processOICPTransaction _ _ _ _) eqn:H; [|assumption].
  apply (keeps_oicp I keeps) in H. eauto using same_session_trans.
Qed.

(** What StopTransaction does to the transactions of the store: nothing,
    or it saves a state of the session it was asked to stop, which had no
    stop block. *)
Lemma handleStopTransaction_transactions (now : Z) (headers : OCPPHeader.t)
    (stopTransaction : OCPPStopTransactionRequestExtended.t)
    (isSoftStop stoppedByCentralSystem : bool) (db : DB.t) :
  let db' := snd (handleStopTransaction now headers stopTransaction isSoftStop
                    stoppedByCentralSystem db) in
  DB.transactions db' = DB.transactions db
  \/ exists old saved,
       TransactionStorage.getTransaction (OCPPHeader.tenantID headers)
         (OCPPStopTransactionRequestExtended.transactionId stopTransaction) db
       = Some old
       /\ Transaction.stop old = None
       /\ same_session old saved
       /\ DB.transactions db'
          = upsert (in_tenant (OCPPHeader.tenantID headers)
                      (TransactionStorage.has_id (Transaction.id saved)))
              (OCPPHeader.tenantID headers, saved) (DB.transactions db).
Proof.
  unfold handleStopTransaction, handleStopTransaction_try, bind.
  destruct (OCPPUtils.checkAndGetTenantAndChargingStation headers db)
    as [[[cs tenant]|e] db0] eqn:Hres.
  2:{ pose proof (resolve_reads headers db) as Hdb. rewrite Hres in Hdb.
      cbn in *. subst. now left. }
  apply resolve_ok in Hres as (-> & Htenant & _). cbn. rewrite Htenant.
  destruct (validateStopTransaction cs stopTransaction); cbn; [|now left].
  destruct (_ =? 0); cbn; [now left|].
  unfold gets. cbn.
  destruct (TransactionStorage.getTransaction _ _ db) as [old|] eqn:Hold; cbn;
    [|now left].
  match goal with
  | |- context [(if negb stoppedByCentralSystem then ?a else ?b) db] =>
      destruct ((if negb stoppedByCentralSystem then a else b) db)
        as [[[user alternateUser]|e] db1] eqn:Husers
  end.
  2:{ destruct stoppedByCentralSystem; cbn in Husers; unfold lift, ret in Husers.
      - discriminate.
      - destruct (isAuthorizedToStopTransaction _ _ _ _); inversion Husers; subst.
        cbn. now left. }
  assert (db1 = db) as ->
    by (destruct stoppedByCentralSystem; cbn in Husers; unfold lift, ret in Husers;
        [|destruct (isAuthorizedToStopTransaction _ _ _ _)]; now inversion Husers).
  destruct (Transaction.stop old) eqn:Hstop; cbn; [now left|].
  unfold modify, lift; cbn.
  destruct (createConsumptionsFromMeterValues _ _ _ _)
    as [[transaction1 consumptions]|e] eqn:Hbuild; cbn; [|now left].
  apply (keeps_createConsumptions I keeps) in Hbuild.
  match goal with
  | |- context [stopWithConsumptions ?t ?c ?s ?m ?u ?a ?g ?x ?l ?d] =>
      pose proof (stopWithConsumptions_frame t c s m u a g l x d) as Hframe;
      pose proof (stopWithConsumptions_session t c s m u a g l x) as Hsession;
      destruct (stopWithConsumptions t c s m u a g x l d) as [[transaction2|e] db2]
        eqn:Hrun
  end; cbn in Hframe; destruct Hframe as (Htxs & _ & _); [|now left].
  apply Hsession in Hrun. clear Hsession. rename Hrun into Hsession.
  cbn.
  match goal with
  | |- context [notifyStopTransaction ?t ?x ?u ?a ?d] =>
      pose proof (notifyStopTransaction_frame t x u a d) as Hnotify;
      destruct (notifyStopTransaction t x u a d) as [[[]|e] db3]
  end; cbn in Hnotify; destruct Hnotify as (Htxs3 & _ & _); cbn.
  all: right; exists old;
    match type of Htxs3 with
    | context [upsert _ (_, ?saved) _] => exists saved
    end.
  all: split; [reflexivity|]; split; [exact Hstop|]; split;
    [|rewrite Htxs3, Htxs; reflexivity].
  all: eauto using same_session_trans, processRoaming_session.
Qed.

(** One turn of the loop on a fetched transaction: one active transaction
    less on the connector, or the next fetch answers the same id. *)
Lemma stopOrDelete_progress (now : Z) (tenant : Tenant.t) (chargeBoxID : string)
    (connectorId : Z) (db : DB.t) (activeTransaction : Transaction.t) :
  TransactionStorage.getActiveTransaction (Tenant.id tenant) chargeBoxID connectorId db
  = Some activeTransaction ->
  let db' := stopOrDelete now tenant activeTransaction db in
  (activeTransactions (Tenant.id tenant) chargeBoxID connectorId db'
   < activeTransactions (Tenant.id tenant) chargeBoxID connectorId db)%nat
  \/ exists next,
       TransactionStorage.getActiveTransaction (Tenant.id tenant) chargeBoxID
         connectorId db' = Some next
       /\ Transaction.id next = Transaction.id activeTransaction.
Proof.
  intros Hactive.
  pose proof Hactive as Hfound.
  unfold TransactionStorage.getActiveTransaction in Hfound.
  apply find_in_tenant_some in Hfound as [Hfind Hsel].
  assert (Hkey : in_tenant (Tenant.id tenant)
                   (TransactionStorage.has_id (Transaction.id activeTransaction))
                   (Tenant.id tenant, activeTransaction) = true).
  { unfold in_tenant, TransactionStorage.has_id. cbn.
    now rewrite String.eqb_refl, Z.eqb_refl. }
  unfold stopOrDelete, activeTransactions, TransactionStorage.getActiveTransaction,
    find_in_tenant.
  destruct (Transaction.currentTotalConsumptionWh activeTransaction <=? 0).
  - (* deleted *)
    unfold TransactionStorage.deleteTransaction. cbn.
    destruct (find_delete_first _ _ _ _ Hfind Hkey) as [Hless|Hsame];
      [now left | right].
    exists activeTransaction. now rewrite Hsame.
  - (* stopped *)
    pose proof (handleStopTransaction_transactions now
                  (cleanupHeaders tenant activeTransaction)
                  (cleanupStopTransaction activeTransaction) false true db) as Heffect.
    cbn in Heffect.
    destruct Heffect as [Hsame|(old & saved & Hold & Hstop & Hsession & Hsaved)].
    + right. exists activeTransaction. now rewrite Hsame, Hfind.
    + rewrite Hsaved. destruct Hsession as (Hid & Hcb & Hconn).
      unfold TransactionStorage.getTransaction in Hold.
      apply find_in_tenant_some in Hold as [Hold Hold_id].
      unfold TransactionStorage.has_id in Hold_id. apply Z.eqb_eq in Hold_id.
      assert (Hsaved_id : Transaction.id saved = Transaction.id activeTransaction)
        by congruence.
      rewrite Hsaved_id.
      destruct (find_upsert_first
                  (in_tenant (Tenant.id tenant)
                     (TransactionStorage.has_id (Transaction.id activeTransaction)))
                  (in_tenant (Tenant.id tenant)
                     (TransactionStorage.is_active_on chargeBoxID connectorId))
                  (Tenant.id tenant, activeTransaction) (Tenant.id tenant, saved)
                  (DB.transactions db) Hfind Hkey) as [Hless|[Hfirst|Hfirst]].
      * intros b Hb. rewrite Hold in Hb. injection Hb as <-.
        unfold in_tenant, TransactionStorage.is_active_on. cbn.
        rewrite Hcb, Hconn, Hstop. cbn. rewrite !andb_true_r.
        destruct (_ =? _)%string; [|discriminate]. cbn.
        intros H. now apply andb_true_iff in H as [H _].
      * now left.
      * right. exists activeTransaction. now rewrite Hfirst.
      * right. exists saved. now rewrite Hfirst.
Qed.

(** The loop returns within two turns more than there are active
    transactions on the connector. *)
Lemma stopOrDeleteActiveTransactions_loop_returns (now : Z) (tenant : Tenant.t)
    (chargeBoxID : string) (connectorId : Z) (n : nat) :
  forall (db : DB.t) (lastCheckedTransactionID : option Z) (fuel : nat),
    (activeTransactions (Tenant.id tenant) chargeBoxID connectorId db <= n)%nat ->
    (n + 2 <= fuel)%nat ->
    exists db',
      stopOrDeleteActiveTransactions_loop fuel now tenant chargeBoxID connectorId
        lastCheckedTransactionID db = Some db'.
Proof.
  induction n as [|n IH]; intros db last fuel Hcount Hfuel;
    (destruct fuel as [|fuel]; [lia|]); simpl.
  - rewrite getActiveTransaction_none; [eauto|lia].
  - destruct (TransactionStorage.getActiveTransaction _ _ _ db)
      as [activeTransaction|] eqn:Hactive; [|eauto].
    destruct (match last with
              | Some l => l =? Transaction.id activeTransaction
              | None => false
              end); [eauto|].
    destruct (stopOrDelete_progress now tenant chargeBoxID connectorId db
                activeTransaction Hactive) as [Hless|(next & Hnext & Hid)].
    + apply IH; lia.
    + destruct fuel as [|fuel]; [lia|]. simpl. rewrite Hnext, Hid, Z.eqb_refl. eauto.
Qed.

(** The loop takes the turns the specification words, and returns within
    two turns more than there are active transactions on the connector. *)
Lemma stopOrDeleteActiveTransactions_loop_turns (now : Z) (tenant : Tenant.t)
    (chargeBoxID : string) (connectorId : Z) (n : nat) :
  forall (db : DB.t) (lastCheckedTransactionID : option Z) (fuel : nat),
    (activeTransactions (Tenant.id tenant) chargeBoxID connectorId db <= n)%nat ->
    (n + 2 <= fuel)%nat ->
    exists turns db',
      stopOrDeleteActiveTransactions_loop fuel now tenant chargeBoxID connectorId
        lastCheckedTransactionID db = Some db'
      /\ cleanupTurns now tenant chargeBoxID connectorId lastCheckedTransactionID db
           turns db'
      /\ (List.length turns <= n + 1)%nat.
Proof.
  induction n as [|n IH]; intros db last fuel Hcount Hfuel;
    (destruct fuel as [|fuel]; [lia|]); simpl.
  - assert (Hnone : TransactionStorage.getActiveTransaction (Tenant.id tenant)
                      chargeBoxID connectorId db = None)
      by (apply getActiveTransaction_none; lia).
    rewrite Hnone. exists [], db.
    split; [reflexivity|]. split; [now constructor|cbn; lia].
  - destruct (TransactionStorage.getActiveTransaction _ _ _ db)
      as [activeTransaction|] eqn:Hactive.
    2:{ exists [], db. split; [reflexivity|]. split; [now constructor|cbn; lia]. }
    destruct (match last with
              | Some l => l =? Transaction.id activeTransaction
              | None => false
              end) eqn:Hseen.
    { exists [], db. split; [reflexivity|]. split; [|cbn; lia].
      destruct last as [l|]; [|discriminate].
      apply Z.eqb_eq in Hseen. subst l. now apply cleanup_breaks. }
    assert (Hnew : last <> Some (Transaction.id activeTransaction)).
    { intros ->. now rewrite Z.eqb_refl in Hseen. }
    assert (Hturn :
              forall turns db',
                cleanupTurns now tenant chargeBoxID connectorId
                  (Some (Transaction.id activeTransaction))
                  (stopOrDelete now tenant activeTransaction db) turns db' ->
                exists turn,
                  cleanupTurns now tenant chargeBoxID connectorId last db
                    (turn :: turns) db').
    { intros turns db' Hrest. unfold stopOrDelete in Hrest.
      destruct (Transaction.currentTotalConsumptionWh activeTransaction <=? 0)
        eqn:Hwh.
      - apply Z.leb_le in Hwh. eexists.
        now apply (cleanup_deletes now tenant chargeBoxID connectorId last
                     activeTransaction db turns db').
      - apply Z.leb_gt in Hwh. eexists.
        now apply (cleanup_stops now tenant chargeBoxID connectorId last
                     activeTransaction (cleanupStopTransaction activeTransaction)
                     db turns db'). }
    destruct (stopOrDelete_progress now tenant chargeBoxID connectorId db
                activeTransaction Hactive) as [Hless|(next & Hnext & Hid)].
    + destruct (IH (stopOrDelete now tenant activeTransaction db)
                  (Some (Transaction.id activeTransaction)) fuel)
        as (turns & db' & Hrun & Hturns & Hlength); [lia|lia|].
      destruct (Hturn turns db' Hturns) as [turn Hall].
      exists (turn :: turns), db'.
      split; [exact Hrun|]. split; [exact Hall|cbn; lia].
    + destruct fuel as [|fuel]; [lia|]. simpl. rewrite Hnext, Hid, Z.eqb_refl.
      destruct (Hturn [] (stopOrDelete now tenant activeTransaction db))
        as [turn Hall].
      { rewrite <- Hid. now apply cleanup_breaks. }
      exists [turn], (stopOrDelete now tenant activeTransaction db).
      split; [reflexivity|]. split; [exact Hall|cbn; lia].
Qed.

(** Where the cleanup returns: no transaction is active on the connector
    any more, or the one that still is has just been handled. *)
Lemma cleanupTurns_returns (now : Z) (tenant : Tenant.t) (chargeBoxID : string)
    (connectorId : Z) (lastSeen : option Z) (db : DB.t) (turns : list CleanupTurn)
    (db' : DB.t) :
  cleanupTurns now tenant chargeBoxID connectorId lastSeen db turns db' ->
  TransactionStorage.getActiveTransaction (Tenant.id tenant) chargeBoxID connectorId db'
  = None
  \/ exists activeTransaction,
       TransactionStorage.getActiveTransaction (Tenant.id tenant) chargeBoxID
         connectorId db' = Some activeTransaction
       /\ (turns = [] /\ lastSeen = Some (Transaction.id activeTransaction)
           \/ exists before turn,
                turns = (before ++ [turn])%list
                /\ turnTransactionId turn = Transaction.id activeTransaction).
Proof.
  induction 1 as [last db Hnone|a db Hactive
                 |last a db turns db' Hactive Hnew Hwh Hrest IH
                 |last a request db turns db' Hactive Hnew Hwh Hid Hmeter Htag Hrest IH].
  - now left.
  - right. exists a. split; [exact Hactive|]. now left.
  - destruct IH as [Hnone|(b & Hb & [[-> Hlast]|(before & turn & -> & Hturn)])];
      [now left|right; exists b; split; [exact Hb|right]..].
    + exists [], (Deleted (Transaction.id a)). split; [reflexivity|].
      cbn. congruence.
    + exists (Deleted (Transaction.id a) :: before), turn. now split.
  - destruct IH as [Hnone|(b & Hb & [[-> Hlast]|(before & turn & -> & Hturn)])];
      [now left|right; exists b; split; [exact Hb|right]..].
    + exists [], (Stopped (Transaction.id a)
                    (OCPPStopTransactionRequestExtended.meterStop request)).
      split; [reflexivity|]. cbn. congruence.
    + exists (Stopped (Transaction.id a)
                (OCPPStopTransactionRequestExtended.meterStop request) :: before),
        turn.
      now split.
Qed.

(** C2.  [stopOrDeleteActiveTransactions] returns, within two turns more
    than there are active transactions on the connector, and what it has
    done by then is what the specification words: turn after turn it has
    fetched the active transaction of the connector; it has returned when
    there was none, and when the one it fetched had the id of the turn
    before; otherwise it has deleted the transaction when its
    [currentTotalConsumptionWh] was at most 0 and else stopped it through
    [handleStopTransaction], as stopped by the central system, with the
    last cumulative value as [meterStop].  It takes at most one turn more
    than there are active transactions, and where it returns no
    transaction is active on the connector any more, or the one that still
    is, is the one of its last turn.  The StatusNotification side runs it
    exactly for an [Available] on a connector id above 0 whose
    [currentTransactionID] is above 0, and frees the connector
    afterwards. *)
Theorem stop_or_delete_active_transactions_returns (now : Z) (tenant : Tenant.t)
    (chargeBoxID : string) (connectorId : Z) (db : DB.t) :
  (forall fuel,
     (activeTransactions (Tenant.id tenant) chargeBoxID connectorId db + 2 <= fuel)%nat ->
     exists turns db',
       stopOrDeleteActiveTransactions fuel now tenant chargeBoxID connectorId db
       = Some db'
       /\ cleanupTurns now tenant chargeBoxID connectorId None db turns db'
       /\ (List.length turns
           <= activeTransactions (Tenant.id tenant) chargeBoxID connectorId db + 1)%nat
       /\ (TransactionStorage.getActiveTransaction (Tenant.id tenant) chargeBoxID
             connectorId db' = None
           \/ exists activeTransaction before turn,
                TransactionStorage.getActiveTransaction (Tenant.id tenant) chargeBoxID
                  connectorId db' = Some activeTransaction
                /\ turns = (before ++ [turn])%list
                /\ turnTransactionId turn = Transaction.id activeTransaction))
  /\ (forall fuel chargingStation statusNotification connector,
        checkStatusNotificationOngoingTransaction fuel now tenant chargingStation
          statusNotification connector db
        = if (0 <? OCPPStatusNotificationRequestExtended.connectorId statusNotification)
             && (0 <? Connector.currentTransactionID connector)
             && ChargePointStatus.eqb
                  (OCPPStatusNotificationRequestExtended.status statusNotification)
                  ChargePointStatus.AVAILABLE
          then
            option_map
              (fun db' =>
                 (OCPPUtils.checkAndFreeChargingStationConnector chargingStation
                    (OCPPStatusNotificationRequestExtended.connectorId
                       statusNotification),
                  db'))
              (stopOrDeleteActiveTransactions fuel now tenant
                 (ChargingStation.id chargingStation)
                 (OCPPStatusNotificationRequestExtended.connectorId statusNotification)
                 db)
          else Some (chargingStation, db)).
Proof.
  split.
  - intros fuel Hfuel. unfold stopOrDeleteActiveTransactions.
    destruct (stopOrDeleteActiveTransactions_loop_turns now tenant chargeBoxID
                connectorId
                (activeTransactions (Tenant.id tenant) chargeBoxID connectorId db)
                db None fuel (le_n _) Hfuel) as (turns & db' & Hrun & Hturns & Hlength).
    exists turns, db'.
    split; [exact Hrun|]. split; [exact Hturns|]. split; [exact Hlength|].
    destruct (cleanupTurns_returns _ _ _ _ _ _ _ _ Hturns)
      as [Hnone|(a & Ha & [[_ Hseen]|(before & turn & Hsplit & Hturn)])].
    + now left.
    + discriminate.
    + right. now exists a, before, turn.
  - intros fuel chargingStation statusNotification connector.
    unfold checkStatusNotificationOngoingTransaction.
    destruct (_ && _); [|reflexivity].
    destruct (stopOrDeleteActiveTransactions _ _ _ _ _ _); reflexivity.
Qed.

End Cleanup.

Lemma sample_integrations_keep_session (pricing : bool) :
  KeepsSession (Sample.integrations pricing).
Proof.
  constructor; cbn; intros;
    try match goal with
        | H : (if pricing then _ else _) = _ |- _ => destruct pricing
        end;
    try match goal with
        | H : Ok _ = Ok _ |- _ => inversion H; subst
        end;
    try discriminate; repeat split.
Qed.

Lemma stop_or_delete_active_transactions_returns_witness :
  exists turns db',
    @stopOrDeleteActiveTransactions (Sample.integrations true) 4 300000 Sample.tenant
      "CS1" 1
      (Sample.db [Sample.transaction 42 1200 None; Sample.transaction 43 0 None] [])
    = Some db'
    /\ @cleanupTurns (Sample.integrations true) 300000 Sample.tenant "CS1" 1 None
         (Sample.db [Sample.transaction 42 1200 None; Sample.transaction 43 0 None] [])
         turns db'
    /\ (List.length turns <= 3)%nat
    /\ TransactionStorage.getActiveTransaction "t1" "CS1" 1 db' = None
    /\ TransactionStorage.getTransaction "t1" 43 db' = None
    /\ option_map TransactionStop.meterStop (storedStop "t1" 42 db') = Some 1200.
Proof.
  destruct (@stop_or_delete_active_transactions_returns (Sample.integrations true)
              (sample_integrations_keep_session true) 300000 Sample.tenant "CS1" 1
              (Sample.db [Sample.transaction 42 1200 None; Sample.transaction 43 0 None]
                 [])) as (Hreturns & _).
  destruct (Hreturns 4%nat) as (turns & db' & Hrun & Hturns & Hlength & _).
  - vm_compute. lia.
  - exists turns, db'.
    split; [exact Hrun|]. split; [exact Hturns|]. split; [exact Hlength|].
    clear Hturns Hlength Hreturns.
    vm_compute in Hrun. injection Hrun as <-.
    vm_compute. repeat split; reflexivity.
Defined.

(** ** Witnesses for StopTransaction *)

Lemma stop_transaction_id_zero_witness :
  @handleStopTransaction (Sample.integrations true) 300000 (Sample.headers "CS1" None)
    (Sample.stopTransaction 0) false false
    (Sample.db [Sample.transaction 42 1200 None] [])
  = (stopAccepted, Sample.db [Sample.transaction 42 1200 None] []).
Proof.
  apply (proj2 (@stop_transaction_id_zero (Sample.integrations true) 300000
                  (Sample.headers "CS1" None) (Sample.stopTransaction 0) false false
                  (Sample.db [Sample.transaction 42 1200 None] []) eq_refl)
           Sample.station Sample.tenant);
    reflexivity.
Defined.

Lemma stop_transaction_already_stopped_witness :
  @handleStopTransaction (Sample.integrations true) 300000 (Sample.headers "CS1" None)
    (Sample.stopTransaction 42) false false
    (Sample.db [Sample.transaction 42 1200 (Some (Sample.stopBlock 200000))] [])
  = (stopInvalid,
     Sample.db [Sample.transaction 42 1200 (Some (Sample.stopBlock 200000))] []).
Proof.
  apply (@stop_transaction_already_stopped (Sample.integrations true) 300000
           (Sample.headers "CS1" None) (Sample.stopTransaction 42) false false
           (Sample.db [Sample.transaction 42 1200 (Some (Sample.stopBlock 200000))] [])
           (Sample.transaction 42 1200 (Some (Sample.stopBlock 200000)))
           (Sample.stopBlock 200000));
    [discriminate | reflexivity | reflexivity].
Defined.

Lemma stop_transaction_error_path_not_atomic_witness :
  let out :=
    @handleStopTransaction (Sample.integrations false) 300000 (Sample.headers "CS1" None)
      (Sample.stopTransaction 42) false false
      (Sample.db [Sample.transaction 42 1200 None] []) in
  fst out = stopInvalid
  /\ (exists freed,
        ChargingStationStorage.getChargingStation "t1" "CS1" (snd out) = Some freed
        /\ map Connector.currentTransactionID (ChargingStation.connectors freed) = [0])
  /\ (exists stored,
        TransactionStorage.getTransaction "t1" 42 (snd out) = Some stored
        /\ Transaction.stop stored = None).
Proof.
  destruct (@stop_transaction_error_path_not_atomic (Sample.integrations false) 300000
              (Sample.headers "CS1" None) (Sample.stopTransaction 42) false false
              (Sample.db [Sample.transaction 42 1200 None] [])
              Sample.station Sample.tenant (Sample.transaction 42 1200 None))
    as (Hstation & _ & _ & Hstored).
  - reflexivity.
  - reflexivity.
  - discriminate.
  - reflexivity.
  - reflexivity.
  - intros _. eexists. reflexivity.
  - split; [reflexivity|]. split.
    + eexists. split; [exact Hstation | reflexivity].
    + apply Hstored. reflexivity.
Defined.

(** ** BootNotification *)

Section BootNotification.

Context {I : Integrations}.
Variable chargingStationConfig : ChargingStationConfiguration.t.

Lemma attributeMismatch_differ (chargingStation : ChargingStation.t)
    (bootNotification : OCPPBootNotificationRequestExtended.t) :
  attributeMismatch chargingStation bootNotification = true
  <-> attributesDiffer chargingStation bootNotification.
Proof.
  unfold attributeMismatch, attributesDiffer, JS.truthy_string, JS.strict_eq_string.
  rewrite !orb_true_iff, !andb_true_iff, !negb_true_iff, !String.eqb_neq.
  split.
  - intros [[H|H]|[[H1 H2] H3]]; [now left | now right; left | right; right].
    destruct (ChargingStation.chargePointSerialNumber chargingStation) as [stored|];
      [|discriminate].
    destruct (OCPPBootNotificationRequestExtended.chargePointSerialNumber
                bootNotification) as [reported|]; [|discriminate].
    exists stored, reported.
    rewrite negb_true_iff, String.eqb_neq in *. auto.
  - intros [H|[H|(stored & reported & -> & -> & H1 & H2 & H3)]];
      [now left; left | now left; right | right].
    rewrite !negb_true_iff, !String.eqb_neq. auto.
Qed.

Lemma stamped_attributes (now : Z) (headers : OCPPHeader.t) (chargeBoxIdentity : string)
    (bootNotification : OCPPBootNotificationRequestExtended.t) (address : option string) :
  let stamped :=
    stampBootNotification now headers chargeBoxIdentity
      (match address with
       | Some address =>
           bootNotification
             <| OCPPBootNotificationRequestExtended.endpoint := Some address |>
       | None => bootNotification
       end) in
  OCPPBootNotificationRequestExtended.chargePointVendor stamped
  = OCPPBootNotificationRequestExtended.chargePointVendor bootNotification
  /\ OCPPBootNotificationRequestExtended.chargePointModel stamped
     = OCPPBootNotificationRequestExtended.chargePointModel bootNotification
  /\ OCPPBootNotificationRequestExtended.chargePointSerialNumber stamped
     = OCPPBootNotificationRequestExtended.chargePointSerialNumber bootNotification
  /\ OCPPBootNotificationRequestExtended.chargeBoxSerialNumber stamped
     = OCPPBootNotificationRequestExtended.chargeBoxSerialNumber bootNotification
  /\ OCPPBootNotificationRequestExtended.firmwareVersion stamped
     = OCPPBootNotificationRequestExtended.firmwareVersion bootNotification
  /\ OCPPBootNotificationRequestExtended.lastReboot stamped = Some now
  /\ OCPPBootNotificationRequestExtended.lastSeen stamped = Some now.
Proof. destruct address; repeat split. Qed.

Lemma registerChargingStation_reads (now : Z) (headers : OCPPHeader.t) (tenant : Tenant.t)
    (chargeBoxIdentity : string)
    (bootNotification : OCPPBootNotificationRequestExtended.t) (db : DB.t) :
  snd (registerChargingStation now headers tenant chargeBoxIdentity bootNotification db)
  = db.
Proof.
  unfold registerChargingStation, bind, gets, throw, ret.
  repeat match goal with
         | |- snd (match ?x with _ => _ end _) = _ => destruct x
         | |- snd (let (_, _) := (_, _) in _) = _ => cbv iota beta
         | |- snd (match ?x with _ => _ end) = _ => destruct x
         end; reflexivity.
Qed.

Lemma bootChargingStation_reads (now : Z) (headers : OCPPHeader.t) (tenant : Tenant.t)
    (chargeBoxIdentity : string)
    (bootNotification : OCPPBootNotificationRequestExtended.t) (db : DB.t) :
  snd (bootChargingStation now headers tenant chargeBoxIdentity bootNotification db) = db.
Proof.
  unfold bootChargingStation, bind, gets, ret. cbv iota beta.
  destruct (ChargingStationStorage.getChargingStation _ _ db) as [cs|].
  - unfold rebootChargingStation, throw, ret.
    destruct (attributeMismatch cs bootNotification); reflexivity.
  - pose proof (registerChargingStation_reads now headers tenant chargeBoxIdentity
                  bootNotification db) as H.
    destruct (registerChargingStation _ _ _ _ _ db) as [[station|e] db1];
      cbn in H; subst; reflexivity.
Qed.

Local Arguments bootChargingStation : simpl never.
Local Arguments stampBootNotification : simpl never.

(** The handler past its preamble: rejected with the store untouched when
    the station step throws, accepted otherwise, the station saved when
    the template reports no update. *)
Lemma handleBootNotification_outcome (now : Z) (headers : OCPPHeader.t)
    (bootNotification : OCPPBootNotificationRequestExtended.t) (db : DB.t)
    (tenant : Tenant.t) (chargeBoxIdentity : string) :
  validateBootNotification bootNotification = true ->
  OCPPHeader.chargeBoxIdentity headers = Some chargeBoxIdentity ->
  chargeBoxIdentity <> "" ->
  TenantStorage.getTenant (OCPPHeader.tenantID headers) db = Some tenant ->
  let out := handleBootNotification chargingStationConfig now headers bootNotification db in
  match fst (bootChargingStation now headers tenant chargeBoxIdentity
               (stampedBootNotification now headers chargeBoxIdentity bootNotification)
               db) with
  | Throw _ =>
      out = ({| OCPPBootNotificationResponse.status := RegistrationStatus.REJECTED;
                OCPPBootNotificationResponse.currentTime := now;
                OCPPBootNotificationResponse.interval :=
                  Some BOOT_NOTIFICATION_WAIT_TIME |}, db)
  | Ok chargingStation =>
      fst out = {| OCPPBootNotificationResponse.status := RegistrationStatus.ACCEPTED;
                   OCPPBootNotificationResponse.currentTime := now;
                   OCPPBootNotificationResponse.interval :=
                     heartbeatIntervalSecs chargingStationConfig headers |}
      /\ (TemplateUpdateResult.chargingStationUpdated
            (snd (applyTemplateToChargingStation (Tenant.id tenant) chargingStation))
          = false ->
          ChargingStationStorage.getChargingStation (Tenant.id tenant)
            (ChargingStation.id (savedAfterBoot (Tenant.id tenant) chargingStation))
            (snd out)
          = Some (savedAfterBoot (Tenant.id tenant) chargingStation))
  end.
Proof.
  intros Hval Hcb Hne Htenant out. subst out.
  pose proof (bootChargingStation_reads now headers tenant chargeBoxIdentity
                (stampedBootNotification now headers chargeBoxIdentity bootNotification)
                db) as Hreads.
  unfold stampedBootNotification in *.
  unfold handleBootNotification, handleBootNotification_try, bind, gets, ret, throw,
    modify, NotificationHandler.send.
  rewrite Hval, Hcb. apply String.eqb_neq in Hne. cbn. rewrite Hne. cbn.
  rewrite Htenant.
  destruct (bootChargingStation now headers tenant chargeBoxIdentity _ db)
    as [[chargingStation|e] db1]; cbn [fst snd] in *; subst db1; [|reflexivity].
  unfold savedAfterBoot.
  destruct (applyTemplateToChargingStation (Tenant.id tenant) chargingStation)
    as [chargingStation1 result]. cbn [fst snd].
  destruct (TemplateUpdateResult.chargingStationUpdated result); cbn.
  - split; [reflexivity | discriminate].
  - split; [reflexivity|]. intros _.
    unfold ChargingStationStorage.getChargingStation. cbn.
    exact (getChargingStation_saved (Tenant.id tenant) _ db).
Qed.

(** Lines 199-210 touch the transport fields of the station only. *)
Lemma stampChargingStation_frame (headers : OCPPHeader.t)
    (bootNotification : OCPPBootNotificationRequestExtended.t)
    (chargingStation : ChargingStation.t) :
  let stamped := stampChargingStation headers bootNotification chargingStation in
  ChargingStation.id stamped = ChargingStation.id chargingStation
  /\ ChargingStation.chargePointVendor stamped
     = ChargingStation.chargePointVendor chargingStation
  /\ ChargingStation.chargePointModel stamped
     = ChargingStation.chargePointModel chargingStation
  /\ ChargingStation.chargePointSerialNumber stamped
     = ChargingStation.chargePointSerialNumber chargingStation
  /\ ChargingStation.firmwareVersion stamped
     = ChargingStation.firmwareVersion chargingStation
  /\ ChargingStation.lastReboot stamped = ChargingStation.lastReboot chargingStation
  /\ ChargingStation.deleted stamped = ChargingStation.deleted chargingStation
  /\ ChargingStation.registrationStatus stamped
     = ChargingStation.registrationStatus chargingStation
  /\ ChargingStation.issuer stamped = ChargingStation.issuer chargingStation
  /\ ChargingStation.siteAreaID stamped = ChargingStation.siteAreaID chargingStation
  /\ ChargingStation.siteID stamped = ChargingStation.siteID chargingStation
  /\ ChargingStation.coordinates stamped = ChargingStation.coordinates chargingStation
  /\ ChargingStation.lastSeen stamped
     = OCPPBootNotificationRequestExtended.lastSeen bootNotification.
Proof.
  unfold stampChargingStation.
  destruct (JS.truthy_string (OCPPHeader.chargingStationURL headers));
    destruct getCFApplicationIDAndInstanceIndex; repeat split.
Qed.

Lemma attributeMismatch_stamped (now : Z) (headers : OCPPHeader.t)
    (chargeBoxIdentity : string)
    (bootNotification : OCPPBootNotificationRequestExtended.t)
    (chargingStation : ChargingStation.t) :
  attributeMismatch chargingStation
    (stampedBootNotification now headers chargeBoxIdentity bootNotification)
  = attributeMismatch chargingStation bootNotification.
Proof.
  unfold attributeMismatch, stampedBootNotification.
  destruct (stamped_attributes now headers chargeBoxIdentity bootNotification
              (OCPPHeader.From headers)) as (-> & -> & -> & _).
  reflexivity.
Qed.


(** What the registration branch answers: a throw when no token admits the
    station, the new station otherwise. *)
Lemma registerChargingStation_cases (now : Z) (headers : OCPPHeader.t)
    (tenant : Tenant.t) (chargeBoxIdentity : string)
    (bootNotification : OCPPBootNotificationRequestExtended.t) (db : DB.t) :
  ((forall token, ~ tokenAdmits now headers (Tenant.id tenant) db token)
   /\ exists e,
        fst (registerChargingStation now headers tenant chargeBoxIdentity
               bootNotification db) = Throw e)
  \/ exists token created,
       tokenAdmits now headers (Tenant.id tenant) db token
       /\ fst (registerChargingStation now headers tenant chargeBoxIdentity
                 bootNotification db) = Ok created
       /\ ChargingStation.id created = chargeBoxIdentity
       /\ ChargingStation.registrationStatus created = Some RegistrationStatus.ACCEPTED
       /\ ChargingStation.issuer created = true
       /\ ChargingStation.chargePointVendor created
          = OCPPBootNotificationRequestExtended.chargePointVendor bootNotification
       /\ ChargingStation.chargePointModel created
          = OCPPBootNotificationRequestExtended.chargePointModel bootNotification
       /\ ChargingStation.chargePointSerialNumber created
          = OCPPBootNotificationRequestExtended.chargePointSerialNumber bootNotification
       /\ ChargingStation.firmwareVersion created
          = OCPPBootNotificationRequestExtended.firmwareVersion bootNotification
       /\ match RegistrationToken.siteAreaID token with
          | Some siteAreaID =>
              match SiteAreaStorage.getSiteArea (Tenant.id tenant) siteAreaID db with
              | Some siteArea =>
                  siteAreaID <> "" ->
                  ChargingStation.siteAreaID created = Some siteAreaID
                  /\ ChargingStation.siteID created = SiteArea.siteID siteArea
                  /\ ChargingStation.coordinates created = twoCoordinates siteArea
              | None =>
                  ChargingStation.siteAreaID created = None
                  /\ ChargingStation.siteID created = None
                  /\ ChargingStation.coordinates created = None
              end
          | None =>
              ChargingStation.siteAreaID created = None
              /\ ChargingStation.siteID created = None
              /\ ChargingStation.coordinates created = None
          end.
Proof.
  unfold registerChargingStation, bind, gets, throw, ret,
    tokenInvalidOrExpired, tokenRevoked, JS.truthy, JS.isAfter, JS.truthy_string.
  destruct (OCPPHeader.token headers) as [tokenID|] eqn:Hheader.
  2:{ left. split; [|eexists; reflexivity].
      intros token (t & e & H & _). congruence. }
  destruct (tokenID =? "")%string eqn:Hempty; cbn [negb]; cbv beta iota.
  { left. split; [|eexists; reflexivity].
    intros token (t & e & H & Hne & _). apply String.eqb_eq in Hempty. congruence. }
  apply String.eqb_neq in Hempty.
  destruct (RegistrationTokenStorage.getRegistrationToken (Tenant.id tenant) tokenID db)
    as [token|] eqn:Hstored; cbv beta iota.
  2:{ left. split; [|eexists; reflexivity].
      intros token (t & e & H & _ & Hs & _). congruence. }
  destruct (RegistrationToken.expirationDate token) as [expirationDate|] eqn:Hexp;
    cbn [negb orb]; cbv beta iota.
  2:{ left. split; [|eexists; reflexivity].
      intros token' (t & e & H & _ & Hs & He & _). congruence. }
  destruct (expirationDate <? now) eqn:Hafter; cbv beta iota.
  { left. split; [|eexists; reflexivity].
    intros token' (t & e & H & _ & Hs & He & Hle & _).
    apply Z.ltb_lt in Hafter.
    assert (token' = token) by congruence. subst token'.
    assert (e = expirationDate) by congruence. lia. }
  apply Z.ltb_ge in Hafter.
  destruct (RegistrationToken.revocationDate token) as [revocationDate|] eqn:Hrev;
    cbn [orb]; cbv beta iota.
  { left. split; [|eexists; reflexivity].
    intros token' (t & e & H & _ & Hs & _ & _ & Hr).
    assert (token' = token) by congruence. subst token'. congruence. }
  right. exists token.
  assert (Hadmits : tokenAdmits now headers (Tenant.id tenant) db token)
    by (exists tokenID, expirationDate; auto 10).
  destruct (RegistrationToken.siteAreaID token) as [siteAreaID|]; cbv beta iota.
  2:{ eexists. split; [exact Hadmits|]. split; [reflexivity|]. repeat split. }
  destruct (siteAreaID =? "")%string eqn:Harea; cbn [negb]; cbv beta iota.
  { eexists. split; [exact Hadmits|]. split; [reflexivity|].
    apply String.eqb_eq in Harea.
    destruct (SiteAreaStorage.getSiteArea _ _ db); repeat split; try congruence. }
  destruct (SiteAreaStorage.getSiteArea (Tenant.id tenant) siteAreaID db)
    as [siteArea|]; cbv beta iota.
  2:{ eexists. split; [exact Hadmits|]. split; [reflexivity|]. repeat split. }
  destruct (twoCoordinates siteArea) as [coordinates|] eqn:Hcoordinates;
    (eexists; split; [exact Hadmits|]; split; [reflexivity|]; repeat split).
Qed.


End BootNotification.

(** ** Witnesses and a counterexample for BootNotification *)




(** ** MeterValues *)

Section MeterValues.

Context {I : Integrations}.

Lemma recordMeterValue_flag (chargingStation : ChargingStation.t)
    (transaction : Transaction.t) (meterValue : OCPPNormalizedMeterValue.t) :
  Transaction.transactionEndReceived (recordMeterValue chargingStation transaction meterValue)
  = Transaction.transactionEndReceived transaction.
Proof.
  unfold recordMeterValue, OCPPUtils.updateSignedData, setVoltage, setPower, setCurrent.
  destruct meterValue as [cb cid tid ts [context format measurand location unit phase] v].
  cbn [OCPPNormalizedMeterValue.attribute OCPPNormalizedMeterValue.value
       OCPPAttribute.context OCPPAttribute.format OCPPAttribute.measurand
       OCPPAttribute.unit OCPPAttribute.phase].
  destruct format, v, context, measurand; cbv beta iota zeta;
    repeat match goal with
           | |- context [match ?x with _ => _ end] => destruct x
           end; reflexivity.
Qed.

Lemma flagTransactionEnd_first (transaction : Transaction.t)
    (meterValue : OCPPNormalizedMeterValue.t) :
  atTransactionEnd meterValue ->
  Transaction.transactionEndReceived transaction = false ->
  flagTransactionEnd transaction meterValue = clearInstantValues transaction.
Proof.
  unfold flagTransactionEnd, atTransactionEnd. intros -> ->. reflexivity.
Qed.

Lemma flagTransactionEnd_later (transaction : Transaction.t)
    (meterValue : OCPPNormalizedMeterValue.t) :
  Transaction.transactionEndReceived transaction = true ->
  flagTransactionEnd transaction meterValue = transaction.
Proof.
  unfold flagTransactionEnd. intros ->. now destruct (OCPPReadingContext.eqb _ _).
Qed.

Lemma flagTransactionEnd_other (transaction : Transaction.t)
    (meterValue : OCPPNormalizedMeterValue.t) :
  ~ atTransactionEnd meterValue ->
  flagTransactionEnd transaction meterValue = transaction.
Proof.
  unfold flagTransactionEnd, atTransactionEnd. intros H.
  destruct (OCPPAttribute.context _); try reflexivity. now contradiction H.
Qed.

Lemma updateTransactionWithMeterValues_flagged (chargingStation : ChargingStation.t)
    (meterValues : list OCPPNormalizedMeterValue.t) :
  forall transaction,
    Transaction.transactionEndReceived transaction = true ->
    updateTransactionWithMeterValues chargingStation transaction meterValues
    = fold_left (recordMeterValue chargingStation) meterValues transaction
    /\ Transaction.transactionEndReceived
         (updateTransactionWithMeterValues chargingStation transaction meterValues)
       = true.
Proof.
  unfold updateTransactionWithMeterValues.
  induction meterValues as [|meterValue meterValues IH]; intros transaction Hflag; simpl.
  - now split.
  - unfold updateTransactionWithMeterValue at 2 4.
    rewrite flagTransactionEnd_later by assumption.
    apply IH. now rewrite recordMeterValue_flag.
Qed.

(** C5, as the code has it.  The first meter value with context
    [Transaction.End] a transaction sees sets [transactionEndReceived] and
    clears its instant watts, volts and amps (total, per phase, DC) before
    the value itself is recorded; the state of charge is left as it was.
    Once the flag is set nothing clears again: over a list of meter values
    the clearing happens at the first [Transaction.End] value and nowhere
    else. *)
Theorem transaction_end_clears_instant_values_once (chargingStation : ChargingStation.t) :
  (forall transaction meterValue,
     atTransactionEnd meterValue ->
     Transaction.transactionEndReceived transaction = false ->
     updateTransactionWithMeterValue chargingStation transaction meterValue
     = recordMeterValue chargingStation (clearInstantValues transaction) meterValue
     /\ instantValuesCleared (clearInstantValues transaction)
     /\ Transaction.currentStateOfCharge (clearInstantValues transaction)
        = Transaction.currentStateOfCharge transaction
     /\ Transaction.stateOfCharge (clearInstantValues transaction)
        = Transaction.stateOfCharge transaction
     /\ Transaction.transactionEndReceived
          (updateTransactionWithMeterValue chargingStation transaction meterValue)
        = true)
  /\ (forall transaction meterValue,
        Transaction.transactionEndReceived transaction = true ->
        updateTransactionWithMeterValue chargingStation transaction meterValue
        = recordMeterValue chargingStation transaction meterValue
        /\ Transaction.transactionEndReceived
             (updateTransactionWithMeterValue chargingStation transaction meterValue)
           = true)
  /\ (forall transaction before meterValue after,
        Transaction.transactionEndReceived transaction = false ->
        (forall m, In m before -> ~ atTransactionEnd m) ->
        atTransactionEnd meterValue ->
        updateTransactionWithMeterValues chargingStation transaction
          (before ++ meterValue :: after)%list
        = fold_left (recordMeterValue chargingStation) after
            (recordMeterValue chargingStation
               (clearInstantValues
                  (fold_left (recordMeterValue chargingStation) before transaction))
               meterValue)).
Proof.
  split; [|split].
  - intros transaction meterValue Hend Hflag.
    unfold updateTransactionWithMeterValue.
    rewrite flagTransactionEnd_first by assumption.
    split; [reflexivity|]. split; [repeat split|]. split; [reflexivity|].
    split; [reflexivity|]. now rewrite recordMeterValue_flag.
  - intros transaction meterValue Hflag.
    unfold updateTransactionWithMeterValue.
    rewrite flagTransactionEnd_later by assumption.
    split; [reflexivity|]. now rewrite recordMeterValue_flag.
  - intros transaction before. revert transaction.
    induction before as [|m before IH]; intros transaction meterValue after Hflag Hbefore
      Hend.
    + cbn [app fold_left]. unfold updateTransactionWithMeterValues. cbn [fold_left].
      unfold updateTransactionWithMeterValue at 2.
      rewrite flagTransactionEnd_first by assumption.
      apply (updateTransactionWithMeterValues_flagged chargingStation after).
      now rewrite recordMeterValue_flag.
    + cbn [app fold_left]. unfold updateTransactionWithMeterValues in *.
      cbn [fold_left]. unfold updateTransactionWithMeterValue at 2.
      rewrite flagTransactionEnd_other by (apply Hbefore; now left).
      apply IH; [|intros m' Hm'; apply Hbefore; now right|assumption].
      now rewrite recordMeterValue_flag.
Qed.

Lemma removeSampleClock_keeps (values : list OCPPNormalizedMeterValue.t) :
  JS.filter removeSampleClock values = values.
Proof.
  unfold JS.filter. induction values as [|v values IH]; [reflexivity|].
  cbn [List.filter]. unfold removeSampleClock at 1. cbn [JS.ToBoolean].
  now rewrite IH.
Qed.

(** C8: the callback of the filter is [async], its result is a promise and
    a promise is truthy; the filter keeps every meter value, the
    [Sample.Clock] ones too, whatever the station. *)
Theorem sample_clock_filter_keeps_everything (chargingStation : ChargingStation.t)
    (meterValues : OCPPNormalizedMeterValues.t) :
  filterMeterValuesOnSpecificChargingStations chargingStation meterValues = meterValues.
Proof.
  unfold filterMeterValuesOnSpecificChargingStations.
  destruct (_ || _); [|reflexivity].
  rewrite removeSampleClock_keeps. now destruct meterValues.
Qed.

End MeterValues.

Lemma transaction_end_clears_instant_values_once_witness :
  let transaction := Sample.transaction 42 1200 None in
  let meterValue :=
    Sample.meterValue OCPPReadingContext.TRANSACTION_END
      OCPPMeasurand.POWER_ACTIVE_IMPORT 11000 in
  @updateTransactionWithMeterValue (Sample.integrations true) Sample.station
    transaction meterValue
  = @recordMeterValue (Sample.integrations true) Sample.station
      (clearInstantValues transaction) meterValue.
Proof.
  apply (proj1 (@transaction_end_clears_instant_values_once (Sample.integrations true)
                  Sample.station));
    reflexivity.
Defined.

(** C5 as stated fails: the first [Transaction.End] value clears the
    instant watts and sets the flag, and the state of charge is still 50. *)
Lemma transaction_end_clears_instant_values_once_counterexample :
  let transaction :=
    @updateTransactionWithMeterValues (Sample.integrations true) Sample.station
      (Sample.transaction 42 1200 None)
      [Sample.meterValue OCPPReadingContext.TRANSACTION_END
         OCPPMeasurand.ENERGY_ACTIVE_IMPORT_REGISTER 1200] in
  Transaction.transactionEndReceived transaction = true
  /\ Transaction.currentInstantWatts transaction = 0
  /\ Transaction.currentStateOfCharge (Sample.transaction 42 1200 None) = 50
  /\ Transaction.currentStateOfCharge transaction = 50.
Proof. vm_compute. repeat split. Qed.

(** C8 at a concrete input: a Schneider station on OCPP 1.6 sends a
    periodic value and a [Sample.Clock] value; both come out of the
    filter. *)
Lemma sample_clock_filter_example :
  let sent :=
    [Sample.meterValue OCPPReadingContext.SAMPLE_PERIODIC
       OCPPMeasurand.ENERGY_ACTIVE_IMPORT_REGISTER 300;
     Sample.meterValue OCPPReadingContext.SAMPLE_CLOCK
       OCPPMeasurand.ENERGY_ACTIVE_IMPORT_REGISTER 300] in
  OCPPNormalizedMeterValues.values
    (filterMeterValuesOnSpecificChargingStations Sample.station
       {| OCPPNormalizedMeterValues.chargeBoxID := "CS1";
          OCPPNormalizedMeterValues.values := sent |})
  = sent.
Proof. vm_compute. reflexivity. Qed.

(** ** End of charge *)

Section EndOfCharge.

Context {I : Integrations}.
Variable chargingStationConfig : ChargingStationConfiguration.t.



End EndOfCharge.



(** The same session with its user, and without a last consumption: the
    read of [lastConsumption.timestamp] throws before the notification is
    handed over. *)
Example end_of_charge_without_last_consumption :
  let transaction :=
    (Sample.transaction 42 1200 None)
      <| Transaction.lastConsumption := None |>
      <| Transaction.currentStateOfCharge := 100 |> in
  let db := Sample.db [transaction] [] in
  @checkNotificationEndOfCharge (Sample.integrations true) Sample.config Sample.tenant
    Sample.station transaction db
  = (Throw TypeError, db).
Proof. vm_compute. reflexivity. Qed.

(** ** StatusNotification: extra inactivity *)

Section Latest.

Lemma latest_In (l : list Transaction.t) :
  forall best t,
    TransactionStorage.latest best l = Some t -> best = Some t \/ In t l.
Proof.
  induction l as [|x l IH]; intros best t; simpl; [now left|].
  destruct best as [b|].
  - destruct (Transaction.timestamp b <? Transaction.timestamp x); intros H;
      apply IH in H as [H|H]; auto.
    injection H as <-. auto.
  - intros H. apply IH in H as [H|H]; auto. injection H as <-. auto.
Qed.

Lemma latest_map (h : Transaction.t -> Transaction.t) (l : list Transaction.t) :
  forall best,
    (forall t, In t l -> Transaction.timestamp (h t) = Transaction.timestamp t) ->
    (forall b, best = Some b -> Transaction.timestamp (h b) = Transaction.timestamp b) ->
    TransactionStorage.latest (option_map h best) (map h l)
    = option_map h (TransactionStorage.latest best l).
Proof.
  induction l as [|x l IH]; intros best Hl Hbest; simpl; [reflexivity|].
  assert (Hx : Transaction.timestamp (h x) = Transaction.timestamp x)
    by (apply Hl; now left).
  assert (Hl' : forall t, In t l -> Transaction.timestamp (h t) = Transaction.timestamp t)
    by (intros t Ht; apply Hl; now right).
  destruct best as [b|]; simpl.
  - rewrite Hx, (Hbest b eq_refl).
    destruct (Transaction.timestamp b <? Transaction.timestamp x).
    + apply (IH (Some x)); [assumption|]. now intros ? [= <-].
    + apply (IH (Some b)); assumption.
  - apply (IH (Some x)); [assumption|]. now intros ? [= <-].
Qed.

Lemma NoDup_map_injective {A B : Type} (f : A -> B) (l : list A) :
  NoDup (map f l) -> forall a b, In a l -> In b l -> f a = f b -> a = b.
Proof.
  induction l as [|x l IH]; simpl; [contradiction|].
  intros Hnodup a b Ha Hb Hf. inversion Hnodup as [|? ? Hnotin Hrest]; subst.
  destruct Ha as [<-|Ha], Hb as [<-|Hb]; auto.
  - exfalso. apply Hnotin. rewrite Hf. now apply in_map.
  - exfalso. apply Hnotin. rewrite <- Hf. now apply in_map.
Qed.

(** With unique keys, replacing the document of a key is a map. *)
Lemma upsert_map {A B : Type} (key : A -> B) (same : A -> bool) (k : B) (x : A)
    (l : list A) :
  (forall y, same y = true -> key y = k) ->
  NoDup (map key l) ->
  (exists y, In y l /\ same y = true) ->
  upsert same x l = map (fun y => if same y then x else y) l.
Proof.
  intros Hkey. induction l as [|y l IH]; simpl; intros Hnodup [z [Hz Hsame]];
    [contradiction|].
  inversion Hnodup as [|? ? Hnotin Hrest]; subst.
  destruct (same y) eqn:Hy.
  - f_equal. rewrite <- (map_id l) at 1. apply map_ext_in.
    intros y' Hy'. destruct (same y') eqn:Hsame'; [|reflexivity].
    exfalso. apply Hnotin. rewrite (Hkey y Hy), <- (Hkey y' Hsame'). now apply in_map.
  - f_equal. apply IH; [assumption|]. exists z. split; [|assumption].
    destruct Hz as [<-|Hz]; [congruence|assumption].
Qed.

Lemma filter_map_commute {A : Type} (sel : A -> bool) (g : A -> A) (l : list A) :
  (forall y, In y l -> sel (g y) = sel y) ->
  List.filter sel (map g l) = map g (List.filter sel l).
Proof.
  induction l as [|y l IH]; simpl; intros H; [reflexivity|].
  rewrite (H y (or_introl eq_refl)).
  destruct (sel y); simpl; rewrite IH; auto.
Qed.

(** Saving another state of the latest transaction of a connector, with
    the same start, keeps it the latest, and keeps the ids unique. *)
Lemma getLastTransaction_saved (tenantID chargeBoxID : string) (connectorId : Z)
    (db : DB.t) (last saved : Transaction.t) :
  uniqueTransactionIds db ->
  TransactionStorage.getLastTransactionFromChargingStation tenantID chargeBoxID
    connectorId db = Some last ->
  same_session last saved ->
  Transaction.timestamp saved = Transaction.timestamp last ->
  let db' := snd (TransactionStorage.saveTransaction tenantID saved db) in
  TransactionStorage.getLastTransactionFromChargingStation tenantID chargeBoxID
    connectorId db' = Some saved
  /\ uniqueTransactionIds db'.
Proof.
  intros Hunique Hlast (Hid & Hcb & Hconn) Hts db'.
  set (same := in_tenant tenantID (TransactionStorage.has_id (Transaction.id saved))).
  set (sel := in_tenant tenantID (TransactionStorage.is_on chargeBoxID connectorId)).
  set (g := fun y : string * Transaction.t => if same y then (tenantID, saved) else y).
  set (h := fun t : Transaction.t =>
              if TransactionStorage.has_id (Transaction.id saved) t then saved else t).
  unfold TransactionStorage.getLastTransactionFromChargingStation in Hlast.
  fold sel in Hlast.
  assert (Hin : In (tenantID, last) (DB.transactions db) /\ sel (tenantID, last) = true).
  { apply latest_In in Hlast as [Hlast|Hlast]; [discriminate|].
    apply in_map_iff in Hlast as ([t x] & Hx & Hd). cbn in Hx. subst x.
    apply filter_In in Hd as [Hd Hsel]. pose proof Hsel as Ht.
    unfold sel, in_tenant in Ht. cbn in Ht. apply andb_true_iff in Ht as [Ht _].
    apply String.eqb_eq in Ht. subst t. now split. }
  destruct Hin as [Hin Hsel].
  assert (Hsame_last : same (tenantID, last) = true).
  { unfold same, in_tenant, TransactionStorage.has_id. cbn.
    now rewrite String.eqb_refl, Hid, Z.eqb_refl. }
  assert (Hsame_key : forall y, same y = true ->
                        transactionKey y = (tenantID, Transaction.id saved)).
  { intros [t x]. unfold same, in_tenant, TransactionStorage.has_id, transactionKey.
    cbn. intros H. apply andb_true_iff in H as [Ht Hx].
    apply String.eqb_eq in Ht. apply Z.eqb_eq in Hx. congruence. }
  assert (Hsame_is : forall y, In y (DB.transactions db) -> same y = true ->
                       y = (tenantID, last)).
  { intros y Hy Hsame. apply (NoDup_map_injective transactionKey _ Hunique); auto.
    now rewrite (Hsame_key y Hsame), (Hsame_key _ Hsame_last). }
  assert (Hsaved : DB.transactions db' = map g (DB.transactions db)).
  { subst db'. unfold TransactionStorage.saveTransaction. cbn. fold same.
    apply (upsert_map transactionKey same (tenantID, Transaction.id saved));
      [assumption | assumption | eauto]. }
  assert (Hsel_saved : sel (tenantID, saved) = true).
  { unfold sel, in_tenant, TransactionStorage.is_on in *. cbn in *.
    now rewrite Hcb, Hconn. }
  split.
  - unfold TransactionStorage.getLastTransactionFromChargingStation. fold sel.
    rewrite Hsaved, filter_map_commute.
    2:{ intros y Hy. unfold g. destruct (same y) eqn:Hy'; [|reflexivity].
        rewrite (Hsame_is y Hy Hy'). congruence. }
    rewrite map_map.
    rewrite (map_ext_in (fun y => snd (g y)) (fun y => h (snd y))).
    2:{ intros [t x] Hy. apply filter_In in Hy as [_ Hy].
        unfold sel, in_tenant in Hy. cbn in Hy. apply andb_true_iff in Hy as [Ht _].
        unfold g, h, same, in_tenant. cbn. rewrite Ht. cbn.
        now destruct (TransactionStorage.has_id _ x). }
    rewrite <- map_map.
    change (@None Transaction.t) with (option_map h None).
    rewrite latest_map.
    + rewrite Hlast. cbn. unfold h, TransactionStorage.has_id.
      now rewrite Hid, Z.eqb_refl.
    + intros t Ht. unfold h. destruct (TransactionStorage.has_id _ t) eqn:Hhas;
        [|reflexivity].
      apply in_map_iff in Ht as ([t' x] & Hx & Hd). cbn in Hx. subst x.
      apply filter_In in Hd as [Hd Hd_sel].
      assert (Ht' : t' = tenantID).
      { unfold sel, in_tenant in Hd_sel. cbn in Hd_sel.
        apply andb_true_iff in Hd_sel as [Ht' _]. now apply String.eqb_eq in Ht'. }
      subst t'.
      assert (Heq : (tenantID, t) = (tenantID, last)).
      { apply Hsame_is; [assumption|]. unfold same, in_tenant. cbn.
        now rewrite String.eqb_refl, Hhas. }
      injection Heq as ->. assumption.
    + discriminate.
  - unfold uniqueTransactionIds. rewrite Hsaved, map_map.
    rewrite (map_ext_in (fun y => transactionKey (g y)) transactionKey);
      [assumption|].
    intros y Hy. unfold g. destruct (same y) eqn:Hy'; [|reflexivity].
    rewrite (Hsame_key y Hy'). unfold transactionKey. reflexivity.
Qed.

End Latest.

Section StatusNotification.

Context {I : Integrations}.
Hypothesis keeps : KeepsStop I.

Lemma same_stopped_session_refl (a : Transaction.t) : same_stopped_session a a.
Proof. split; [apply same_session_refl | split; reflexivity]. Qed.

Lemma same_stopped_session_trans (a b c : Transaction.t) :
  same_stopped_session a b -> same_stopped_session b c -> same_stopped_session a c.
Proof.
  intros (Hab & ? & ?) (Hbc & ? & ?).
  split; [exact (same_session_trans _ _ _ Hab Hbc) | split; congruence].
Qed.

Lemma checkAndSendOCPITransactionCdr_run (tenant : Tenant.t)
    (transaction : Transaction.t) (chargingStation : ChargingStation.t) (db : DB.t) :
  snd (checkAndSendOCPITransactionCdr tenant transaction chargingStation db) = db
  /\ forall pushed,
       fst (checkAndSendOCPITransactionCdr tenant transaction chargingStation db)
       = Ok pushed ->
       same_stopped_session transaction pushed.
Proof.
  unfold checkAndSendOCPITransactionCdr, lift, ret.
  destruct (Transaction.ocpiData transaction) as [data|];
    [destruct (negb _); [destruct (createOCPIPushCdrLock _ _)|]|];
    cbn [fst snd]; (split; [reflexivity|]); intros pushed H;
    try (injection H as <-; apply same_stopped_session_refl).
  exact (keeps_stop_ocpi I keeps _ _ _ _ _ H).
Qed.

Lemma checkAndSendOICPTransactionCdr_run (tenant : Tenant.t)
    (transaction : Transaction.t) (chargingStation : ChargingStation.t) (db : DB.t) :
  snd (checkAndSendOICPTransactionCdr tenant transaction chargingStation db) = db
  /\ forall pushed,
       fst (checkAndSendOICPTransactionCdr tenant transaction chargingStation db)
       = Ok pushed ->
       same_stopped_session transaction pushed.
Proof.
  unfold checkAndSendOICPTransactionCdr, lift, ret.
  destruct (Transaction.oicpData transaction) as [data|];
    [destruct (negb _); [destruct (createOICPPushCdrLock _ _)|]|];
    cbn [fst snd]; (split; [reflexivity|]); intros pushed H;
    try (injection H as <-; apply same_stopped_session_refl).
  exact (keeps_stop_oicp I keeps _ _ _ _ _ H).
Qed.

(** The end of [checkLastTransaction]: the two pushes, then the save. *)
Lemma checkLastTransaction_pushes (tenant : Tenant.t)
    (chargingStation : ChargingStation.t) (computed : Transaction.t) (db : DB.t) :
  let out :=
    (lastTransaction <-
       match Transaction.ocpiData computed with
       | Some data =>
           if JS.truthy (RoamingData.session data)
           then checkAndSendOCPITransactionCdr tenant computed chargingStation
           else ret computed
       | None => ret computed
       end ;;
     lastTransaction <-
       match Transaction.oicpData lastTransaction with
       | Some data =>
           if JS.truthy (RoamingData.session data)
           then checkAndSendOICPTransactionCdr tenant lastTransaction chargingStation
           else ret lastTransaction
       | None => ret lastTransaction
       end ;;
     modify (fun db =>
       snd (TransactionStorage.saveTransaction (Tenant.id tenant) lastTransaction db)))
    db in
  (exists saved,
     same_stopped_session computed saved
     /\ out = (Ok tt, snd (TransactionStorage.saveTransaction (Tenant.id tenant) saved db)))
  \/ (snd out = db /\ fst out <> Ok tt).
Proof.
  intros out. remember out as result eqn:Hrun. subst out.
  assert (Hocpi : exists r,
            match Transaction.ocpiData computed with
            | Some data =>
                if JS.truthy (RoamingData.session data)
                then checkAndSendOCPITransactionCdr tenant computed chargingStation
                else ret computed
            | None => ret computed
            end db = (r, db)
            /\ forall pushed, r = Ok pushed -> same_stopped_session computed pushed).
  { destruct (Transaction.ocpiData computed) as [data|];
      [destruct (JS.truthy _)|].
    - destruct (checkAndSendOCPITransactionCdr_run tenant computed chargingStation db)
        as [Hdb Hok].
      destruct (checkAndSendOCPITransactionCdr _ _ _ _) as [r db']. cbn in *.
      subst db'. eauto.
    - exists (Ok computed). split; [reflexivity|].
      intros ? [= <-]. apply same_stopped_session_refl.
    - exists (Ok computed). split; [reflexivity|].
      intros ? [= <-]. apply same_stopped_session_refl. }
  destruct Hocpi as (r1 & Hrun1 & Hok1).
  unfold bind at 1 in Hrun. cbv beta in Hrun. rewrite Hrun1 in Hrun.
  destruct r1 as [pushed1|e]; [|subst result; right; split; [reflexivity|discriminate]].
  specialize (Hok1 pushed1 eq_refl).
  assert (Hoicp : exists r,
            match Transaction.oicpData pushed1 with
            | Some data =>
                if JS.truthy (RoamingData.session data)
                then checkAndSendOICPTransactionCdr tenant pushed1 chargingStation
                else ret pushed1
            | None => ret pushed1
            end db = (r, db)
            /\ forall pushed, r = Ok pushed -> same_stopped_session pushed1 pushed).
  { destruct (Transaction.oicpData pushed1) as [data|];
      [destruct (JS.truthy _)|].
    - destruct (checkAndSendOICPTransactionCdr_run tenant pushed1 chargingStation db)
        as [Hdb Hok].
      destruct (checkAndSendOICPTransactionCdr _ _ _ _) as [r db']. cbn in *.
      subst db'. eauto.
    - exists (Ok pushed1). split; [reflexivity|].
      intros ? [= <-]. apply same_stopped_session_refl.
    - exists (Ok pushed1). split; [reflexivity|].
      intros ? [= <-]. apply same_stopped_session_refl. }
  destruct Hoicp as (r2 & Hrun2 & Hok2).
  unfold bind at 1 in Hrun. cbv beta in Hrun. rewrite Hrun2 in Hrun.
  destruct r2 as [pushed2|e]; [|subst result; right; split; [reflexivity|discriminate]].
  specialize (Hok2 pushed2 eq_refl).
  left. exists pushed2. split; [|exact Hrun].
  exact (same_stopped_session_trans _ _ _ Hok1 Hok2).
Qed.

(** What one status notification does to the stored transactions: nothing,
    or one save of the last transaction of the connector, with the stop
    block the notification leads to. *)
Lemma checkLastTransaction_run (tenant : Tenant.t) (chargingStation : ChargingStation.t)
    (statusNotification : OCPPStatusNotificationRequestExtended.t)
    (connector : Connector.t) (db : DB.t) (last : Transaction.t)
    (stop : TransactionStop.t) :
  TransactionStorage.getLastTransactionFromChargingStation (Tenant.id tenant)
    (ChargingStation.id chargingStation) (Connector.connectorId connector) db
  = Some last ->
  Transaction.stop last = Some stop ->
  let computed :=
    match OCPPStatusNotificationRequestExtended.timestamp statusNotification with
    | Some timestamp =>
        if negb (TransactionStop.extraInactivityComputed stop) then
          last <| Transaction.stop :=
            Some (computeExtraInactivity
                    (ChargingStationStorage.getChargingStation (Tenant.id tenant)
                       (Transaction.chargeBoxID last) db)
                    last stop timestamp) |>
        else last
    | None => last
    end in
  let out := checkLastTransaction tenant chargingStation statusNotification connector db in
  (exists saved,
     same_stopped_session computed saved
     /\ DB.transactions (snd out)
        = DB.transactions (snd (TransactionStorage.saveTransaction (Tenant.id tenant)
                                  saved db)))
  \/ (DB.transactions (snd out) = DB.transactions db
      /\ (OCPPStatusNotificationRequestExtended.status statusNotification
          = ChargePointStatus.AVAILABLE -> fst out <> Ok tt)).
Proof.
  intros Hlast Hstop computed out. remember out as result eqn:Hrun. subst out.
  unfold checkLastTransaction in Hrun.
  destruct (ChargePointStatus.eqb _ _) eqn:Hstatus.
  2:{ subst result. right. split; [reflexivity|].
      intros Heq. rewrite Heq in Hstatus. discriminate. }
  unfold bind at 1 in Hrun. unfold gets at 1 in Hrun. cbv beta iota in Hrun.
  rewrite Hlast, Hstop in Hrun.
  unfold bind at 1 in Hrun. cbv beta in Hrun.
  assert (Hstage : exists db1,
            match OCPPStatusNotificationRequestExtended.timestamp statusNotification with
            | Some timestamp =>
                if negb (TransactionStop.extraInactivityComputed stop) then
                  chargeBox <-
                    gets (ChargingStationStorage.getChargingStation (Tenant.id tenant)
                            (Transaction.chargeBoxID last)) ;;
                  let lastTransaction :=
                    last <| Transaction.stop :=
                      Some (computeExtraInactivity chargeBox last stop timestamp) |> in
                  OCPPUtils.buildExtraConsumptionInactivity (Tenant.id tenant)
                    lastTransaction ;;;
                  ret lastTransaction
                else ret last
            | None => ret last
            end db = (Ok computed, db1)
            /\ DB.transactions db1 = DB.transactions db).
  { subst computed.
    destruct (OCPPStatusNotificationRequestExtended.timestamp statusNotification)
      as [timestamp|]; [destruct (negb _)|].
    - unfold bind, gets, ret, OCPPUtils.buildExtraConsumptionInactivity, modify.
      cbn. eexists. split; reflexivity.
    - exists db. split; reflexivity.
    - exists db. split; reflexivity. }
  destruct Hstage as (db1 & Hstage & Htxs). cbv zeta in Hstage.
  rewrite Hstage in Hrun. cbv beta iota in Hrun.
  destruct (checkLastTransaction_pushes tenant chargingStation computed db1)
    as [(saved & Hsession & Hpushes)|[Hdb Hfail]]; cbv zeta in *.
  - left. exists saved. split; [assumption|].
    rewrite Hrun, Hpushes. cbn. now rewrite Htxs.
  - right. rewrite <- Hrun in Hdb, Hfail. split.
    + now rewrite Hdb.
    + intros _. exact Hfail.
Qed.

Lemma getLastTransaction_transactions (tenantID chargeBoxID : string)
    (connectorId : Z) (a b : DB.t) :
  DB.transactions a = DB.transactions b ->
  TransactionStorage.getLastTransactionFromChargingStation tenantID chargeBoxID
    connectorId a
  = TransactionStorage.getLastTransactionFromChargingStation tenantID chargeBoxID
      connectorId b.
Proof.
  unfold TransactionStorage.getLastTransactionFromChargingStation. now intros ->.
Qed.

(** After a notification, the last transaction of the connector is the one
    it was, in the state the notification leads to. *)
Lemma checkLastTransaction_last (tenant : Tenant.t) (chargingStation : ChargingStation.t)
    (statusNotification : OCPPStatusNotificationRequestExtended.t)
    (connector : Connector.t) (db : DB.t) (last : Transaction.t)
    (stop : TransactionStop.t) :
  uniqueTransactionIds db ->
  TransactionStorage.getLastTransactionFromChargingStation (Tenant.id tenant)
    (ChargingStation.id chargingStation) (Connector.connectorId connector) db
  = Some last ->
  Transaction.stop last = Some stop ->
  let computed :=
    match OCPPStatusNotificationRequestExtended.timestamp statusNotification with
    | Some timestamp =>
        if negb (TransactionStop.extraInactivityComputed stop) then
          Some (computeExtraInactivity
                  (ChargingStationStorage.getChargingStation (Tenant.id tenant)
                     (Transaction.chargeBoxID last) db)
                  last stop timestamp)
        else Some stop
    | None => Some stop
    end in
  let out := checkLastTransaction tenant chargingStation statusNotification connector db in
  uniqueTransactionIds (snd out)
  /\ exists stored,
       TransactionStorage.getLastTransactionFromChargingStation (Tenant.id tenant)
         (ChargingStation.id chargingStation) (Connector.connectorId connector) (snd out)
       = Some stored
       /\ same_session last stored
       /\ (Transaction.stop stored = Some stop
           \/ (OCPPStatusNotificationRequestExtended.status statusNotification
               = ChargePointStatus.AVAILABLE
               /\ Transaction.stop stored = computed))
       /\ (OCPPStatusNotificationRequestExtended.status statusNotification
           = ChargePointStatus.AVAILABLE ->
           fst out = Ok tt -> Transaction.stop stored = computed).
Proof.
  intros Hunique Hlast Hstop computed out.
  assert (Havailable :
            OCPPStatusNotificationRequestExtended.status statusNotification
            = ChargePointStatus.AVAILABLE
            \/ out = (Ok tt, db)).
  { subst out. unfold checkLastTransaction.
    destruct (OCPPStatusNotificationRequestExtended.status statusNotification);
      cbn; auto. }
  destruct (checkLastTransaction_run tenant chargingStation statusNotification
              connector db last stop Hlast Hstop)
    as [(saved & (Hsession & Hts & Hsaved_stop) & Htxs)|[Htxs Hfail]];
    cbv zeta in *; fold out in Htxs.
  - assert (Hsession' : same_session last saved).
    { refine (same_session_trans _ _ _ _ Hsession).
      destruct (OCPPStatusNotificationRequestExtended.timestamp statusNotification);
        [destruct (negb _)|]; repeat split. }
    assert (Hts' : Transaction.timestamp saved = Transaction.timestamp last).
    { rewrite Hts.
      destruct (OCPPStatusNotificationRequestExtended.timestamp statusNotification);
        [destruct (negb _)|]; reflexivity. }
    assert (Hstop' : Transaction.stop saved = computed).
    { rewrite Hsaved_stop. subst computed.
      destruct (OCPPStatusNotificationRequestExtended.timestamp statusNotification);
        [destruct (negb _)|]; cbn; auto. }
    destruct (getLastTransaction_saved (Tenant.id tenant)
                (ChargingStation.id chargingStation) (Connector.connectorId connector)
                db last saved Hunique Hlast Hsession' Hts') as [Hlast' Hunique'].
    split.
    + unfold uniqueTransactionIds in *. now rewrite Htxs.
    + exists saved. split; [|split; [assumption|split]].
      * rewrite <- Hlast'. now apply getLastTransaction_transactions.
      * destruct Havailable as [Havailable|Hout]; [right; now split|].
        left. rewrite Hout in Htxs. cbn [snd] in Htxs.
        assert (Heq : Some saved = Some last).
        { rewrite <- Hlast', <- Hlast. apply getLastTransaction_transactions.
          now symmetry. }
        injection Heq as Heq. rewrite Heq in Hstop'. congruence.
      * intros _ _. assumption.
  - split.
    + unfold uniqueTransactionIds in *. now rewrite Htxs.
    + exists last. split; [|split; [apply same_session_refl|split]].
      * rewrite <- Hlast. now apply getLastTransaction_transactions.
      * now left.
      * intros Hstatus Hok. now destruct (Hfail Hstatus).
Qed.

Lemma floor_div_nonneg (a : Z) : 0 <= JS.floor_div a 1000 <-> 0 <= a.
Proof.
  unfold JS.floor_div. split; intros H.
  - destruct (Z_lt_le_dec a 0) as [Hneg|]; [|assumption].
    assert (a / 1000 < 0) by (apply Z.div_lt_upper_bound; lia). lia.
  - apply Z.div_pos; lia.
Qed.

(** What the check of the last transaction does for a stopped transaction
    that is the last one of its connector and whose extra inactivity is
    not computed yet: an Available status notification carrying a
    timestamp, once [checkLastTransaction] has returned, leaves the
    transaction stored with [stop.extraInactivitySecs] equal to the
    notification timestamp minus [stop.timestamp] in whole seconds,
    rounded down, with [extraInactivityComputed] set, and with the
    inactivity status of [stop.totalInactivitySecs] plus the extra
    inactivity.  Whatever a second check is run for, the stored stop block
    is the same afterwards. *)
Lemma checkLastTransaction_computes_once (tenant : Tenant.t)
    (chargingStation : ChargingStation.t) (connector : Connector.t)
    (statusNotification : OCPPStatusNotificationRequestExtended.t)
    (db : DB.t) (last : Transaction.t) (stop : TransactionStop.t) (timestamp : Z) :
  uniqueTransactionIds db ->
  TransactionStorage.getLastTransactionFromChargingStation (Tenant.id tenant)
    (ChargingStation.id chargingStation) (Connector.connectorId connector) db
  = Some last ->
  Transaction.stop last = Some stop ->
  TransactionStop.extraInactivityComputed stop = false ->
  OCPPStatusNotificationRequestExtended.status statusNotification
  = ChargePointStatus.AVAILABLE ->
  OCPPStatusNotificationRequestExtended.timestamp statusNotification = Some timestamp ->
  let first := checkLastTransaction tenant chargingStation statusNotification connector db in
  fst first = Ok tt ->
  exists stored stop1,
    TransactionStorage.getLastTransactionFromChargingStation (Tenant.id tenant)
      (ChargingStation.id chargingStation) (Connector.connectorId connector) (snd first)
    = Some stored
    /\ same_session last stored
    /\ Transaction.stop stored = Some stop1
    /\ TransactionStop.extraInactivitySecs stop1
       = (timestamp - TransactionStop.timestamp stop) / 1000
    /\ (0 <= TransactionStop.extraInactivitySecs stop1
        <-> TransactionStop.timestamp stop <= timestamp)
    /\ TransactionStop.extraInactivityComputed stop1 = true
    /\ TransactionStop.inactivityStatus stop1
       = getInactivityStatusLevel
           (ChargingStationStorage.getChargingStation (Tenant.id tenant)
              (Transaction.chargeBoxID last) db)
           (Transaction.connectorId last)
           (TransactionStop.totalInactivitySecs stop
            + TransactionStop.extraInactivitySecs stop1)
    /\ forall again : OCPPStatusNotificationRequestExtended.t,
         let second :=
           checkLastTransaction tenant chargingStation again connector (snd first) in
         exists stored2,
           TransactionStorage.getLastTransactionFromChargingStation (Tenant.id tenant)
             (ChargingStation.id chargingStation) (Connector.connectorId connector)
             (snd second)
           = Some stored2
           /\ same_session last stored2
           /\ Transaction.stop stored2 = Some stop1.
Proof.
  intros Hunique Hlast Hstop Hflag Hstatus Htimestamp first Hok.
  destruct (checkLastTransaction_last tenant chargingStation statusNotification
              connector db last stop Hunique Hlast Hstop)
    as (Hunique1 & stored & Hlast1 & Hsession1 & _ & Hstop1).
  cbv zeta in *. fold first in Hunique1, Hlast1, Hstop1.
  specialize (Hstop1 Hstatus Hok).
  rewrite Htimestamp, Hflag in Hstop1. cbn [negb] in Hstop1.
  set (stop1 := computeExtraInactivity
                  (ChargingStationStorage.getChargingStation (Tenant.id tenant)
                     (Transaction.chargeBoxID last) db) last stop timestamp) in *.
  exists stored, stop1.
  split; [assumption|]. split; [assumption|]. split; [assumption|].
  split; [reflexivity|]. split.
  { change (TransactionStop.extraInactivitySecs stop1)
      with (JS.floor_div (timestamp - TransactionStop.timestamp stop) 1000).
    rewrite floor_div_nonneg. lia. }
  split; [reflexivity|]. split; [reflexivity|].
  intros again.
  destruct (checkLastTransaction_last tenant chargingStation again connector
              (snd first) stored stop1 Hunique1 Hlast1 Hstop1)
    as (_ & stored2 & Hlast2 & Hsession2 & Hstop2 & _).
  cbv zeta in *.
  exists stored2. split; [assumption|].
  split; [exact (same_session_trans _ _ _ Hsession1 Hsession2)|].
  destruct Hstop2 as [Hstop2|[_ Hstop2]]; [assumption|].
  rewrite Hstop2.
  now destruct (OCPPStatusNotificationRequestExtended.timestamp again).
Qed.

End StatusNotification.

Lemma sample_integrations_keep_stop (pricing : bool) :
  KeepsStop (Sample.integrations pricing).
Proof.
  constructor; cbn; intros ? ? ? ? ? [= <-]; apply same_stopped_session_refl.
Qed.

Lemma sample_transactions_unique (stop : option TransactionStop.t) :
  uniqueTransactionIds (Sample.db [Sample.transaction 42 1200 stop] []).
Proof.
  unfold uniqueTransactionIds. cbn. constructor; [intros []|constructor].
Qed.

(** The session was stopped at 200 s; the connector is reported Available
    at 206 s: six seconds of extra inactivity, computed once. *)
(** The session was stopped at 200 s by the server clock; the station
    stamps its Available notification 194 s: the stored extra inactivity
    is negative, after the check of the last transaction and after the
    handler. *)
Lemma extra_inactivity_computed_once_counterexample :
  let stop := Sample.stopBlock 200000 in
  let last := Sample.transaction 42 1200 (Some stop) in
  let db := Sample.db [last] [] in
  let statusNotification :=
    Sample.statusNotification ChargePointStatus.AVAILABLE (Some 194000) in
  let first :=
    checkLastTransaction (I := Sample.integrations true) Sample.tenant Sample.station
      statusNotification (Sample.connector 0) db in
  let handled :=
    @handleStatusNotification (Sample.integrations true) (fun _ => true)
      (fun _ => None) unit (fun _ => None)
      (fun _ chargingStation _ _ => chargingStation) 3 300000
      (Sample.headers "CS1" None) statusNotification db in
  TransactionStorage.getLastTransactionFromChargingStation "t1" "CS1" 1 db = Some last
  /\ TransactionStop.extraInactivityComputed stop = false
  /\ fst first = Ok tt
  /\ option_map TransactionStop.extraInactivitySecs
       (match TransactionStorage.getLastTransactionFromChargingStation "t1" "CS1" 1
                (snd first) with
        | Some stored => Transaction.stop stored
        | None => None
        end)
     = Some (-6)
  /\ option_map
       (fun out =>
          option_map TransactionStop.extraInactivitySecs (storedStop "t1" 42 (snd out)))
       handled
     = Some (Some (-6))
  /\ ~ 0 <= -6.
Proof.
  vm_compute. repeat split; try reflexivity. intros H. apply H. reflexivity.
Qed.

(** * Further properties of the handlers *)

(** ** BootNotification: what is written *)

Section BootNotificationEffects.

Context {I : Integrations}.
Variable chargingStationConfig : ChargingStationConfiguration.t.

Local Arguments bootChargingStation : simpl never.
Local Arguments stampBootNotification : simpl never.


Lemma handleBootNotification_frame (now : Z) (headers : OCPPHeader.t)
    (bootNotification : OCPPBootNotificationRequestExtended.t) (db : DB.t) :
  let db' :=
    snd (handleBootNotification chargingStationConfig now headers bootNotification db) in
  DB.tenants db' = DB.tenants db
  /\ DB.registrationTokens db' = DB.registrationTokens db
  /\ DB.siteAreas db' = DB.siteAreas db
  /\ DB.transactions db' = DB.transactions db
  /\ DB.consumptions db' = DB.consumptions db
  /\ DB.meterValues db' = DB.meterValues db.
Proof.
  intros db'.
  { subst db'.
    unfold handleBootNotification, handleBootNotification_try, bind, gets, ret, throw,
      modify, NotificationHandler.send.
    destruct (validateBootNotification bootNotification); cbv beta iota;
      [|repeat split].
    destruct (OCPPHeader.chargeBoxIdentity headers) as [chargeBoxIdentity|];
      [|repeat split].
    destruct (negb (JS.truthy_string (Some chargeBoxIdentity))); [repeat split|].
    destruct (TenantStorage.getTenant (OCPPHeader.tenantID headers) db) as [tenant|];
      cbv beta iota; [|repeat split].
    match goal with
    | |- context [bootChargingStation ?n ?h ?t ?c ?b db] =>
        pose proof (bootChargingStation_reads n h t c b db) as Hreads;
        destruct (bootChargingStation n h t c b db) as [[chargingStation|e] db1]
    end; cbn [fst snd] in *; subst db1; [|repeat split].
    destruct (applyTemplateToChargingStation (Tenant.id tenant) chargingStation)
      as [chargingStation1 result].
    destruct (negb (TemplateUpdateResult.chargingStationUpdated result)); cbn;
      repeat split. }
Qed.

(** X2.  A BootNotification writes stations, boot notifications and
    notifications only: tenants, registration tokens, site areas,
    transactions, consumptions and meter values are left as they were.  In
    particular a registration token is not used up: the tokens that admit a
    station before the boot admit it after. *)
Theorem boot_notification_keeps_tokens (now : Z) (headers : OCPPHeader.t)
    (bootNotification : OCPPBootNotificationRequestExtended.t) (db : DB.t) :
  let db' :=
    snd (handleBootNotification chargingStationConfig now headers bootNotification db) in
  DB.tenants db' = DB.tenants db
  /\ DB.registrationTokens db' = DB.registrationTokens db
  /\ DB.siteAreas db' = DB.siteAreas db
  /\ DB.transactions db' = DB.transactions db
  /\ DB.consumptions db' = DB.consumptions db
  /\ DB.meterValues db' = DB.meterValues db
  /\ forall now' headers' tenantID token,
       tokenAdmits now' headers' tenantID db' token
       <-> tokenAdmits now' headers' tenantID db token.
Proof.
  intros db'.
  destruct (handleBootNotification_frame now headers bootNotification db)
    as (Htenants & Htokens & Hareas & Htxs & Hcons & Hmvs).
  fold db' in Htenants, Htokens, Hareas, Htxs, Hcons, Hmvs.
  repeat (split; [assumption|]).
  intros now' headers' tenantID token.
  unfold tokenAdmits, RegistrationTokenStorage.getRegistrationToken.
  rewrite Htokens. reflexivity.
Qed.

Section Again.

Hypothesis keeps : KeepsIdentity I.

Lemma savedAfterBoot_identity (tenantID : string) (chargingStation : ChargingStation.t) :
  sameIdentity chargingStation (savedAfterBoot tenantID chargingStation).
Proof.
  unfold savedAfterBoot.
  destruct (keeps_identity_template I keeps tenantID chargingStation)
    as (H1 & H2 & H3 & H4).
  destruct (keeps_identity_limit I keeps
              (fst (applyTemplateToChargingStation tenantID chargingStation)))
    as (H5 & H6 & H7 & H8).
  destruct (keeps_identity_phases I keeps tenantID
              (checkAndSetChargingStationAmperageLimit
                 (fst (applyTemplateToChargingStation tenantID chargingStation))))
    as (H9 & H10 & H11 & H12).
  repeat split; congruence.
Qed.

(** X3.  Registration lasts.  Once a station unknown to the tenant has
    been accepted with a token and saved (the template reporting no
    update), the same notification under the same station id is accepted
    again at any later time, whatever the token header then holds, also
    none. *)
Theorem boot_notification_again_without_token (now : Z) (headers : OCPPHeader.t)
    (bootNotification : OCPPBootNotificationRequestExtended.t) (db : DB.t)
    (tenant : Tenant.t) (chargeBoxIdentity : string) :
  validateBootNotification bootNotification = true ->
  OCPPHeader.chargeBoxIdentity headers = Some chargeBoxIdentity ->
  chargeBoxIdentity <> "" ->
  TenantStorage.getTenant (OCPPHeader.tenantID headers) db = Some tenant ->
  ChargingStationStorage.getChargingStation (Tenant.id tenant) chargeBoxIdentity db
  = None ->
  (forall chargingStation,
     TemplateUpdateResult.chargingStationUpdated
       (snd (applyTemplateToChargingStation (Tenant.id tenant) chargingStation))
     = false) ->
  let first := handleBootNotification chargingStationConfig now headers bootNotification db in
  OCPPBootNotificationResponse.status (fst first) = RegistrationStatus.ACCEPTED ->
  forall (later : Z) (headers' : OCPPHeader.t),
    OCPPHeader.tenantID headers' = OCPPHeader.tenantID headers ->
    OCPPHeader.chargeBoxIdentity headers' = Some chargeBoxIdentity ->
    OCPPBootNotificationResponse.status
      (fst (handleBootNotification chargingStationConfig later headers' bootNotification
              (snd first)))
    = RegistrationStatus.ACCEPTED.
Proof.
  intros Hval Hcb Hne Htenant Hnew Htemplate first Haccepted later headers' Htid' Hcb'.
  pose proof (handleBootNotification_outcome chargingStationConfig now headers
                bootNotification db tenant chargeBoxIdentity Hval Hcb Hne Htenant)
    as Hfirst.
  cbv zeta in Hfirst. fold first in Hfirst.
  destruct (bootChargingStation now headers tenant chargeBoxIdentity _ db)
    as [[booted|e] db1] eqn:Hboot; cbn [fst] in Hfirst.
  2:{ rewrite Hfirst in Haccepted. discriminate. }
  destruct Hfirst as [_ Hsaved]. specialize (Hsaved (Htemplate booted)).
  (* the station the first boot has saved *)
  assert (Hbooted : ChargingStation.id booted = chargeBoxIdentity
                    /\ ~ attributesDiffer booted bootNotification).
  { revert Hboot. unfold bootChargingStation, bind, gets, ret. cbv beta iota.
    rewrite Hnew.
    destruct (registerChargingStation_cases now headers tenant chargeBoxIdentity
                (stampedBootNotification now headers chargeBoxIdentity bootNotification)
                db)
      as [[_ [e He]]|(token & created & _ & Hok & Hid & _ & _ & Hvendor & Hmodel
                      & Hserial & _)].
    - destruct (registerChargingStation _ _ _ _ _ db) as [[c|e'] db2];
        cbn in He; [discriminate|]. discriminate.
    - destruct (registerChargingStation _ _ _ _ _ db) as [[c|e'] db2];
        cbn in Hok; [|discriminate]. injection Hok as ->.
      intros [= <- _].
      destruct (stampChargingStation_frame headers
                  (stampedBootNotification now headers chargeBoxIdentity bootNotification)
                  created) as (Hid' & Hvendor' & Hmodel' & Hserial' & _).
      cbv zeta in *.
      unfold stampedBootNotification in *.
      destruct (stamped_attributes now headers chargeBoxIdentity bootNotification
                  (OCPPHeader.From headers)) as (Hv & Hm & Hs & _).
      cbv zeta in *.
      split; [congruence|].
      unfold attributesDiffer.
      rewrite Hvendor', Hmodel', Hserial', Hvendor, Hmodel, Hserial, Hv, Hm, Hs.
      intros [H|[H|(stored & reported & H1 & H2 & _ & _ & H3)]]; congruence. }
  destruct Hbooted as [Hid Hsame].
  destruct (savedAfterBoot_identity (Tenant.id tenant) booted)
    as (Hsid & Hsvendor & Hsmodel & Hsserial).
  rewrite Hsid, Hid in Hsaved.
  (* the second boot finds it *)
  destruct (handleBootNotification_frame now headers bootNotification db)
    as (Htenants & _).
  fold first in Htenants.
  assert (Htenant' : TenantStorage.getTenant (OCPPHeader.tenantID headers') (snd first)
                     = Some tenant).
  { unfold TenantStorage.getTenant in *. now rewrite Htenants, Htid'. }
  pose proof (handleBootNotification_outcome chargingStationConfig later headers'
                bootNotification (snd first) tenant chargeBoxIdentity Hval Hcb' Hne
                Htenant') as Hsecond.
  cbv zeta in Hsecond.
  assert (Hreboot : exists rebooted,
            fst (bootChargingStation later headers' tenant chargeBoxIdentity
                   (stampedBootNotification later headers' chargeBoxIdentity
                      bootNotification) (snd first)) = Ok rebooted).
  { unfold bootChargingStation, bind, gets, ret. cbv beta iota.
    rewrite Hsaved. unfold rebootChargingStation.
    rewrite attributeMismatch_stamped.
    destruct (attributeMismatch _ bootNotification) eqn:Hmismatch.
    - exfalso. apply attributeMismatch_differ in Hmismatch. apply Hsame.
      unfold attributesDiffer in *. now rewrite Hsvendor, Hsmodel, Hsserial in Hmismatch.
    - cbn. eauto. }
  destruct Hreboot as [rebooted Hreboot]. rewrite Hreboot in Hsecond.
  destruct Hsecond as [-> _]. reflexivity.
Qed.

End Again.

End BootNotificationEffects.

Lemma sample_integrations_keep_identity (pricing : bool) :
  KeepsIdentity (Sample.integrations pricing).
Proof. constructor; cbn; intros; repeat split. Qed.

(** A station registers at 3000 with a token that expires at 5000, and
    boots again at 9000 with no token at all. *)
Lemma boot_notification_again_without_token_witness :
  OCPPBootNotificationResponse.status
    (fst (@handleBootNotification (Sample.integrations true) Sample.config 9000
            (Sample.headers "CS2" None) (Sample.bootNotification (Some "Y"))
            (snd (@handleBootNotification (Sample.integrations true) Sample.config 3000
                    (Sample.headers "CS2" (Some "tok"))
                    (Sample.bootNotification (Some "Y"))
                    (Sample.db [] [Sample.token None])))))
  = RegistrationStatus.ACCEPTED.
Proof.
  refine (@boot_notification_again_without_token (Sample.integrations true)
            Sample.config (sample_integrations_keep_identity true) 3000
            (Sample.headers "CS2" (Some "tok")) (Sample.bootNotification (Some "Y"))
            (Sample.db [] [Sample.token None]) Sample.tenant "CS2"
            _ _ _ _ _ _ _ 9000 (Sample.headers "CS2" None) _ _).
  - reflexivity.
  - reflexivity.
  - discriminate.
  - reflexivity.
  - reflexivity.
  - intros chargingStation. reflexivity.
  - vm_compute. reflexivity.
  - reflexivity.
  - reflexivity.
Defined.

(** ** StopTransaction: rejections and what is written *)

Section StopTransactionEffects.

Context {I : Integrations}.

(** X4.  A StopTransaction that names a transaction the tenant does not
    have (and not the id 0) is answered [Invalid], and nothing is written:
    no connector is freed, no station is saved. *)
Theorem stop_transaction_unknown_transaction (now : Z) (headers : OCPPHeader.t)
    (stopTransaction : OCPPStopTransactionRequestExtended.t)
    (isSoftStop stoppedByCentralSystem : bool) (db : DB.t) :
  OCPPStopTransactionRequestExtended.transactionId stopTransaction <> 0 ->
  TransactionStorage.getTransaction (OCPPHeader.tenantID headers)
    (OCPPStopTransactionRequestExtended.transactionId stopTransaction) db = None ->
  handleStopTransaction now headers stopTransaction isSoftStop
    stoppedByCentralSystem db = (stopInvalid, db).
Proof.
  intros Hid Htx.
  unfold handleStopTransaction, handleStopTransaction_try, bind.
  destruct (OCPPUtils.checkAndGetTenantAndChargingStation headers db)
    as [[[cs tenant]|e] db0] eqn:Hres.
  - apply resolve_ok in Hres as (-> & Htenant & _). simpl.
    destruct (validateStopTransaction cs stopTransaction); simpl; [|reflexivity].
    apply Z.eqb_neq in Hid. rewrite Hid. unfold gets. simpl.
    rewrite Htenant, Htx. reflexivity.
  - pose proof (resolve_reads headers db) as Hdb. rewrite Hres in Hdb. simpl in Hdb.
    now subst db0.
Qed.

(** X5.  A StopTransaction from the station itself whose tag is refused by
    the authorization is answered [Invalid], and nothing is written: the
    transaction stays open and the connector stays taken. *)
Theorem stop_transaction_not_authorized (now : Z) (headers : OCPPHeader.t)
    (stopTransaction : OCPPStopTransactionRequestExtended.t)
    (isSoftStop : bool) (db : DB.t)
    (chargingStation : ChargingStation.t) (tenant : Tenant.t)
    (transaction : Transaction.t) (refusal : Failure) :
  OCPPUtils.checkAndGetTenantAndChargingStation headers db
  = (Ok (chargingStation, tenant), db) ->
  OCPPStopTransactionRequestExtended.transactionId stopTransaction <> 0 ->
  TransactionStorage.getTransaction (Tenant.id tenant)
    (OCPPStopTransactionRequestExtended.transactionId stopTransaction) db
  = Some transaction ->
  isAuthorizedToStopTransaction (Tenant.id tenant) chargingStation transaction
    (getStopTransactionTagId now stopTransaction transaction) = Throw refusal ->
  handleStopTransaction now headers stopTransaction isSoftStop false db
  = (stopInvalid, db).
Proof.
  intros Hres Hid Htx Hauth.
  unfold handleStopTransaction, handleStopTransaction_try, bind.
  rewrite Hres. cbn.
  destruct (validateStopTransaction chargingStation stopTransaction); cbn;
    [|reflexivity].
  apply Z.eqb_neq in Hid. rewrite Hid. unfold gets. cbn. rewrite Htx.
  rewrite getStopTransactionTagId_chargeBoxID. unfold lift. rewrite Hauth.
  reflexivity.
Qed.

Lemma stopWithConsumptions_writes (tenantID : string)
    (chargingStation : ChargingStation.t)
    (stopTransaction : OCPPStopTransactionRequestExtended.t)
    (stopMeterValues : list OCPPNormalizedMeterValue.t)
    (user alternateUser : option User.t) (tagId : string)
    (consumptions : list Consumption.t) :
  forall (transaction : Transaction.t) (db : DB.t),
    exists saved,
      snd (stopWithConsumptions tenantID chargingStation stopTransaction
             stopMeterValues user alternateUser tagId transaction consumptions db)
      = db <| DB.consumptions := (DB.consumptions db ++ saved)%list |>.
Proof.
  induction consumptions as [|consumption consumptions IH]; intros transaction db; simpl.
  - exists []. destruct db. cbn. now rewrite app_nil_r.
  - unfold bind, lift, ret, modify.
    assert (Hnone : exists saved : list (string * Consumption.t),
              db = db <| DB.consumptions := (DB.consumptions db ++ saved)%list |>)
      by (exists []; destruct db; cbn; now rewrite app_nil_r).
    assert (Hstep : forall transaction1 consumption1,
              exists saved,
                snd (stopWithConsumptions tenantID chargingStation stopTransaction
                       stopMeterValues user alternateUser tagId transaction1
                       consumptions
                       (ConsumptionStorage.saveConsumption tenantID consumption1 db))
                = db <| DB.consumptions := (DB.consumptions db ++ saved)%list |>).
    { intros transaction1 consumption1.
      destruct (IH transaction1
                  (ConsumptionStorage.saveConsumption tenantID consumption1 db))
        as [saved Hsaved].
      exists ((tenantID, consumption1) :: saved). rewrite Hsaved.
      destruct db. cbn. now rewrite <- app_assoc. }
    destruct (Consumption.toPrice consumption).
    + destruct (priceTransaction _ _ _ _) as [[transaction1 consumption1]|e];
        [|exact Hnone].
      destruct (billTransaction _ _ _) as [transaction2|e]; [|exact Hnone].
      apply Hstep.
    + apply Hstep.
Qed.

Lemma notifyStopTransaction_writes (tenant : Tenant.t) (transaction : Transaction.t)
    (user alternateUser : option User.t) (db : DB.t) :
  let out := notifyStopTransaction tenant transaction user alternateUser db in
  exists sent,
    snd out = db <| DB.notifications := (DB.notifications db ++ sent)%list |>
    /\ endOfSessionNotifications (Tenant.id tenant) sent
    /\ (user = None -> sent = [])
    /\ (forall e, fst out = Throw e -> sent = []).
Proof.
  unfold notifyStopTransaction, NotificationHandler.send, bind, modify, ret, throw,
    endOfSessionNotifications.
  assert (Hnone : db = db <| DB.notifications := (DB.notifications db ++ [])%list |>)
    by (destruct db; cbn; now rewrite app_nil_r).
  destruct user as [u|]; [|exists []; cbn; auto].
  destruct (Transaction.stop transaction) as [stop|]; [|exists []; cbn; auto].
  cbn. destruct (negb _); cbn.
  - exists [(Tenant.id tenant, Notification.EndOfSession (Transaction.id transaction));
            (Tenant.id tenant,
             Notification.EndOfSignedSession (Transaction.id transaction))].
    split; [destruct db; cbn; rewrite <- app_assoc; reflexivity|].
    split; [right; eauto|]. split; discriminate.
  - exists [(Tenant.id tenant, Notification.EndOfSession (Transaction.id transaction))].
    split; [reflexivity|]. split; [right; eauto|]. split; discriminate.
Qed.

(** The collections a StopTransaction may write, and how. *)
Lemma handleStopTransaction_writes (now : Z) (headers : OCPPHeader.t)
    (stopTransaction : OCPPStopTransactionRequestExtended.t)
    (isSoftStop stoppedByCentralSystem : bool) (db : DB.t) :
  let out := handleStopTransaction now headers stopTransaction isSoftStop
               stoppedByCentralSystem db in
  exists saved sent,
    DB.tenants (snd out) = DB.tenants db
    /\ DB.registrationTokens (snd out) = DB.registrationTokens db
    /\ DB.siteAreas (snd out) = DB.siteAreas db
    /\ DB.meterValues (snd out) = DB.meterValues db
    /\ DB.bootNotifications (snd out) = DB.bootNotifications db
    /\ DB.consumptions (snd out) = (DB.consumptions db ++ saved)%list
    /\ DB.notifications (snd out) = (DB.notifications db ++ sent)%list
    /\ endOfSessionNotifications (OCPPHeader.tenantID headers) sent
    /\ (fst out = stopInvalid -> sent = []).
Proof.
  intros out. subst out.
  unfold handleStopTransaction, handleStopTransaction_try, bind.
  destruct (OCPPUtils.checkAndGetTenantAndChargingStation headers db)
    as [[[cs tenant]|e] db0] eqn:Hres.
  2:{ pose proof (resolve_reads headers db) as Hdb. rewrite Hres in Hdb.
      cbn in Hdb. subst db0. exists [], []; cbn; rewrite ?app_nil_r; repeat split; try reflexivity; now left. }
  apply resolve_ok in Hres as (-> & Htenant & _). cbn.
  destruct (validateStopTransaction cs stopTransaction); cbn; [|exists [], []; cbn; rewrite ?app_nil_r; repeat split; try reflexivity; now left].
  destruct (OCPPStopTransactionRequestExtended.transactionId stopTransaction =? 0);
    [exists [], []; cbn; rewrite ?app_nil_r; repeat split; try reflexivity; now left|].
  unfold gets. cbn.
  destruct (TransactionStorage.getTransaction _ _ db) as [transaction|];
    [|exists [], []; cbn; rewrite ?app_nil_r; repeat split; try reflexivity; now left].
  rewrite getStopTransactionTagId_chargeBoxID.
  assert (Husers : exists r,
            (if negb stoppedByCentralSystem
             then lift (isAuthorizedToStopTransaction (Tenant.id tenant) cs transaction
                          (getStopTransactionTagId now stopTransaction transaction))
             else ret (getUserByTagId (Tenant.id tenant)
                         (getStopTransactionTagId now stopTransaction transaction),
                       None)) db = (r, db))
    by (destruct stoppedByCentralSystem; cbn; eexists; reflexivity).
  destruct Husers as [[[user alternateUser]|e] Husers]; rewrite Husers;
    [|exists [], []; cbn; rewrite ?app_nil_r; repeat split; try reflexivity; now left].
  destruct (JS.truthy (Transaction.stop transaction)); [exists [], []; cbn; rewrite ?app_nil_r; repeat split; try reflexivity; now left|].
  unfold modify, lift. cbv beta iota.
  destruct (createConsumptionsFromMeterValues _ _ _ _)
    as [[transaction1 consumptions]|e]; cbv beta iota; [|exists [], []; cbn; rewrite ?app_nil_r; repeat split; try reflexivity; now left].
  match goal with
  | |- context [stopWithConsumptions ?t ?c ?s ?m ?u ?a ?g ?x ?l ?d] =>
      destruct (stopWithConsumptions_writes t c s m u a g l x d) as [saved Hwritten];
      destruct (stopWithConsumptions t c s m u a g x l d) as [[transaction2|e] db2]
  end; cbn [snd] in Hwritten; subst db2; cbv beta iota; [|exists saved, []; cbn; rewrite ?app_nil_r; repeat split; try reflexivity; now left].
  match goal with
  | |- context [notifyStopTransaction ?t ?x ?u ?a ?d] =>
      destruct (notifyStopTransaction_writes t x u a d)
        as (sent & Hsent & Hshape & _ & Hthrown);
      destruct (notifyStopTransaction t x u a d) as [[[]|e] db3]
  end; cbn [fst snd] in Hsent, Hthrown; subst db3; rewrite Htenant in Hshape.
  - exists saved, sent. cbn. repeat split; try reflexivity; try assumption.
    discriminate.
  - exists saved, sent. cbn. repeat split; try reflexivity; try assumption.
    intros _. exact (Hthrown e eq_refl).
Qed.

(** X6.  A StopTransaction hands over at most the end-of-session
    notification of the tenant, followed at most by the end of the signed
    session; when the answer is [Invalid], it has handed over nothing. *)
Theorem stop_transaction_notifies_once (now : Z) (headers : OCPPHeader.t)
    (stopTransaction : OCPPStopTransactionRequestExtended.t)
    (isSoftStop stoppedByCentralSystem : bool) (db : DB.t) :
  let out := handleStopTransaction now headers stopTransaction isSoftStop
               stoppedByCentralSystem db in
  exists sent,
    DB.notifications (snd out) = (DB.notifications db ++ sent)%list
    /\ endOfSessionNotifications (OCPPHeader.tenantID headers) sent
    /\ (fst out = stopInvalid -> sent = []).
Proof.
  intros out.
  destruct (handleStopTransaction_writes now headers stopTransaction isSoftStop
              stoppedByCentralSystem db)
    as (saved & sent & _ & _ & _ & _ & _ & _ & Hsent & Hshape & Hinvalid).
  exists sent. auto.
Qed.

(** X7.  A StopTransaction leaves the tenants, the registration tokens,
    the site areas, the meter values and the boot notifications of the
    store as they were, and it only appends to the consumptions: what was
    stored before is still there, in place. *)
Theorem stop_transaction_appends_consumptions (now : Z) (headers : OCPPHeader.t)
    (stopTransaction : OCPPStopTransactionRequestExtended.t)
    (isSoftStop stoppedByCentralSystem : bool) (db : DB.t) :
  let db' := snd (handleStopTransaction now headers stopTransaction isSoftStop
                    stoppedByCentralSystem db) in
  DB.tenants db' = DB.tenants db
  /\ DB.registrationTokens db' = DB.registrationTokens db
  /\ DB.siteAreas db' = DB.siteAreas db
  /\ DB.meterValues db' = DB.meterValues db
  /\ DB.bootNotifications db' = DB.bootNotifications db
  /\ exists saved, DB.consumptions db' = (DB.consumptions db ++ saved)%list.
Proof.
  intros db'.
  destruct (handleStopTransaction_writes now headers stopTransaction isSoftStop
              stoppedByCentralSystem db)
    as (saved & sent & H1 & H2 & H3 & H4 & H5 & H6 & _).
  repeat (split; [assumption|]). exists saved. assumption.
Qed.

End StopTransactionEffects.

Lemma stop_transaction_unknown_transaction_witness :
  @handleStopTransaction (Sample.integrations true) 300000 (Sample.headers "CS1" None)
    (Sample.stopTransaction 42) false false (Sample.db [] [])
  = (stopInvalid, Sample.db [] []).
Proof.
  refine (@stop_transaction_unknown_transaction (Sample.integrations true) 300000
            (Sample.headers "CS1" None) (Sample.stopTransaction 42) false false
            (Sample.db [] []) _ _).
  - discriminate.
  - reflexivity.
Defined.

Lemma stop_transaction_not_authorized_witness :
  @handleStopTransaction Examples.refusing 300000 (Sample.headers "CS1" None)
    (Sample.stopTransaction 42) false false
    (Sample.db [Sample.transaction 42 1200 None] [])
  = (stopInvalid, Sample.db [Sample.transaction 42 1200 None] []).
Proof.
  refine (@stop_transaction_not_authorized Examples.refusing 300000
            (Sample.headers "CS1" None) (Sample.stopTransaction 42) false
            (Sample.db [Sample.transaction 42 1200 None] [])
            Sample.station Sample.tenant (Sample.transaction 42 1200 None)
            NotAuthorized _ _ _ _).
  - reflexivity.
  - discriminate.
  - reflexivity.
  - reflexivity.
Defined.

(** ** MeterValues: what the values of a call do to the transaction *)

Section MeterValuesEffects.

Context {I : Integrations}.

Lemma updateTransactionWithMeterValue_booking (chargingStation : ChargingStation.t)
    (transaction : Transaction.t) (meterValue : OCPPNormalizedMeterValue.t) :
  booking (updateTransactionWithMeterValue chargingStation transaction meterValue)
  = booking transaction.
Proof.
  unfold updateTransactionWithMeterValue.
  transitivity (booking (flagTransactionEnd transaction meterValue)).
  - generalize (flagTransactionEnd transaction meterValue) as flagged. intros flagged.
    unfold recordMeterValue, OCPPUtils.updateSignedData, setVoltage, setPower,
      setCurrent.
    destruct meterValue
      as [cb cid tid ts [context format measurand location unit phase] v].
    cbn [OCPPNormalizedMeterValue.attribute OCPPNormalizedMeterValue.value
         OCPPAttribute.context OCPPAttribute.format OCPPAttribute.measurand
         OCPPAttribute.unit OCPPAttribute.phase].
    destruct format, v, context, measurand; cbv beta iota zeta;
      repeat match goal with
             | |- context [match ?x with _ => _ end] => destruct x
             end; reflexivity.
  - unfold flagTransactionEnd.
    destruct (OCPPReadingContext.eqb _ _); [|reflexivity].
    destruct (negb _); reflexivity.
Qed.

(** X8.  The meter values of a call change the instant values, the state
    of charge, the signed data, the end flag and the number of meter
    values of a transaction, and nothing else: its id, station, connector,
    tag and user, its start, its energy and inactivity totals, its last
    consumption, its roaming data and its stop block are the same after
    any list of values. *)
Theorem meter_values_keep_the_booking (chargingStation : ChargingStation.t)
    (meterValues : list OCPPNormalizedMeterValue.t) (transaction : Transaction.t) :
  booking (updateTransactionWithMeterValues chargingStation transaction meterValues)
  = booking transaction.
Proof.
  unfold updateTransactionWithMeterValues. revert transaction.
  induction meterValues as [|meterValue meterValues IH]; intros transaction; simpl.
  - reflexivity.
  - rewrite IH. apply updateTransactionWithMeterValue_booking.
Qed.

Lemma updateTransactionWithMeterValue_end (chargingStation : ChargingStation.t)
    (transaction : Transaction.t) (meterValue : OCPPNormalizedMeterValue.t) :
  Transaction.transactionEndReceived
    (updateTransactionWithMeterValue chargingStation transaction meterValue)
  = Transaction.transactionEndReceived transaction || isTransactionEnd meterValue.
Proof.
  unfold updateTransactionWithMeterValue. rewrite recordMeterValue_flag.
  unfold flagTransactionEnd, isTransactionEnd.
  destruct (OCPPReadingContext.eqb _ _);
    destruct (Transaction.transactionEndReceived transaction) eqn:Hflag; cbn;
    try rewrite Hflag; reflexivity.
Qed.

(** X9.  The end flag of a transaction is set by the values with context
    [Transaction.End] and by nothing else, and it is never reset: after a
    list of values it is set exactly when it was set before or the list
    holds such a value. *)
Theorem transaction_end_flag_is_monotone (chargingStation : ChargingStation.t)
    (meterValues : list OCPPNormalizedMeterValue.t) (transaction : Transaction.t) :
  Transaction.transactionEndReceived
    (updateTransactionWithMeterValues chargingStation transaction meterValues)
  = Transaction.transactionEndReceived transaction
    || existsb isTransactionEnd meterValues.
Proof.
  unfold updateTransactionWithMeterValues. revert transaction.
  induction meterValues as [|meterValue meterValues IH]; intros transaction; simpl.
  - now rewrite orb_false_r.
  - rewrite IH, updateTransactionWithMeterValue_end. now rewrite orb_assoc.
Qed.

Lemma updateTransactionWithMeterValue_count (chargingStation : ChargingStation.t)
    (transaction : Transaction.t) (meterValue : OCPPNormalizedMeterValue.t) :
  Transaction.numberOfMeterValues transaction
  <= Transaction.numberOfMeterValues
       (updateTransactionWithMeterValue chargingStation transaction meterValue)
  <= Transaction.numberOfMeterValues transaction + 1.
Proof.
  assert (stays : forall n, n <= n <= n + 1) by (intros; lia).
  assert (grows : forall n, n <= n + 1 <= n + 1) by (intros; lia).
  unfold updateTransactionWithMeterValue.
  replace (Transaction.numberOfMeterValues transaction)
    with (Transaction.numberOfMeterValues (flagTransactionEnd transaction meterValue)).
  - generalize (flagTransactionEnd transaction meterValue) as flagged. intros flagged.
    unfold recordMeterValue, OCPPUtils.updateSignedData, setVoltage, setPower,
      setCurrent.
    destruct meterValue
      as [cb cid tid ts [context format measurand location unit phase] v].
    cbn [OCPPNormalizedMeterValue.attribute OCPPNormalizedMeterValue.value
         OCPPAttribute.context OCPPAttribute.format OCPPAttribute.measurand
         OCPPAttribute.unit OCPPAttribute.phase].
    destruct format, v, context, measurand; cbv beta iota zeta;
      repeat match goal with
             | |- context [match ?x with _ => _ end] => destruct x
             end;
      first [apply stays | apply grows].
  - unfold flagTransactionEnd.
    destruct (OCPPReadingContext.eqb _ _); [|reflexivity].
    destruct (negb _); reflexivity.
Qed.

(** X10.  The number of meter values of a transaction never decreases, and
    a call raises it by at most the number of values it brings. *)
Theorem number_of_meter_values_bounds (chargingStation : ChargingStation.t)
    (meterValues : list OCPPNormalizedMeterValue.t) (transaction : Transaction.t) :
  Transaction.numberOfMeterValues transaction
  <= Transaction.numberOfMeterValues
       (updateTransactionWithMeterValues chargingStation transaction meterValues)
  <= Transaction.numberOfMeterValues transaction
     + Z.of_nat (List.length meterValues).
Proof.
  unfold updateTransactionWithMeterValues. revert transaction.
  induction meterValues as [|meterValue meterValues IH]; intros transaction.
  - simpl. lia.
  - cbn [fold_left List.length].
    pose proof (IH (updateTransactionWithMeterValue chargingStation transaction
                      meterValue)) as H.
    pose proof (updateTransactionWithMeterValue_count chargingStation transaction
                  meterValue) as H1.
    lia.
Qed.

Lemma updateTransactionWithMeterValue_sampled (chargingStation : ChargingStation.t)
    (transaction : Transaction.t) (meterValue : OCPPNormalizedMeterValue.t) :
  sampledInSession meterValue ->
  updateTransactionWithMeterValue chargingStation transaction meterValue
  = if isEnergyActiveImportMeterValue meterValue
    then transaction <| Transaction.numberOfMeterValues :=
           Transaction.numberOfMeterValues transaction + 1 |>
    else transaction.
Proof.
  unfold sampledInSession, updateTransactionWithMeterValue, flagTransactionEnd,
    recordMeterValue, OCPPUtils.updateSignedData.
  destruct (isEnergyActiveImportMeterValue meterValue).
  all: destruct meterValue
         as [cb cid tid ts [context format measurand location unit phase] v].
  all: cbn [OCPPNormalizedMeterValue.attribute OCPPNormalizedMeterValue.value
            OCPPAttribute.context OCPPAttribute.format OCPPAttribute.measurand
            OCPPAttribute.unit OCPPAttribute.phase].
  all: intros [Hbegin Hend].
  all: destruct format, v, context, measurand; try congruence; reflexivity.
Qed.

(** X11.  Values sampled during the session (context neither
    [Transaction.Begin] nor [Transaction.End]) only count: whatever their
    measurand, format and value, the transaction afterwards is the
    transaction before with [numberOfMeterValues] raised by the number of
    energy readings among them. *)
Theorem sampled_values_only_count (chargingStation : ChargingStation.t)
    (meterValues : list OCPPNormalizedMeterValue.t) (transaction : Transaction.t) :
  (forall meterValue, In meterValue meterValues -> sampledInSession meterValue) ->
  updateTransactionWithMeterValues chargingStation transaction meterValues
  = transaction <| Transaction.numberOfMeterValues :=
      Transaction.numberOfMeterValues transaction
      + Z.of_nat (List.length
                    (List.filter isEnergyActiveImportMeterValue meterValues)) |>.
Proof.
  unfold updateTransactionWithMeterValues. revert transaction.
  induction meterValues as [|meterValue meterValues IH]; intros transaction Hsampled.
  - cbn [fold_left List.filter List.length Z.of_nat]. rewrite Z.add_0_r.
    destruct transaction; reflexivity.
  - cbn [fold_left List.filter].
    rewrite IH by (intros m Hm; apply Hsampled; now right).
    rewrite updateTransactionWithMeterValue_sampled by (apply Hsampled; now left).
    destruct (isEnergyActiveImportMeterValue meterValue).
    + cbn [List.length]. rewrite Nat2Z.inj_succ.
      replace (Transaction.numberOfMeterValues transaction
               + Z.succ (Z.of_nat (List.length
                                     (List.filter isEnergyActiveImportMeterValue
                                        meterValues))))
        with (Transaction.numberOfMeterValues transaction + 1
              + Z.of_nat (List.length
                            (List.filter isEnergyActiveImportMeterValue meterValues)))
        by lia.
      destruct transaction; reflexivity.
    + reflexivity.
Qed.

End MeterValuesEffects.

(** A periodic energy reading, a periodic power reading and a clock-aligned
    energy reading: two energy readings are counted, nothing else moves. *)
Lemma sampled_values_only_count_witness :
  @updateTransactionWithMeterValues (Sample.integrations true) Sample.station
    (Sample.transaction 42 1200 None)
    [Sample.meterValue OCPPReadingContext.SAMPLE_PERIODIC
       OCPPMeasurand.ENERGY_ACTIVE_IMPORT_REGISTER 1300;
     Sample.meterValue OCPPReadingContext.SAMPLE_PERIODIC
       OCPPMeasurand.POWER_ACTIVE_IMPORT 7100;
     Sample.meterValue OCPPReadingContext.SAMPLE_CLOCK
       OCPPMeasurand.ENERGY_ACTIVE_IMPORT_REGISTER 1310]
  = (Sample.transaction 42 1200 None) <| Transaction.numberOfMeterValues := 5 |>.
Proof.
  rewrite (@sampled_values_only_count (Sample.integrations true)).
  - reflexivity.
  - intros meterValue [<-|[<-|[<-|[]]]]; split; discriminate.
Defined.

(** ** Cleanup: transactions without consumption *)

Section CleanupDeletes.

Context {I : Integrations}.

(** With unique keys, deleting the document of a key takes exactly that
    document out of the list. *)
Lemma delete_first_unique {A B : Type} (key : A -> B) (same : A -> bool) (d : A)
    (l : list A) :
  NoDup (map key l) -> In d l -> same d = true ->
  (forall y, same y = true -> key y = key d) ->
  exists pre post, l = (pre ++ d :: post)%list /\ delete_first same l = (pre ++ post)%list.
Proof.
  intros Hnodup Hin Hsame Hkey.
  induction l as [|y l IH]; [contradiction|].
  cbn [delete_first]. destruct (same y) eqn:Hy.
  - assert (y = d) as ->.
    { apply (NoDup_map_injective key (y :: l) Hnodup); [now left | assumption |].
      now apply Hkey. }
    exists [], l. now split.
  - destruct Hin as [->|Hin]; [congruence|].
    inversion Hnodup as [|? ? _ Hrest]; subst.
    destruct (IH Hrest Hin) as (pre & post & -> & Hdeleted).
    exists (y :: pre), post. cbn. now rewrite Hdeleted.
Qed.

Lemma filter_all {A : Type} (q : A -> bool) (l : list A) :
  (forall x, In x l -> q x = true) -> List.filter q l = l.
Proof.
  induction l as [|x l IH]; intros H; cbn; [reflexivity|].
  rewrite (H x (or_introl eq_refl)), IH; [reflexivity|].
  intros y Hy. apply H. now right.
Qed.

Lemma stopOrDeleteActiveTransactions_loop_deletes (now : Z) (tenant : Tenant.t)
    (chargeBoxID : string) (connectorId : Z) (fuel : nat) :
  forall (db : DB.t) (lastCheckedTransactionID : option Z),
    uniqueTransactionIds db ->
    (forall d,
       In d (DB.transactions db) ->
       in_tenant (Tenant.id tenant)
         (TransactionStorage.is_active_on chargeBoxID connectorId) d = true ->
       Transaction.currentTotalConsumptionWh (snd d) <= 0) ->
    (forall id,
       lastCheckedTransactionID = Some id ->
       ~ In (Tenant.id tenant, id) (map transactionKey (DB.transactions db))) ->
    (activeTransactions (Tenant.id tenant) chargeBoxID connectorId db < fuel)%nat ->
    stopOrDeleteActiveTransactions_loop fuel now tenant chargeBoxID connectorId
      lastCheckedTransactionID db
    = Some (db <| DB.transactions :=
              List.filter
                (fun d =>
                   negb (in_tenant (Tenant.id tenant)
                           (TransactionStorage.is_active_on chargeBoxID connectorId) d))
                (DB.transactions db) |>).
Proof.
  set (sel := in_tenant (Tenant.id tenant)
                (TransactionStorage.is_active_on chargeBoxID connectorId)).
  induction fuel as [|fuel IH]; intros db last Hunique Hpending Hlast Hfuel; [lia|].
  cbn [stopOrDeleteActiveTransactions_loop].
  unfold TransactionStorage.getActiveTransaction, find_in_tenant. fold sel.
  unfold activeTransactions, count in Hfuel. fold sel in Hfuel.
  destruct (find sel (DB.transactions db)) as [[t active]|] eqn:Hfind; cbn [option_map snd].
  - (* an active transaction: it has no consumption, it is deleted *)
    destruct (find_some _ _ Hfind) as [Hin Hsel].
    assert (Ht : t = Tenant.id tenant).
    { unfold sel, in_tenant in Hsel. cbn in Hsel.
      apply andb_true_iff in Hsel as [Ht _]. now apply String.eqb_eq in Ht. }
    subst t.
    assert (Hfresh : match last with
                     | Some id => id =? Transaction.id active
                     | None => false
                     end = false).
    { destruct last as [id|]; [|reflexivity].
      destruct (id =? Transaction.id active) eqn:Heq; [|reflexivity].
      exfalso. apply Z.eqb_eq in Heq. subst id. apply (Hlast _ eq_refl).
      change (Tenant.id tenant, Transaction.id active)
        with (transactionKey (Tenant.id tenant, active)).
      now apply in_map. }
    rewrite Hfresh. unfold stopOrDelete.
    pose proof (Hpending _ Hin Hsel) as Hwh. cbn [snd] in Hwh.
    apply Z.leb_le in Hwh. rewrite Hwh.
    unfold TransactionStorage.deleteTransaction.
    destruct (delete_first_unique transactionKey
                (in_tenant (Tenant.id tenant)
                   (TransactionStorage.has_id (Transaction.id active)))
                (Tenant.id tenant, active) (DB.transactions db) Hunique Hin)
      as (pre & post & Hsplit & Hdeleted).
    { unfold in_tenant, TransactionStorage.has_id. cbn.
      now rewrite String.eqb_refl, Z.eqb_refl. }
    { intros [t x]. unfold in_tenant, TransactionStorage.has_id, transactionKey. cbn.
      intros H. apply andb_true_iff in H as [Ht Hx].
      apply String.eqb_eq in Ht. apply Z.eqb_eq in Hx. congruence. }
    rewrite Hdeleted.
    unfold uniqueTransactionIds in Hunique. rewrite Hsplit, map_app in Hunique.
    cbn [map] in Hunique.
    rewrite IH.
    + (* the store: the filter skips the deleted transaction *)
      assert (Hfilter :
                List.filter (fun d => negb (sel d)) (pre ++ post)
                = List.filter (fun d => negb (sel d)) (DB.transactions db)).
      { rewrite Hsplit, !filter_app. cbn [List.filter]. now rewrite Hsel. }
      cbn. fold sel. rewrite Hfilter. destruct db; reflexivity.
    + unfold uniqueTransactionIds. cbn. rewrite map_app.
      exact (NoDup_remove_1 _ _ _ Hunique).
    + cbn. intros d Hd. apply Hpending. rewrite Hsplit.
      apply in_app_or in Hd as [Hd|Hd]; apply in_or_app; [now left|right; now right].
    + cbn. intros id [= <-]. rewrite map_app.
      exact (NoDup_remove_2 _ _ _ Hunique).
    + unfold activeTransactions, count. cbn. fold sel.
      rewrite Hsplit, !filter_app in Hfuel. cbn [List.filter] in Hfuel.
      rewrite Hsel in Hfuel. rewrite !length_app in Hfuel. cbn [List.length] in Hfuel.
      rewrite filter_app, length_app. lia.
  - (* no active transaction *)
    f_equal. rewrite filter_all.
    + destruct db; reflexivity.
    + intros x Hx. apply negb_true_iff. fold sel.
      exact (find_none _ _ Hfind x Hx).
Qed.

(** X12.  When the transaction ids of the store are unique and none of the
    active transactions of a connector has consumed anything, the cleanup
    returns within one turn more than there are such transactions; it has
    deleted exactly these, every other document of the store is in place,
    and no active transaction is left on the connector. *)
Theorem cleanup_deletes_transactions_without_consumption (now : Z) (tenant : Tenant.t)
    (chargeBoxID : string) (connectorId : Z) (db : DB.t) (fuel : nat) :
  uniqueTransactionIds db ->
  (forall d,
     In d (DB.transactions db) ->
     in_tenant (Tenant.id tenant)
       (TransactionStorage.is_active_on chargeBoxID connectorId) d = true ->
     Transaction.currentTotalConsumptionWh (snd d) <= 0) ->
  (activeTransactions (Tenant.id tenant) chargeBoxID connectorId db < fuel)%nat ->
  let db' :=
    db <| DB.transactions :=
      List.filter
        (fun d =>
           negb (in_tenant (Tenant.id tenant)
                   (TransactionStorage.is_active_on chargeBoxID connectorId) d))
        (DB.transactions db) |> in
  stopOrDeleteActiveTransactions fuel now tenant chargeBoxID connectorId db = Some db'
  /\ TransactionStorage.getActiveTransaction (Tenant.id tenant) chargeBoxID connectorId
       db' = None.
Proof.
  intros Hunique Hpending Hfuel db'. split.
  - unfold stopOrDeleteActiveTransactions.
    apply stopOrDeleteActiveTransactions_loop_deletes; try assumption. discriminate.
  - unfold TransactionStorage.getActiveTransaction, find_in_tenant. subst db'. cbn.
    destruct (find _ _) as [d|] eqn:Hfind; [|reflexivity].
    apply find_some in Hfind as [Hin Hsel].
    apply filter_In in Hin as [_ Hnot]. rewrite Hsel in Hnot. discriminate.
Qed.

End CleanupDeletes.

(** Two pending transactions without consumption on connector 1 of CS1,
    and a closed one: the cleanup deletes the two and keeps the third. *)
Lemma cleanup_deletes_transactions_without_consumption_witness :
  option_map DB.transactions
    (@stopOrDeleteActiveTransactions (Sample.integrations true) 3 300000 Sample.tenant
       "CS1" 1
       (Sample.db [Sample.transaction 41 0 None;
                   Sample.transaction 40 1200 (Some (Sample.stopBlock 200000));
                   Sample.transaction 42 0 None] []))
  = Some [("t1", Sample.transaction 40 1200 (Some (Sample.stopBlock 200000)))].
Proof.
  destruct (@cleanup_deletes_transactions_without_consumption
              (Sample.integrations true) 300000 Sample.tenant "CS1" 1
              (Sample.db [Sample.transaction 41 0 None;
                          Sample.transaction 40 1200 (Some (Sample.stopBlock 200000));
                          Sample.transaction 42 0 None] []) 3)
    as [Hrun _].
  - unfold uniqueTransactionIds. cbn.
    repeat constructor; cbn; intuition discriminate.
  - intros d [<-|[<-|[<-|[]]]]; cbn; intros H; try discriminate; lia.
  - vm_compute. lia.
  - rewrite Hrun. reflexivity.
Defined.

(** ** End of charge: what the check may do *)

Section EndOfChargeEffects.

Context {I : Integrations}.
Variable chargingStationConfig : ChargingStationConfiguration.t.

(** X13.  The end-of-charge check writes nothing but one notification at
    most: the store it leaves is the store it found, or that store with
    one end-of-charge or one optimal-charge notification of the
    transaction appended.  The one failure it raises is the [TypeError]
    of an open transaction that has a user and no last consumption, and
    then the store is the one it found; with a last consumption it
    returns.  For a transaction without user, or with a stop block, it
    returns and the store is the one it found. *)
Theorem end_of_charge_check_notifies_at_most_once (tenant : Tenant.t)
    (chargingStation : ChargingStation.t) (transaction : Transaction.t) (db : DB.t) :
  let run := checkNotificationEndOfCharge chargingStationConfig tenant chargingStation
               transaction db in
  (fst run = Ok tt
   \/ (run = (Throw TypeError, db)
       /\ Transaction.stop transaction = None
       /\ Transaction.user transaction <> None
       /\ Transaction.lastConsumption transaction = None))
  /\ (snd run = db
      \/ snd run
         = db <| DB.notifications :=
             (DB.notifications db
              ++ [(Tenant.id tenant,
                   Notification.EndOfCharge (Transaction.id transaction))])%list |>
      \/ snd run
         = db <| DB.notifications :=
             (DB.notifications db
              ++ [(Tenant.id tenant,
                   Notification.OptimalChargeReached
                     (Transaction.id transaction))])%list |>)
  /\ (Transaction.lastConsumption transaction <> None -> fst run = Ok tt)
  /\ (Transaction.user transaction = None \/ Transaction.stop transaction <> None ->
      run = (Ok tt, db)).
Proof.
  intros run. subst run.
  unfold checkNotificationEndOfCharge, notifyEndOfCharge, notifyOptimalChargeReached,
    transactionDurationToString, NotificationHandler.send, bind, gets, modify, lift,
    ret.
  destruct (Transaction.stop transaction) as [stop|]; cbn [JS.truthy negb].
  { repeat split; auto. }
  destruct (_ && _); [|repeat split; auto].
  destruct (Transaction.user transaction) as [user|];
    destruct (Transaction.lastConsumption transaction) as [lastConsumption|];
    (destruct (_ && _);
     [destruct (_ =? 100); [|cbv beta iota; destruct (JS.every _ _)]
     |destruct (_ && _)]);
    cbn [fst snd];
    (split; [first [now left | right; repeat split; discriminate]|]);
    (split; [auto|]);
    (split; [first [reflexivity | intros H; now contradiction H]|]);
    intros [H|H]; first [discriminate | congruence | reflexivity].
Qed.

End EndOfChargeEffects.

(** ** The connector of a transaction *)

Section ConnectorOfTransaction.

Context {I : Integrations}.

Lemma assignFirst_found (connectorId : Z) (assign : Connector.t -> Connector.t)
    (l : list Connector.t) :
  (forall c, Connector.connectorId (assign c) = Connector.connectorId c) ->
  find (fun c => Connector.connectorId c =? connectorId)
    (assignFirst connectorId assign l)
  = option_map assign (find (fun c => Connector.connectorId c =? connectorId) l).
Proof.
  intros Hid. induction l as [|c l IH]; cbn; [reflexivity|].
  destruct (Connector.connectorId c =? connectorId) eqn:Hc; cbn.
  - now rewrite Hid, Hc.
  - now rewrite Hc.
Qed.

Lemma assignFirst_other (connectorId other : Z) (assign : Connector.t -> Connector.t)
    (l : list Connector.t) :
  (forall c, Connector.connectorId (assign c) = Connector.connectorId c) ->
  other <> connectorId ->
  find (fun c => Connector.connectorId c =? other) (assignFirst connectorId assign l)
  = find (fun c => Connector.connectorId c =? other) l.
Proof.
  intros Hid Hother. induction l as [|c l IH]; cbn; [reflexivity|].
  destruct (Connector.connectorId c =? connectorId) eqn:Hc; cbn.
  - rewrite Hid. apply Z.eqb_eq in Hc. rewrite Hc.
    apply Z.eqb_neq in Hother. rewrite Z.eqb_sym, Hother. reflexivity.
  - now rewrite IH.
Qed.

Lemma assignFirst_ids (connectorId : Z) (assign : Connector.t -> Connector.t)
    (l : list Connector.t) :
  (forall c, Connector.connectorId (assign c) = Connector.connectorId c) ->
  map Connector.connectorId (assignFirst connectorId assign l)
  = map Connector.connectorId l.
Proof.
  intros Hid. induction l as [|c l IH]; cbn; [reflexivity|].
  destruct (Connector.connectorId c =? connectorId); cbn; now rewrite ?Hid, ?IH.
Qed.

Lemma freeFirst_assignFirst (connectorId : Z) (l : list Connector.t) :
  OCPPUtils.freeFirst connectorId l = assignFirst connectorId OCPPUtils.freeConnector l.
Proof.
  induction l as [|c l IH]; cbn; [reflexivity|]. now rewrite IH.
Qed.

(** X14.  After [updateChargingStationWithTransaction] for a transaction
    without stop block whose connector the station has, that connector
    shows the transaction: its id, tag and user, its instant power, its
    total consumption and inactivity, its state of charge and the
    inactivity level of its inactivity; the status and the id of the
    connector are the ones it had.  The station is stamped as seen, every
    other connector is as it was, and the connector ids are those the
    station had, in order. *)
Theorem connector_shows_the_running_transaction (now : Z)
    (chargeBox : option ChargingStation.t) (chargingStation : ChargingStation.t)
    (transaction : Transaction.t) (connector : Connector.t) :
  Transaction.stop transaction = None ->
  Utils.getConnectorFromID chargingStation (Transaction.connectorId transaction)
  = Some connector ->
  let updated :=
    updateChargingStationWithTransaction now chargeBox chargingStation transaction in
  (exists shown,
     Utils.getConnectorFromID updated (Transaction.connectorId transaction) = Some shown
     /\ Connector.currentTransactionID shown = Transaction.id transaction
     /\ Connector.currentTagID shown = Some (Transaction.tagID transaction)
     /\ Connector.userID shown = Transaction.userID transaction
     /\ Connector.currentInstantWatts shown = Transaction.currentInstantWatts transaction
     /\ Connector.currentTotalConsumptionWh shown
        = Transaction.currentTotalConsumptionWh transaction
     /\ Connector.currentTotalInactivitySecs shown
        = Transaction.currentTotalInactivitySecs transaction
     /\ Connector.currentStateOfCharge shown = Transaction.currentStateOfCharge transaction
     /\ Connector.currentInactivityStatus shown
        = getInactivityStatusLevel chargeBox (Transaction.connectorId transaction)
            (Transaction.currentTotalInactivitySecs transaction)
     /\ Connector.connectorId shown = Connector.connectorId connector
     /\ Connector.status shown = Connector.status connector
     /\ Connector.errorCode shown = Connector.errorCode connector
     /\ Connector.power shown = Connector.power connector)
  /\ ChargingStation.lastSeen updated = Some now
  /\ (forall other,
        other <> Transaction.connectorId transaction ->
        Utils.getConnectorFromID updated other
        = Utils.getConnectorFromID chargingStation other)
  /\ map Connector.connectorId (ChargingStation.connectors updated)
     = map Connector.connectorId (ChargingStation.connectors chargingStation).
Proof.
  intros Hstop Hfound updated. subst updated.
  unfold updateChargingStationWithTransaction. rewrite Hfound, Hstop.
  cbn [JS.truthy negb]. unfold Utils.getConnectorFromID, assignFoundConnector in *.
  cbn [ChargingStation.connectors ChargingStation.lastSeen
       RecordSettersUsingExistingGetters.set RecordSettersUsingExistingGetters.const].
  split; [|split; [reflexivity|split]].
  - eexists. split.
    + cbn. rewrite assignFirst_found by reflexivity. rewrite Hfound. reflexivity.
    + repeat split.
  - intros other Hother. cbn. now apply assignFirst_other.
  - cbn. now apply assignFirst_ids.
Qed.

(** X15.  [updateChargingStationWithTransaction] for a transaction that has
    its stop block frees the connector of the transaction: the live values
    are reset and [currentTransactionID] is 0; the station is not stamped
    as seen, and the other connectors are as they were.  When the station
    has no connector with the id of the transaction, the station comes
    back as it was, stop block or not. *)
Theorem connector_of_a_closed_transaction_is_freed (now : Z)
    (chargeBox : option ChargingStation.t) (chargingStation : ChargingStation.t)
    (transaction : Transaction.t) :
  let updated :=
    updateChargingStationWithTransaction now chargeBox chargingStation transaction in
  (Utils.getConnectorFromID chargingStation (Transaction.connectorId transaction) = None ->
   updated = chargingStation)
  /\ (forall connector stop,
        Utils.getConnectorFromID chargingStation (Transaction.connectorId transaction)
        = Some connector ->
        Transaction.stop transaction = Some stop ->
        Utils.getConnectorFromID updated (Transaction.connectorId transaction)
        = Some (OCPPUtils.freeConnector connector)
        /\ Connector.currentTransactionID (OCPPUtils.freeConnector connector) = 0
        /\ Connector.status (OCPPUtils.freeConnector connector) = Connector.status connector
        /\ ChargingStation.lastSeen updated = ChargingStation.lastSeen chargingStation
        /\ forall other,
             other <> Transaction.connectorId transaction ->
             Utils.getConnectorFromID updated other
             = Utils.getConnectorFromID chargingStation other).
Proof.
  intros updated. subst updated. unfold updateChargingStationWithTransaction. split.
  - intros ->. reflexivity.
  - intros connector stop Hfound Hstop. rewrite Hfound, Hstop. cbn [JS.truthy negb].
    assert (Hid : Connector.connectorId connector = Transaction.connectorId transaction).
    { unfold Utils.getConnectorFromID in Hfound. apply find_some in Hfound as [_ H].
      now apply Z.eqb_eq in H. }
    rewrite Hid.
    unfold Utils.getConnectorFromID, OCPPUtils.checkAndFreeChargingStationConnector in *.
    cbn [ChargingStation.connectors ChargingStation.lastSeen
         RecordSettersUsingExistingGetters.set RecordSettersUsingExistingGetters.const].
    split; [cbn; now apply freeFirst_found|].
    split; [reflexivity|]. split; [reflexivity|]. split; [reflexivity|].
    intros other Hother. cbn. rewrite freeFirst_assignFirst.
    now apply assignFirst_other.
Qed.

End ConnectorOfTransaction.

(** Transaction 42 runs on connector 1 of CS1 and has consumed 1500 Wh. *)
Lemma connector_shows_the_running_transaction_witness :
  option_map Connector.currentTotalConsumptionWh
    (Utils.getConnectorFromID
       (@updateChargingStationWithTransaction (Sample.integrations true) 300000 None
          Sample.station (Sample.transaction 42 1500 None)) 1)
  = Some 1500.
Proof.
  destruct (@connector_shows_the_running_transaction (Sample.integrations true) 300000
              None Sample.station (Sample.transaction 42 1500 None) (Sample.connector 42))
    as [(shown & Hshown & _ & _ & _ & _ & Hwh & _) _].
  - reflexivity.
  - reflexivity.
  - change 1 with (Transaction.connectorId (Sample.transaction 42 1500 None)).
    rewrite Hshown. cbn [option_map]. rewrite Hwh. reflexivity.
Defined.

(** Transaction 42 is closed: connector 1 of CS1 is freed. *)
Lemma connector_of_a_closed_transaction_is_freed_witness :
  option_map Connector.currentTransactionID
    (Utils.getConnectorFromID
       (@updateChargingStationWithTransaction (Sample.integrations true) 300000 None
          Sample.station
          (Sample.transaction 42 1500 (Some (Sample.stopBlock 200000)))) 1)
  = Some 0.
Proof.
  destruct (@connector_of_a_closed_transaction_is_freed (Sample.integrations true)
              300000 None Sample.station
              (Sample.transaction 42 1500 (Some (Sample.stopBlock 200000))))
    as [_ Hfreed].
  destruct (Hfreed (Sample.connector 42) (Sample.stopBlock 200000) eq_refl eq_refl)
    as (Hfound & Hzero & _).
  change 1 with (Transaction.connectorId
                   (Sample.transaction 42 1500 (Some (Sample.stopBlock 200000)))).
  rewrite Hfound. reflexivity.
Defined.

(** ** Authorize *)

Section Authorize.

Variable validateAuthorize : OCPPAuthorizeRequestExtended.t -> bool.
Variable isAuthorizedOnChargingStation :
  string -> ChargingStation.t -> string -> Result (option User.t).
Variable getTimezone : option (list Z) -> option string.

Lemma admitted_dec (chargingStation : ChargingStation.t) (user : User.t) :
  admitted chargingStation (Some user)
  <-> negb (User.issuer user) = false
      \/ (JS.truthy_string (User.authorizationID user) = true
          /\ ChargingStation.public chargingStation = true).
Proof.
  unfold admitted, JS.truthy_string.
  destruct (User.issuer user); cbn; [intuition|].
  destruct (User.authorizationID user) as [authorizationID|].
  - rewrite negb_true_iff, String.eqb_neq. split.
    + intros [H|[(a & [= <-] & Ha) Hp]]; [discriminate|]. right. now split.
    + intros [H|[Ha Hp]]; [discriminate|]. right. split; [|assumption].
      exists authorizationID. now split.
  - split.
    + intros [H|[(a & H & _) _]]; discriminate.
    + intros [H|[H _]]; discriminate.
Qed.

(** The run of the [try] block once the station is resolved, the payload
    valid and the tag authorized. *)
Lemma handleAuthorize_try_authorized (now : Z) (headers : OCPPHeader.t)
    (authorize : OCPPAuthorizeRequestExtended.t) (db : DB.t)
    (chargingStation : ChargingStation.t) (tenant : Tenant.t) (user : option User.t) :
  OCPPUtils.checkAndGetTenantAndChargingStation headers db
  = (Ok (chargingStation, tenant), db) ->
  validateAuthorize authorize = true ->
  isAuthorizedOnChargingStation (Tenant.id tenant) chargingStation
    (OCPPAuthorizeRequestExtended.idTag authorize) = Ok user ->
  let run := handleAuthorize_try validateAuthorize isAuthorizedOnChargingStation
               getTimezone now headers authorize db in
  (admitted chargingStation user ->
   run = (Ok (Tenant.id tenant,
              {| OCPPAuthorizeRequestExtended.idTag :=
                   OCPPAuthorizeRequestExtended.idTag authorize;
                 OCPPAuthorizeRequestExtended.chargeBoxID :=
                   Some (ChargingStation.id chargingStation);
                 OCPPAuthorizeRequestExtended.timestamp := Some now;
                 OCPPAuthorizeRequestExtended.timezone :=
                   getTimezone (ChargingStation.coordinates chargingStation);
                 OCPPAuthorizeRequestExtended.authorizationId :=
                   match user with
                   | Some u =>
                       if User.issuer u
                       then OCPPAuthorizeRequestExtended.authorizationId authorize
                       else User.authorizationID u
                   | None => OCPPAuthorizeRequestExtended.authorizationId authorize
                   end;
                 OCPPAuthorizeRequestExtended.user := user |}), db))
  /\ (~ admitted chargingStation user -> run = (Throw NotAuthorized, db)).
Proof.
  intros Hres Hval Hauth run. subst run.
  unfold handleAuthorize_try, bind, lift, ret, throw.
  rewrite Hres. cbn. rewrite Hval. cbn. rewrite Hauth.
  destruct user as [u|]; [|split; [reflexivity|intros H; now destruct H]].
  rewrite admitted_dec.
  destruct (negb (User.issuer u)) eqn:Hissuer.
  - destruct (JS.truthy_string (User.authorizationID u)).
    + destruct (ChargingStation.public chargingStation).
      * apply negb_true_iff in Hissuer. rewrite Hissuer.
        split; [reflexivity|]. intros H. exfalso. apply H. now right.
      * split; [|reflexivity]. intros [H|[_ H]]; discriminate.
    + split; [|reflexivity]. intros [H|[H _]]; discriminate.
  - apply negb_false_iff in Hissuer. rewrite Hissuer.
    split; [reflexivity|]. intros H. exfalso. apply H. now left.
Qed.

(** X16.  An Authorize is answered [Accepted] or [Invalid] and never writes
    the store.  It is [Accepted] exactly when the station of the header is
    resolved, the payload is valid, the authorization lets the tag through,
    and the user of the tag, if it has one and if they are a roaming user
    (not of this system), has an authorization id and the station is
    public. *)
Theorem authorize_admits_roaming_users_on_public_stations_only (now : Z)
    (headers : OCPPHeader.t) (authorize : OCPPAuthorizeRequestExtended.t) (db : DB.t) :
  let out := handleAuthorize validateAuthorize isAuthorizedOnChargingStation getTimezone
               now headers authorize db in
  snd out = db
  /\ (OCPPAuthorizeResponse.idTagInfo (fst (fst out)) = OCPPAuthorizationStatus.ACCEPTED
      \/ OCPPAuthorizeResponse.idTagInfo (fst (fst out))
         = OCPPAuthorizationStatus.INVALID)
  /\ (OCPPAuthorizeResponse.idTagInfo (fst (fst out)) = OCPPAuthorizationStatus.ACCEPTED
      <-> exists chargingStation tenant user,
            OCPPUtils.checkAndGetTenantAndChargingStation headers db
            = (Ok (chargingStation, tenant), db)
            /\ validateAuthorize authorize = true
            /\ isAuthorizedOnChargingStation (Tenant.id tenant) chargingStation
                 (OCPPAuthorizeRequestExtended.idTag authorize) = Ok user
            /\ admitted chargingStation user).
Proof.
  intros out. subst out. unfold handleAuthorize.
  pose proof (resolve_reads headers db) as Hreads.
  destruct (OCPPUtils.checkAndGetTenantAndChargingStation headers db)
    as [[[chargingStation tenant]|e] db0] eqn:Hres; cbn [snd] in Hreads; subst db0.
  2:{ unfold handleAuthorize_try, bind. rewrite Hres. cbn.
      split; [reflexivity|]. split; [now right|].
      split; [discriminate|]. intros (? & ? & ? & H & _). discriminate. }
  destruct (validateAuthorize authorize) eqn:Hval.
  2:{ unfold handleAuthorize_try, bind, throw. rewrite Hres. cbn. rewrite Hval. cbn.
      split; [reflexivity|]. split; [now right|].
      split; [discriminate|]. intros (? & ? & ? & _ & H & _). discriminate. }
  destruct (isAuthorizedOnChargingStation (Tenant.id tenant) chargingStation
              (OCPPAuthorizeRequestExtended.idTag authorize)) as [user|e] eqn:Hauth.
  2:{ unfold handleAuthorize_try, bind, lift, throw. rewrite Hres. cbn. rewrite Hval.
      cbn. rewrite Hauth. cbn.
      split; [reflexivity|]. split; [now right|].
      split; [discriminate|].
      intros (cs' & tenant' & user' & [= <- <-] & _ & H & _). congruence. }
  destruct (handleAuthorize_try_authorized now headers authorize db chargingStation
              tenant user Hres Hval Hauth) as [Hyes Hno].
  cbv zeta in Hyes, Hno.
  assert (Hdec : admitted chargingStation user \/ ~ admitted chargingStation user).
  { destruct user as [u|]; [|left; exact I].
    rewrite admitted_dec.
    destruct (negb (User.issuer u)); [|now left; left].
    destruct (JS.truthy_string (User.authorizationID u));
      [|right; intros [H|[H _]]; discriminate].
    destruct (ChargingStation.public chargingStation);
      [left; right; now split | right; intros [H|[_ H]]; discriminate]. }
  destruct Hdec as [Hadmitted|Hrefused].
  - rewrite (Hyes Hadmitted). cbn.
    split; [reflexivity|]. split; [now left|]. split; [|reflexivity].
    intros _. exists chargingStation, tenant, user. auto.
  - rewrite (Hno Hrefused). cbn.
    split; [reflexivity|]. split; [now right|]. split; [discriminate|].
    intros (cs' & tenant' & user' & [= <- <-] & _ & H & Hadmitted).
    exfalso. apply Hrefused. congruence.
Qed.

(** X17.  An Authorize saves one authorization when it answers [Accepted]
    and none when it answers [Invalid].  The one it saves is saved for the
    tenant of the station and carries the tag of the request, the id of
    the station, the clock, the user of the tag and, for a roaming user,
    their authorization id in place of the one of the request. *)
Theorem authorize_saves_what_it_accepts (now : Z) (headers : OCPPHeader.t)
    (authorize : OCPPAuthorizeRequestExtended.t) (db : DB.t) :
  let out := handleAuthorize validateAuthorize isAuthorizedOnChargingStation getTimezone
               now headers authorize db in
  (OCPPAuthorizeResponse.idTagInfo (fst (fst out)) = OCPPAuthorizationStatus.INVALID ->
   snd (fst out) = [])
  /\ (OCPPAuthorizeResponse.idTagInfo (fst (fst out)) = OCPPAuthorizationStatus.ACCEPTED ->
      exists chargingStation tenant user,
        OCPPUtils.checkAndGetTenantAndChargingStation headers db
        = (Ok (chargingStation, tenant), db)
        /\ isAuthorizedOnChargingStation (Tenant.id tenant) chargingStation
             (OCPPAuthorizeRequestExtended.idTag authorize) = Ok user
        /\ snd (fst out)
           = [(Tenant.id tenant,
               {| OCPPAuthorizeRequestExtended.idTag :=
                    OCPPAuthorizeRequestExtended.idTag authorize;
                  OCPPAuthorizeRequestExtended.chargeBoxID :=
                    Some (ChargingStation.id chargingStation);
                  OCPPAuthorizeRequestExtended.timestamp := Some now;
                  OCPPAuthorizeRequestExtended.timezone :=
                    getTimezone (ChargingStation.coordinates chargingStation);
                  OCPPAuthorizeRequestExtended.authorizationId :=
                    match user with
                    | Some u =>
                        if User.issuer u
                        then OCPPAuthorizeRequestExtended.authorizationId authorize
                        else User.authorizationID u
                    | None => OCPPAuthorizeRequestExtended.authorizationId authorize
                    end;
                  OCPPAuthorizeRequestExtended.user := user |})]).
Proof.
  intros out. subst out. unfold handleAuthorize.
  pose proof (resolve_reads headers db) as Hreads.
  destruct (OCPPUtils.checkAndGetTenantAndChargingStation headers db)
    as [[[chargingStation tenant]|e] db0] eqn:Hres; cbn [snd] in Hreads; subst db0.
  2:{ unfold handleAuthorize_try, bind. rewrite Hres. cbn.
      split; [reflexivity|discriminate]. }
  destruct (validateAuthorize authorize) eqn:Hval.
  2:{ unfold handleAuthorize_try, bind, throw. rewrite Hres. cbn. rewrite Hval. cbn.
      split; [reflexivity|discriminate]. }
  destruct (isAuthorizedOnChargingStation (Tenant.id tenant) chargingStation
              (OCPPAuthorizeRequestExtended.idTag authorize)) as [user|e] eqn:Hauth.
  2:{ unfold handleAuthorize_try, bind, lift, throw. rewrite Hres. cbn. rewrite Hval.
      cbn. rewrite Hauth. cbn. split; [reflexivity|discriminate]. }
  destruct (handleAuthorize_try_authorized now headers authorize db chargingStation
              tenant user Hres Hval Hauth) as [Hyes Hno].
  cbv zeta in Hyes, Hno.
  destruct (handleAuthorize_try _ _ _ now headers authorize db) as [[saved|e] db1] eqn:Hrun;
    cbn; (split; [try reflexivity; discriminate|]); [|discriminate].
  intros _. exists chargingStation, tenant, user.
  split; [reflexivity|]. split; [assumption|].
  assert (Hadmitted : admitted chargingStation user).
  { destruct user as [u|]; [|exact I].
    rewrite admitted_dec.
    destruct (negb (User.issuer u)) eqn:Hi; [|now left].
    destruct (JS.truthy_string (User.authorizationID u)) eqn:Ha.
    - destruct (ChargingStation.public chargingStation) eqn:Hp; [right; now split|].
      exfalso. assert (H : ~ admitted chargingStation (Some u)).
      { rewrite admitted_dec, Hi, Ha, Hp. intros [H|[_ H]]; discriminate. }
      specialize (Hno H). discriminate.
    - exfalso. assert (H : ~ admitted chargingStation (Some u)).
      { rewrite admitted_dec, Hi, Ha. intros [H|[H _]]; discriminate. }
      specialize (Hno H). discriminate. }
  specialize (Hyes Hadmitted). now injection Hyes as -> _.
Qed.

End Authorize.

(** The roaming user is refused on the private station and let through on
    the public one. *)
Lemma authorize_admits_roaming_users_on_public_stations_only_witness :
  OCPPAuthorizeResponse.idTagInfo
    (fst (fst (handleAuthorize (fun _ => true) Examples.isAuthorizedOnChargingStation
                 (fun _ => None) 300000 (Sample.headers "CS1" None)
                 (Examples.authorize "ROAM") (Examples.db true))))
  = OCPPAuthorizationStatus.ACCEPTED
  /\ OCPPAuthorizeResponse.idTagInfo
       (fst (fst (handleAuthorize (fun _ => true)
                    Examples.isAuthorizedOnChargingStation (fun _ => None) 300000
                    (Sample.headers "CS1" None) (Examples.authorize "ROAM")
                    (Examples.db false))))
     <> OCPPAuthorizationStatus.ACCEPTED.
Proof.
  split.
  - apply (proj2 (proj2 (authorize_admits_roaming_users_on_public_stations_only
                           (fun _ => true) Examples.isAuthorizedOnChargingStation
                           (fun _ => None) 300000 (Sample.headers "CS1" None)
                           (Examples.authorize "ROAM") (Examples.db true)))).
    exists (Sample.station <| ChargingStation.public := true |>), Sample.tenant,
      (Some Examples.roamingUser).
    repeat split. right. split; [|reflexivity]. exists "AUTH1". split; [reflexivity|].
    discriminate.
  - intros H.
    apply (proj2 (proj2 (authorize_admits_roaming_users_on_public_stations_only
                           (fun _ => true) Examples.isAuthorizedOnChargingStation
                           (fun _ => None) 300000 (Sample.headers "CS1" None)
                           (Examples.authorize "ROAM") (Examples.db false)))) in H.
    destruct H as (chargingStation & tenant & user & [= <- <-] & _ & [= <-] & Hadmitted).
    destruct Hadmitted as [H|[_ H]]; discriminate.
Defined.

(** What is saved for the roaming user on the public station. *)
Lemma authorize_saves_what_it_accepts_witness :
  map (fun saved => OCPPAuthorizeRequestExtended.authorizationId (snd saved))
    (snd (fst (handleAuthorize (fun _ => true) Examples.isAuthorizedOnChargingStation
                 (fun _ => None) 300000 (Sample.headers "CS1" None)
                 (Examples.authorize "ROAM") (Examples.db true))))
  = [Some "AUTH1"].
Proof.
  destruct (authorize_saves_what_it_accepts (fun _ => true)
              Examples.isAuthorizedOnChargingStation (fun _ => None) 300000
              (Sample.headers "CS1" None) (Examples.authorize "ROAM")
              (Examples.db true)) as [_ Haccepted].
  destruct Haccepted as (chargingStation & tenant & user & [= <- <-] & [= <-] & ->).
  - reflexivity.
  - reflexivity.
Defined.

(** ** StatusNotification: what is stored *)

Section StatusNotificationEffects.

Context {I : Integrations}.
Variable validateStatusNotification : OCPPStatusNotificationRequestExtended.t -> bool.
Variable getTimezone : option (list Z) -> option string.
Variable ChargingStationTemplate : Type.
Variable getChargingStationTemplate : ChargingStation.t -> option ChargingStationTemplate.
Variable enrichChargingStationConnectorWithTemplate :
  string -> ChargingStation.t -> Z -> ChargingStationTemplate -> ChargingStation.t.

(** X18.  A status notification for connector 0, the station itself (or
    for a negative connector id), is dropped: whatever the status, nothing
    is saved and the store is the one the handler found. *)
Theorem status_of_connector_zero_is_not_stored (fuel : nat) (now : Z)
    (headers : OCPPHeader.t)
    (statusNotification : OCPPStatusNotificationRequestExtended.t) (db : DB.t) :
  OCPPStatusNotificationRequestExtended.connectorId statusNotification <= 0 ->
  handleStatusNotification validateStatusNotification getTimezone
    ChargingStationTemplate getChargingStationTemplate
    enrichChargingStationConnectorWithTemplate fuel now headers statusNotification db
  = Some (StatusNotificationJournal.empty, db).
Proof.
  intros Hzero. unfold handleStatusNotification.
  pose proof (resolve_reads headers db) as Hreads.
  destruct (OCPPUtils.checkAndGetTenantAndChargingStation headers db)
    as [[[chargingStation tenant]|e] db0]; cbn [snd] in Hreads; subst db0;
    [|reflexivity].
  destruct (validateStatusNotification statusNotification); [|reflexivity].
  replace (0 <? OCPPStatusNotificationRequestExtended.connectorId statusNotification)
    with false by (symmetry; apply Z.ltb_ge; lia).
  reflexivity.
Qed.

(** X19.  A status notification that repeats what the connector of the
    station already shows (same status, same error code, same info) is
    dropped: it is not saved, the last transaction is not checked, the
    station is neither stamped as seen nor saved. *)
Theorem repeated_status_is_not_stored (fuel : nat) (now : Z) (headers : OCPPHeader.t)
    (statusNotification : OCPPStatusNotificationRequestExtended.t) (db : DB.t)
    (chargingStation : ChargingStation.t) (tenant : Tenant.t) (connector : Connector.t) :
  OCPPUtils.checkAndGetTenantAndChargingStation headers db
  = (Ok (chargingStation, tenant), db) ->
  Utils.getConnectorFromID chargingStation
    (OCPPStatusNotificationRequestExtended.connectorId statusNotification)
  = Some connector ->
  Connector.status connector
  = OCPPStatusNotificationRequestExtended.status statusNotification ->
  Connector.errorCode connector
  = OCPPStatusNotificationRequestExtended.errorCode statusNotification ->
  Connector.info connector
  = OCPPStatusNotificationRequestExtended.info statusNotification ->
  handleStatusNotification validateStatusNotification getTimezone
    ChargingStationTemplate getChargingStationTemplate
    enrichChargingStationConnectorWithTemplate fuel now headers statusNotification db
  = Some (StatusNotificationJournal.empty, db).
Proof.
  intros Hres Hfound Hstatus Hcode Hinfo.
  unfold handleStatusNotification. rewrite Hres.
  destruct (validateStatusNotification statusNotification); [|reflexivity].
  destruct (0 <? _); [|reflexivity].
  unfold updateConnectorStatus. rewrite Hfound.
  assert (Hsame : sameStatus connector statusNotification = true).
  { unfold sameStatus. rewrite Hstatus, Hcode, Hinfo.
    assert (Heqb : forall a, ChargePointStatus.eqb a a = true) by (now intros []).
    assert (Hstr : forall a, JS.strict_eq_string a a = true).
    { intros [a|]; cbn; [apply String.eqb_refl | reflexivity]. }
    now rewrite Heqb, !Hstr. }
  rewrite Hsame. reflexivity.
Qed.

Lemma find_insertConnector (connectorId : Z) (connector : Connector.t)
    (sorted : list Connector.t) :
  find (fun c => Connector.connectorId c =? connectorId)
    (insertConnector connector sorted)
  = if Connector.connectorId connector =? connectorId
    then Some connector
    else find (fun c => Connector.connectorId c =? connectorId) sorted.
Proof.
  induction sorted as [|next sorted IH]; cbn; [reflexivity|].
  destruct (Connector.connectorId connector <=? Connector.connectorId next) eqn:Hle;
    cbn; [reflexivity|].
  rewrite IH. destruct (Connector.connectorId connector =? connectorId) eqn:Hc;
    [|reflexivity].
  apply Z.eqb_eq in Hc. apply Z.leb_gt in Hle.
  replace (Connector.connectorId next =? connectorId) with false; [reflexivity|].
  symmetry. apply Z.eqb_neq. lia.
Qed.

Lemma find_sortConnectors (connectorId : Z) (connectors : list Connector.t) :
  find (fun c => Connector.connectorId c =? connectorId) (sortConnectors connectors)
  = find (fun c => Connector.connectorId c =? connectorId) connectors.
Proof.
  induction connectors as [|c connectors IH]; [reflexivity|].
  change (sortConnectors (c :: connectors))
    with (insertConnector c (sortConnectors connectors)).
  rewrite find_insertConnector, IH. reflexivity.
Qed.






Lemma setConnectorData_found
    (statusNotification : OCPPStatusNotificationRequestExtended.t)
    (connectors : list Connector.t) (connector : Connector.t) :
  find (fun c =>
          Connector.connectorId c
          =? OCPPStatusNotificationRequestExtended.connectorId statusNotification)
    connectors = Some connector ->
  find (fun c =>
          Connector.connectorId c
          =? OCPPStatusNotificationRequestExtended.connectorId statusNotification)
    (assignFirst (OCPPStatusNotificationRequestExtended.connectorId statusNotification)
       (setConnectorData statusNotification) connectors)
  = Some (setConnectorData statusNotification connector).
Proof.
  induction connectors as [|c connectors IH]; cbn [find assignFirst]; [discriminate|].
  destruct (Connector.connectorId c =? _) eqn:Hc.
  - intros [= ->]. cbn [find]. cbn. now rewrite Z.eqb_refl.
  - cbn [find]. rewrite Hc. exact IH.
Qed.



(** X21.  A connector that still shows a transaction and is reported
    [Available] is cleaned up (the station lost the StopTransaction).
    When the check of the last transaction returns and the collaborators
    of the stop keep the session of a transaction, the cleanup of the
    active transactions of the connector returns, within two turns more
    than there are such transactions, and the station is saved over the
    store the cleanup leaves, with the connector freed: it shows no
    transaction, and the status [Available]. *)
Theorem available_frees_the_connector (fuel : nat) (now : Z) (headers : OCPPHeader.t)
    (statusNotification : OCPPStatusNotificationRequestExtended.t) (db : DB.t)
    (chargingStation : ChargingStation.t) (tenant : Tenant.t) (connector : Connector.t) :
  KeepsSession I ->
  OCPPUtils.checkAndGetTenantAndChargingStation headers db
  = (Ok (chargingStation, tenant), db) ->
  validateStatusNotification statusNotification = true ->
  0 < OCPPStatusNotificationRequestExtended.connectorId statusNotification ->
  Utils.getConnectorFromID chargingStation
    (OCPPStatusNotificationRequestExtended.connectorId statusNotification)
  = Some connector ->
  sameStatus connector statusNotification = false ->
  OCPPStatusNotificationRequestExtended.status statusNotification
  = ChargePointStatus.AVAILABLE ->
  0 < Connector.currentTransactionID connector ->
  let checked :=
    checkLastTransaction tenant chargingStation statusNotification connector db in
  fst checked = Ok tt ->
  (activeTransactions (Tenant.id tenant) (ChargingStation.id chargingStation)
     (OCPPStatusNotificationRequestExtended.connectorId statusNotification)
     (snd checked) + 2 <= fuel)%nat ->
  exists journal stored cleaned,
    handleStatusNotification validateStatusNotification getTimezone
      ChargingStationTemplate getChargingStationTemplate
      enrichChargingStationConnectorWithTemplate fuel now headers statusNotification db
    = Some (journal,
            ChargingStationStorage.saveChargingStation (Tenant.id tenant) stored cleaned)
    /\ stopOrDeleteActiveTransactions fuel now tenant (ChargingStation.id chargingStation)
         (OCPPStatusNotificationRequestExtended.connectorId statusNotification)
         (snd checked) = Some cleaned
    /\ ChargingStation.id stored = ChargingStation.id chargingStation
    /\ Utils.getConnectorFromID stored
         (OCPPStatusNotificationRequestExtended.connectorId statusNotification)
       = Some (OCPPUtils.freeConnector (setConnectorData statusNotification connector))
    /\ Connector.currentTransactionID
         (OCPPUtils.freeConnector (setConnectorData statusNotification connector)) = 0
    /\ Connector.status
         (OCPPUtils.freeConnector (setConnectorData statusNotification connector))
       = ChargePointStatus.AVAILABLE.
Proof.
  intros Hkeeps Hres Hval Hpositive Hfound Hchanged Hstatus Hshown checked Hchecked
    Hfuel.
  set (connectorId :=
         OCPPStatusNotificationRequestExtended.connectorId statusNotification) in *.
  set (assigned := assignFirst connectorId (setConnectorData statusNotification)
                     (ChargingStation.connectors chargingStation)).
  assert (Hassigned :
            find (fun c => Connector.connectorId c =? connectorId) assigned
            = Some (setConnectorData statusNotification connector))
    by (apply setConnectorData_found; exact Hfound).
  destruct (stopOrDeleteActiveTransactions_loop_returns Hkeeps now tenant
              (ChargingStation.id chargingStation) connectorId
              (activeTransactions (Tenant.id tenant) (ChargingStation.id chargingStation)
                 connectorId (snd checked))
              (snd checked) None fuel (le_n _) Hfuel) as [cleaned Hcleaned].
  exists {| StatusNotificationJournal.saved :=
              [{| SavedStatusNotification.tenantID := Tenant.id tenant;
                  SavedStatusNotification.chargeBoxID :=
                    ChargingStation.id chargingStation;
                  SavedStatusNotification.timezone :=
                    getTimezone (ChargingStation.coordinates chargingStation);
                  SavedStatusNotification.statusNotification := statusNotification |}];
            StatusNotificationJournal.errors := [] |},
    ((chargingStation
        <| ChargingStation.connectors := assigned |>
        <| ChargingStation.lastSeen := Some now |>)
       <| ChargingStation.connectors :=
            sortConnectors (OCPPUtils.freeFirst connectorId assigned) |>),
    cleaned.
  assert (Hfreed :
            find (fun c => Connector.connectorId c =? connectorId)
              (OCPPUtils.freeFirst connectorId assigned)
            = Some (OCPPUtils.freeConnector
                      (setConnectorData statusNotification connector)))
    by (now apply freeFirst_found).
  split; [|split; [exact Hcleaned|split; [reflexivity|split; [|split]]]].
  - unfold handleStatusNotification. rewrite Hres, Hval.
    pose proof Hpositive as Hpos. apply Z.ltb_lt in Hpos. fold connectorId.
    rewrite Hpos.
    unfold updateConnectorStatus. fold connectorId. rewrite Hfound, Hchanged.
    fold checked. destruct checked as [[[]|e] db1]; cbn [fst snd] in *;
      [|discriminate].
    unfold checkStatusNotificationOngoingTransaction. fold connectorId.
    rewrite Hpos, Hstatus.
    apply Z.ltb_lt in Hshown.
    cbn [Connector.currentTransactionID setConnectorData
         RecordSettersUsingExistingGetters.set RecordSettersUsingExistingGetters.const].
    rewrite Hshown. cbn [andb ChargePointStatus.eqb].
    unfold assignFoundConnector. fold assigned.
    cbn [ChargingStation.id ChargingStation.connectors
         RecordSettersUsingExistingGetters.set RecordSettersUsingExistingGetters.const].
    unfold stopOrDeleteActiveTransactions in *. rewrite Hcleaned.
    unfold OCPPUtils.checkAndFreeChargingStationConnector, notifyStatusNotification.
    rewrite Hstatus.
    cbn [ChargingStation.id ChargingStation.connectors ChargePointStatus.eqb negb andb
         RecordSettersUsingExistingGetters.set RecordSettersUsingExistingGetters.const].
    destruct (OCPPUtils.freeFirst connectorId assigned) as [|first rest] eqn:Hlist;
      [discriminate|].
    reflexivity.
  - unfold Utils.getConnectorFromID.
    cbn [ChargingStation.connectors RecordSettersUsingExistingGetters.set
         RecordSettersUsingExistingGetters.const].
    now rewrite find_sortConnectors.
  - reflexivity.
  - cbn. exact Hstatus.
Qed.

End StatusNotificationEffects.

Lemma status_of_connector_zero_is_not_stored_witness :
  @handleStatusNotification (Sample.integrations true) (fun _ => true) (fun _ => None)
    unit (fun _ => None) (fun _ chargingStation _ _ => chargingStation) 3 300000
    (Sample.headers "CS1" None)
    ((Sample.statusNotification ChargePointStatus.FAULTED (Some 250000))
       <| OCPPStatusNotificationRequestExtended.connectorId := 0 |>)
    (Sample.db [] [])
  = Some (StatusNotificationJournal.empty, Sample.db [] []).
Proof.
  refine (@status_of_connector_zero_is_not_stored (Sample.integrations true)
            (fun _ => true) (fun _ => None) unit (fun _ => None)
            (fun _ chargingStation _ _ => chargingStation) 3 300000
            (Sample.headers "CS1" None)
            ((Sample.statusNotification ChargePointStatus.FAULTED (Some 250000))
               <| OCPPStatusNotificationRequestExtended.connectorId := 0 |>)
            (Sample.db [] []) _).
  cbn. lia.
Defined.

(** Connector 1 of CS1 shows Charging without error; the station says so
    again. *)
Lemma repeated_status_is_not_stored_witness :
  @handleStatusNotification (Sample.integrations true) (fun _ => true) (fun _ => None)
    unit (fun _ => None) (fun _ chargingStation _ _ => chargingStation) 3 300000
    (Sample.headers "CS1" None)
    (Sample.statusNotification ChargePointStatus.CHARGING (Some 250000))
    (Sample.db [] [])
  = Some (StatusNotificationJournal.empty, Sample.db [] []).
Proof.
  refine (@repeated_status_is_not_stored (Sample.integrations true)
            (fun _ => true) (fun _ => None) unit (fun _ => None)
            (fun _ chargingStation _ _ => chargingStation) 3 300000
            (Sample.headers "CS1" None)
            (Sample.statusNotification ChargePointStatus.CHARGING (Some 250000))
            (Sample.db [] []) Sample.station Sample.tenant (Sample.connector 42)
            _ _ _ _ _).
  all: reflexivity.
Defined.


Lemma available_frees_the_connector_witness :
  option_map
    (fun out =>
       option_map
         (fun stored =>
            option_map
              (fun c => (Connector.status c, Connector.currentTransactionID c))
              (Utils.getConnectorFromID stored 1))
         (ChargingStationStorage.getChargingStation "t1" "CS1" (snd out)))
    (@handleStatusNotification (Sample.integrations false) (fun _ => true)
       (fun _ => None) unit (fun _ => None)
       (fun _ chargingStation _ _ => chargingStation) 3 300000
       (Sample.headers "CS1" None)
       (Sample.statusNotification ChargePointStatus.AVAILABLE (Some 250000))
       (Sample.db [Sample.transaction 42 1200 None] []))
  = Some (Some (Some (ChargePointStatus.AVAILABLE, 0))).
Proof.
  destruct (@available_frees_the_connector (Sample.integrations false)
              (fun _ => true) (fun _ => None) unit (fun _ => None)
              (fun _ chargingStation _ _ => chargingStation) 3 300000
              (Sample.headers "CS1" None)
              (Sample.statusNotification ChargePointStatus.AVAILABLE (Some 250000))
              (Sample.db [Sample.transaction 42 1200 None] [])
              Sample.station Sample.tenant (Sample.connector 42))
    as (journal & stored & cleaned & Hrun & _ & Hid & Hshown & Hfree & Hstatus).
  - apply sample_integrations_keep_session.
  - reflexivity.
  - reflexivity.
  - reflexivity.
  - reflexivity.
  - reflexivity.
  - reflexivity.
  - reflexivity.
  - reflexivity.
  - vm_compute. lia.
  - rewrite Hrun. cbn [option_map fst snd].
    change "CS1" with (ChargingStation.id Sample.station). rewrite <- Hid.
    change "t1" with (Tenant.id Sample.tenant).
    rewrite getChargingStation_saved. cbn [option_map].
    change 1 with (OCPPStatusNotificationRequestExtended.connectorId
                     (Sample.statusNotification ChargePointStatus.AVAILABLE
                        (Some 250000))).
    rewrite Hshown. cbn [option_map]. rewrite Hfree, Hstatus. reflexivity.
Defined.

Lemma stop_transaction_notifies_once_witness :
  DB.notifications
    (snd (@handleStopTransaction (Sample.integrations true) 300000
            (Sample.headers "CS1" None) (Sample.stopTransaction 42) false false
            (Sample.db [] [])))
  = DB.notifications (Sample.db [] []).
Proof.
  destruct (@stop_transaction_notifies_once (Sample.integrations true) 300000
              (Sample.headers "CS1" None) (Sample.stopTransaction 42) false false
              (Sample.db [] [])) as (sent & Hsent & _ & Hnone).
  rewrite Hsent, Hnone; [apply app_nil_r | reflexivity].
Defined.

Lemma end_of_charge_check_notifies_at_most_once_witness :
  @checkNotificationEndOfCharge (Sample.integrations true) Sample.config
    Sample.tenant Sample.station
    (Sample.transaction 42 1200 (Some (Sample.stopBlock 200000)))
    (Sample.db [Sample.transaction 42 1200 (Some (Sample.stopBlock 200000))] [])
  = (Ok tt, Sample.db [Sample.transaction 42 1200 (Some (Sample.stopBlock 200000))] []).
Proof.
  destruct (@end_of_charge_check_notifies_at_most_once (Sample.integrations true)
              Sample.config Sample.tenant Sample.station
              (Sample.transaction 42 1200 (Some (Sample.stopBlock 200000)))
              (Sample.db [Sample.transaction 42 1200 (Some (Sample.stopBlock 200000))]
                 [])) as (_ & _ & _ & Hclosed).
  apply Hclosed. right. discriminate.
Defined.

(** ** StatusNotification: the stop block of a closed session *)

Section StoredDocuments.

Context {A B : Type}.
Variable key : A -> B.
Variables sel same : A -> bool.

Lemma find_delete_other (l : list A) :
  (forall y, same y = true -> sel y = false) ->
  find sel (delete_first same l) = find sel l.
Proof.
  intros Hother. induction l as [|a l IH]; [reflexivity|]. simpl.
  destruct (same a) eqn:Hsame.
  - now rewrite (Hother a Hsame).
  - simpl. now rewrite IH.
Qed.

Lemma In_delete_first (x : A) (l : list A) :
  In x (delete_first same l) -> In x l.
Proof.
  induction l as [|a l IH]; [easy|]. simpl.
  destruct (same a); [now right|]. intros [Hx|Hx]; [now left|right; auto].
Qed.

Lemma NoDup_map_delete_first (l : list A) :
  NoDup (map key l) -> NoDup (map key (delete_first same l)).
Proof.
  induction l as [|a l IH]; [easy|]. simpl. intros Hnodup.
  inversion Hnodup as [|k ks Hfresh Hrest]; subst.
  destruct (same a); [assumption|]. simpl. constructor; [|auto].
  intros Hin. apply Hfresh. apply in_map_iff in Hin as (y & Hy & Hin).
  apply in_map_iff. exists y. split; [assumption|]. now apply In_delete_first.
Qed.

Lemma map_key_upsert (x : A) (l : list A) :
  (forall y, same y = true -> key y = key x) ->
  (exists y, In y l /\ same y = true) ->
  map key (upsert same x l) = map key l.
Proof.
  intros Hkey. induction l as [|a l IH]; intros (y & Hin & Hy); [easy|]. simpl.
  destruct (same a) eqn:Hsame; simpl.
  - f_equal. symmetry. now apply Hkey.
  - f_equal. apply IH. destruct Hin as [->|Hin]; [congruence|]. now exists y.
Qed.

Lemma find_unique (d : A) (l : list A) :
  NoDup (map key l) -> In d l -> sel d = true ->
  (forall y, sel y = true -> key y = key d) ->
  find sel l = Some d.
Proof.
  intros Hnodup Hin Hsel Hkey.
  destruct (find sel l) as [d'|] eqn:Hfind.
  - apply find_some in Hfind as [Hin' Hsel'].
    f_equal. apply (NoDup_map_injective key l Hnodup); auto.
  - now rewrite (find_none _ _ Hfind d Hin) in Hsel.
Qed.

End StoredDocuments.

Section StoredTransactions.

Lemma in_tenant_has_id (tenantID : string) (transaction : Transaction.t) :
  in_tenant tenantID (TransactionStorage.has_id (Transaction.id transaction))
    (tenantID, transaction) = true.
Proof.
  unfold in_tenant, TransactionStorage.has_id. cbn.
  now rewrite String.eqb_refl, Z.eqb_refl.
Qed.

Lemma in_tenant_has_id_key (tenantID : string) (id : Z) (d : string * Transaction.t) :
  in_tenant tenantID (TransactionStorage.has_id id) d = true ->
  transactionKey d = (tenantID, id).
Proof.
  unfold in_tenant, TransactionStorage.has_id, transactionKey.
  intros H. apply andb_true_iff in H as [Htenant Hid].
  apply String.eqb_eq in Htenant. apply Z.eqb_eq in Hid. congruence.
Qed.

Lemma getTransaction_In (tenantID : string) (transaction : Transaction.t) (db : DB.t) :
  uniqueTransactionIds db ->
  In (tenantID, transaction) (DB.transactions db) ->
  TransactionStorage.getTransaction tenantID (Transaction.id transaction) db
  = Some transaction.
Proof.
  intros Hunique Hin. unfold TransactionStorage.getTransaction, find_in_tenant.
  rewrite (find_unique transactionKey _ (tenantID, transaction) _ Hunique Hin).
  - reflexivity.
  - apply in_tenant_has_id.
  - intros y Hy. now rewrite (in_tenant_has_id_key _ _ _ Hy).
Qed.

Lemma getActiveTransaction_stored (tenantID chargeBoxID : string) (connectorId : Z)
    (db : DB.t) (activeTransaction : Transaction.t) :
  uniqueTransactionIds db ->
  TransactionStorage.getActiveTransaction tenantID chargeBoxID connectorId db
  = Some activeTransaction ->
  TransactionStorage.getTransaction tenantID (Transaction.id activeTransaction) db
  = Some activeTransaction
  /\ Transaction.stop activeTransaction = None.
Proof.
  intros Hunique Hactive. unfold TransactionStorage.getActiveTransaction in Hactive.
  apply find_in_tenant_some in Hactive as [Hfind Hsel].
  apply find_some in Hfind as [Hin _]. split; [now apply getTransaction_In|].
  unfold TransactionStorage.is_active_on in Hsel.
  apply andb_true_iff in Hsel as [_ Hstop].
  now destruct (Transaction.stop activeTransaction).
Qed.

Lemma getLastTransaction_stored (tenantID chargeBoxID : string) (connectorId : Z)
    (db : DB.t) (last : Transaction.t) :
  uniqueTransactionIds db ->
  TransactionStorage.getLastTransactionFromChargingStation tenantID chargeBoxID
    connectorId db = Some last ->
  TransactionStorage.getTransaction tenantID (Transaction.id last) db = Some last.
Proof.
  intros Hunique Hlast.
  unfold TransactionStorage.getLastTransactionFromChargingStation in Hlast.
  apply latest_In in Hlast as [Hbest|Hin]; [discriminate|].
  apply in_map_iff in Hin as ([tenantID' t] & Hsnd & Hin). cbn in Hsnd. subst t.
  apply filter_In in Hin as [Hin Hsel].
  unfold in_tenant in Hsel. cbn in Hsel.
  apply andb_true_iff in Hsel as [Htenant _]. apply String.eqb_eq in Htenant.
  subst tenantID'. now apply getTransaction_In.
Qed.

Lemma storedStop_transactions (tenantID : string) (id : Z) (a b : DB.t) :
  DB.transactions a = DB.transactions b ->
  storedStop tenantID id a = storedStop tenantID id b.
Proof.
  unfold storedStop, TransactionStorage.getTransaction. now intros ->.
Qed.

Lemma unique_transactions (a b : DB.t) :
  DB.transactions a = DB.transactions b ->
  uniqueTransactionIds a -> uniqueTransactionIds b.
Proof. unfold uniqueTransactionIds. now intros ->. Qed.

(** Saving a transaction the store has keeps the ids unique, and leaves
    the stop blocks of the other transactions as they are. *)
Lemma saveTransaction_stored (tenantID : string) (old saved : Transaction.t)
    (db : DB.t) :
  uniqueTransactionIds db ->
  TransactionStorage.getTransaction tenantID (Transaction.id saved) db = Some old ->
  let db' := snd (TransactionStorage.saveTransaction tenantID saved db) in
  uniqueTransactionIds db'
  /\ storedStop tenantID (Transaction.id saved) db' = Transaction.stop saved
  /\ forall tenantID' id,
       (tenantID', id) <> (tenantID, Transaction.id saved) ->
       storedStop tenantID' id db' = storedStop tenantID' id db.
Proof.
  intros Hunique Hold db'. subst db'.
  unfold TransactionStorage.saveTransaction, uniqueTransactionIds, storedStop,
    TransactionStorage.getTransaction, find_in_tenant in *.
  cbn [snd DB.transactions RecordSettersUsingExistingGetters.set
       RecordSettersUsingExistingGetters.const].
  split; [|split].
  - rewrite (map_key_upsert transactionKey); [assumption| |].
    + intros y Hy. now rewrite (in_tenant_has_id_key _ _ _ Hy).
    + destruct (find _ (DB.transactions db)) as [d|] eqn:Hfind; [|discriminate].
      apply find_some in Hfind. now exists d.
  - rewrite find_upsert_hit; [reflexivity|apply in_tenant_has_id].
  - intros tenantID' id Hother.
    rewrite find_upsert_other; [reflexivity| |].
    + apply not_true_is_false. intros H.
      apply in_tenant_has_id_key in H. now apply Hother.
    + intros y Hy. apply not_true_is_false. intros H.
      apply in_tenant_has_id_key in H, Hy. apply Hother. congruence.
Qed.

End StoredTransactions.

Section ClosedSessions.

Context {I : Integrations}.
Hypothesis keepsStop : KeepsStop I.
Hypothesis keepsSession : KeepsSession I.

Lemma stored_stop_other (tenantID tenantID' : string) (id id' : Z) :
  (tenantID', id') <> (tenantID, id) ->
  forall y : string * Transaction.t,
    in_tenant tenantID (TransactionStorage.has_id id) y = true ->
    in_tenant tenantID' (TransactionStorage.has_id id') y = false.
Proof.
  intros Hother y Hy. apply not_true_is_false. intros H.
  apply in_tenant_has_id_key in H, Hy. apply Hother. congruence.
Qed.

(** One turn of the cleanup leaves the closed sessions alone. *)
Lemma stopOrDelete_closed (now : Z) (tenant : Tenant.t) (chargeBoxID : string)
    (connectorId : Z) (db : DB.t) (activeTransaction : Transaction.t) :
  uniqueTransactionIds db ->
  TransactionStorage.getActiveTransaction (Tenant.id tenant) chargeBoxID connectorId db
  = Some activeTransaction ->
  let db' := stopOrDelete now tenant activeTransaction db in
  uniqueTransactionIds db'
  /\ forall tenantID id stop,
       storedStop tenantID id db = Some stop -> storedStop tenantID id db' = Some stop.
Proof.
  intros Hunique Hactive db'. subst db'.
  destruct (getActiveTransaction_stored _ _ _ _ _ Hunique Hactive) as [Hstored Hopen].
  assert (Hkey : forall tenantID id stop,
            storedStop tenantID id db = Some stop ->
            (tenantID, id) <> (Tenant.id tenant, Transaction.id activeTransaction)).
  { intros tenantID id stop Hstop [= -> ->]. unfold storedStop in Hstop.
    rewrite Hstored in Hstop. congruence. }
  unfold stopOrDelete.
  destruct (Transaction.currentTotalConsumptionWh activeTransaction <=? 0).
  - split.
    + unfold uniqueTransactionIds, TransactionStorage.deleteTransaction in *. cbn.
      now apply NoDup_map_delete_first.
    + intros tenantID id stop Hstop. rewrite <- Hstop.
      unfold storedStop, TransactionStorage.getTransaction, find_in_tenant,
        TransactionStorage.deleteTransaction. cbn.
      rewrite find_delete_other; [reflexivity|].
      apply stored_stop_other. exact (Hkey _ _ _ Hstop).
  - pose proof (handleStopTransaction_transactions keepsSession now
                  (cleanupHeaders tenant activeTransaction)
                  (cleanupStopTransaction activeTransaction) false true db) as Heffect.
    cbn in Heffect.
    destruct Heffect as [Hsame|(old & saved & Hold & Hstop & Hsession & Hsaved)].
    + split; [now apply (unique_transactions db)|].
      intros tenantID id stop Hstored_stop. rewrite <- Hstored_stop.
      now apply storedStop_transactions.
    + assert (Hid : Transaction.id saved = Transaction.id activeTransaction).
      { destruct Hsession as (-> & _).
        unfold TransactionStorage.getTransaction in Hold.
        apply find_in_tenant_some in Hold as [_ Hold].
        now apply Z.eqb_eq in Hold. }
      rewrite <- Hid in Hold.
      destruct (saveTransaction_stored (Tenant.id tenant) old saved db Hunique Hold)
        as (Hunique' & _ & Hothers).
      split; [now apply (unique_transactions
                           (snd (TransactionStorage.saveTransaction (Tenant.id tenant)
                                   saved db)))|].
      intros tenantID id stop Hstored_stop. rewrite <- Hstored_stop.
      rewrite <- (Hothers tenantID id); [now apply storedStop_transactions|].
      rewrite Hid. exact (Hkey _ _ _ Hstored_stop).
Qed.

(** The cleanup leaves the closed sessions alone. *)
Lemma stopOrDeleteActiveTransactions_closed (now : Z) (tenant : Tenant.t)
    (chargeBoxID : string) (connectorId : Z) (fuel : nat) :
  forall (lastCheckedTransactionID : option Z) (db db' : DB.t),
    stopOrDeleteActiveTransactions_loop fuel now tenant chargeBoxID connectorId
      lastCheckedTransactionID db = Some db' ->
    uniqueTransactionIds db ->
    uniqueTransactionIds db'
    /\ forall tenantID id stop,
         storedStop tenantID id db = Some stop -> storedStop tenantID id db' = Some stop.
Proof.
  induction fuel as [|fuel IH]; intros last db db'; simpl; [discriminate|].
  destruct (TransactionStorage.getActiveTransaction _ _ _ db)
    as [activeTransaction|] eqn:Hactive.
  2:{ intros [= <-] Hunique. now split. }
  destruct (match last with
            | Some l => l =? Transaction.id activeTransaction
            | None => false
            end).
  { intros [= <-] Hunique. now split. }
  intros Hrun Hunique.
  destruct (stopOrDelete_closed now tenant chargeBoxID connectorId db activeTransaction
              Hunique Hactive) as [Hunique1 Hkept1].
  destruct (IH _ _ _ Hrun Hunique1) as [Hunique' Hkept'].
  split; [assumption|]. intros tenantID id stop Hstop. auto.
Qed.

(** So does the cleanup a status notification triggers. *)
Lemma checkStatusNotificationOngoingTransaction_closed (fuel : nat) (now : Z)
    (tenant : Tenant.t) (chargingStation chargingStation' : ChargingStation.t)
    (statusNotification : OCPPStatusNotificationRequestExtended.t)
    (connector : Connector.t) (db db' : DB.t) :
  checkStatusNotificationOngoingTransaction fuel now tenant chargingStation
    statusNotification connector db = Some (chargingStation', db') ->
  uniqueTransactionIds db ->
  uniqueTransactionIds db'
  /\ forall tenantID id stop,
       storedStop tenantID id db = Some stop -> storedStop tenantID id db' = Some stop.
Proof.
  unfold checkStatusNotificationOngoingTransaction, stopOrDeleteActiveTransactions.
  destruct (_ && _).
  - destruct (stopOrDeleteActiveTransactions_loop _ _ _ _ _ _ _) as [cleaned|] eqn:Hrun;
      [|discriminate].
    intros [= _ <-] Hunique.
    exact (stopOrDeleteActiveTransactions_closed _ _ _ _ _ _ _ _ Hrun Hunique).
  - intros [= _ <-] Hunique. now split.
Qed.

Lemma checkStatusNotificationOngoingTransaction_returns (fuel : nat) (now : Z)
    (tenant : Tenant.t) (chargingStation : ChargingStation.t)
    (statusNotification : OCPPStatusNotificationRequestExtended.t)
    (connector : Connector.t) (db : DB.t) :
  (activeTransactions (Tenant.id tenant) (ChargingStation.id chargingStation)
     (OCPPStatusNotificationRequestExtended.connectorId statusNotification) db + 2
   <= fuel)%nat ->
  exists out,
    checkStatusNotificationOngoingTransaction fuel now tenant chargingStation
      statusNotification connector db = Some out.
Proof.
  intros Hfuel.
  unfold checkStatusNotificationOngoingTransaction, stopOrDeleteActiveTransactions.
  destruct (_ && _); [|eauto].
  destruct (stopOrDeleteActiveTransactions_loop_returns keepsSession now tenant
              (ChargingStation.id chargingStation)
              (OCPPStatusNotificationRequestExtended.connectorId statusNotification)
              _ db None fuel (le_n _) Hfuel) as [cleaned ->].
  eauto.
Qed.

(** The check of the last transaction keeps the transaction ids unique,
    and leaves alone every stop block whose extra inactivity is
    computed. *)
Lemma checkLastTransaction_closed (tenant : Tenant.t)
    (chargingStation : ChargingStation.t)
    (statusNotification : OCPPStatusNotificationRequestExtended.t)
    (connector : Connector.t) (db : DB.t) :
  uniqueTransactionIds db ->
  let out := checkLastTransaction tenant chargingStation statusNotification connector db in
  uniqueTransactionIds (snd out)
  /\ forall tenantID id stop,
       storedStop tenantID id db = Some stop ->
       TransactionStop.extraInactivityComputed stop = true ->
       storedStop tenantID id (snd out) = Some stop.
Proof.
  intros Hunique out.
  assert (Hcases :
            DB.transactions (snd out) = DB.transactions db
            \/ exists last stop,
                 TransactionStorage.getLastTransactionFromChargingStation
                   (Tenant.id tenant) (ChargingStation.id chargingStation)
                   (Connector.connectorId connector) db = Some last
                 /\ Transaction.stop last = Some stop).
  { subst out. unfold checkLastTransaction.
    destruct (ChargePointStatus.eqb _ _); [|now left].
    unfold bind at 1. unfold gets at 1.
    destruct (TransactionStorage.getLastTransactionFromChargingStation _ _ _ db)
      as [last|]; [|now left].
    destruct (Transaction.stop last) as [stop|] eqn:Hstop; [|now left].
    right. now exists last, stop. }
  destruct Hcases as [Hsame|(last & stop & Hlast & Hstop)].
  { split; [now apply (unique_transactions db)|].
    intros tenantID id stop Hstored _. rewrite <- Hstored.
    now apply storedStop_transactions. }
  pose proof (getLastTransaction_stored _ _ _ _ _ Hunique Hlast) as Hstored_last.
  destruct (checkLastTransaction_run keepsStop tenant chargingStation statusNotification
              connector db last stop Hlast Hstop)
    as [(saved & (Hsession & _ & Hsaved_stop) & Htxs)|[Htxs _]];
    cbv zeta in *; fold out in Htxs.
  2:{ split; [now apply (unique_transactions db)|].
      intros tenantID id stop' Hstored _. rewrite <- Hstored.
      now apply storedStop_transactions. }
  assert (Hid : Transaction.id saved = Transaction.id last).
  { destruct Hsession as (-> & _).
    destruct (OCPPStatusNotificationRequestExtended.timestamp statusNotification);
      [destruct (negb _)|]; reflexivity. }
  rewrite <- Hid in Hstored_last.
  destruct (saveTransaction_stored (Tenant.id tenant) last saved db Hunique Hstored_last)
    as (Hunique' & Hsaved & Hothers).
  split; [now apply (unique_transactions
                       (snd (TransactionStorage.saveTransaction (Tenant.id tenant)
                               saved db)))|].
  intros tenantID id stop' Hstored Hcomputed.
  rewrite (storedStop_transactions tenantID id _ _ Htxs).
  assert (Hdec : (tenantID, id) = (Tenant.id tenant, Transaction.id saved)
                 \/ (tenantID, id) <> (Tenant.id tenant, Transaction.id saved)).
  { destruct (string_dec tenantID (Tenant.id tenant)) as [->|];
      [destruct (Z.eq_dec id (Transaction.id saved)) as [->|]|];
      [now left|right; congruence..]. }
  destruct Hdec as [[= -> ->]|Hother].
  - rewrite Hsaved, Hsaved_stop.
    unfold storedStop in Hstored. rewrite Hstored_last, Hstop in Hstored.
    injection Hstored as ->.
    destruct (OCPPStatusNotificationRequestExtended.timestamp statusNotification);
      [rewrite Hcomputed|]; cbn; exact Hstop.
  - now rewrite (Hothers tenantID id Hother).
Qed.

End ClosedSessions.

Section ExtraInactivity.

Context {I : Integrations}.
Hypothesis keepsStop : KeepsStop I.
Hypothesis keepsSession : KeepsSession I.
Variable validateStatusNotification : OCPPStatusNotificationRequestExtended.t -> bool.
Variable getTimezone : option (list Z) -> option string.
Variable ChargingStationTemplate : Type.
Variable getChargingStationTemplate : ChargingStation.t -> option ChargingStationTemplate.
Variable enrichChargingStationConnectorWithTemplate :
  string -> ChargingStation.t -> Z -> ChargingStationTemplate -> ChargingStation.t.

(** A status notification keeps the transaction ids unique, and leaves
    alone every stop block whose extra inactivity is computed. *)
Lemma updateConnectorStatus_closed (fuel : nat) (now : Z) (tenant : Tenant.t)
    (chargingStation : ChargingStation.t)
    (statusNotification : OCPPStatusNotificationRequestExtended.t) (db : DB.t)
    (out : Result StatusNotificationJournal.t * DB.t) :
  updateConnectorStatus getTimezone ChargingStationTemplate getChargingStationTemplate
    enrichChargingStationConnectorWithTemplate fuel now tenant chargingStation
    statusNotification db = Some out ->
  uniqueTransactionIds db ->
  uniqueTransactionIds (snd out)
  /\ forall tenantID id stop,
       storedStop tenantID id db = Some stop ->
       TransactionStop.extraInactivityComputed stop = true ->
       storedStop tenantID id (snd out) = Some stop.
Proof.
  unfold updateConnectorStatus. cbv zeta.
  match goal with
  | |- context [let '(_, _) := ?found in _] => destruct found as [station connector]
  end.
  destruct (sameStatus connector statusNotification).
  { intros [= <-] Hunique. now split. }
  intros Hrun Hunique.
  destruct (checkLastTransaction_closed keepsStop tenant station statusNotification
              connector db Hunique) as [Hunique1 Hkept1].
  destruct (checkLastTransaction tenant station statusNotification connector db)
    as [[[]|e] db1]; cbn [snd] in *.
  2:{ injection Hrun as <-. now split. }
  destruct (checkStatusNotificationOngoingTransaction _ _ _ _ _ _ _)
    as [[station' db2]|] eqn:Hongoing; [|discriminate].
  destruct (checkStatusNotificationOngoingTransaction_closed keepsSession _ _ _ _ _ _ _
              _ _ Hongoing Hunique1) as [Hunique2 Hkept2].
  injection Hrun as <-. cbn [snd].
  split; [exact Hunique2|].
  intros tenantID id stop Hstored Hcomputed.
  rewrite <- (Hkept2 _ _ _ (Hkept1 _ _ _ Hstored Hcomputed)).
  now apply storedStop_transactions.
Qed.

Lemma updateConnectorStatus_returns (now : Z) (tenant : Tenant.t)
    (chargingStation : ChargingStation.t)
    (statusNotification : OCPPStatusNotificationRequestExtended.t) (db : DB.t) :
  exists bound,
    forall fuel, (bound <= fuel)%nat ->
      exists out,
        updateConnectorStatus getTimezone ChargingStationTemplate
          getChargingStationTemplate enrichChargingStationConnectorWithTemplate fuel
          now tenant chargingStation statusNotification db = Some out.
Proof.
  unfold updateConnectorStatus. cbv zeta.
  match goal with
  | |- context [let '(_, _) := ?found in _] => destruct found as [station connector]
  end.
  destruct (sameStatus connector statusNotification); [exists 0%nat; eauto|].
  destruct (checkLastTransaction tenant station statusNotification connector db)
    as [[[]|e] db1]; [|exists 0%nat; eauto].
  exists (activeTransactions (Tenant.id tenant) (ChargingStation.id station)
            (OCPPStatusNotificationRequestExtended.connectorId statusNotification) db1
          + 2)%nat.
  intros fuel Hfuel.
  match goal with
  | |- context [checkStatusNotificationOngoingTransaction fuel now tenant ?s ?n ?c ?d] =>
      destruct (checkStatusNotificationOngoingTransaction_returns keepsSession fuel now
                  tenant s n c d) as [[station' db2] ->]
  end; [|eauto].
  unfold assignFoundConnector. cbn. exact Hfuel.
Qed.

Lemma handleStatusNotification_closed (fuel : nat) (now : Z) (headers : OCPPHeader.t)
    (statusNotification : OCPPStatusNotificationRequestExtended.t) (db : DB.t)
    (out : StatusNotificationJournal.t * DB.t) :
  handleStatusNotification validateStatusNotification getTimezone
    ChargingStationTemplate getChargingStationTemplate
    enrichChargingStationConnectorWithTemplate fuel now headers statusNotification db
  = Some out ->
  uniqueTransactionIds db ->
  uniqueTransactionIds (snd out)
  /\ forall tenantID id stop,
       storedStop tenantID id db = Some stop ->
       TransactionStop.extraInactivityComputed stop = true ->
       storedStop tenantID id (snd out) = Some stop.
Proof.
  unfold handleStatusNotification.
  pose proof (resolve_reads headers db) as Hreads.
  destruct (OCPPUtils.checkAndGetTenantAndChargingStation headers db)
    as [[[chargingStation tenant]|e] db0]; cbn [snd] in Hreads; subst db0.
  2:{ intros [= <-] Hunique. now split. }
  destruct (validateStatusNotification statusNotification);
    [|intros [= <-] Hunique; now split].
  destruct (0 <? _); [|intros [= <-] Hunique; now split].
  destruct (updateConnectorStatus _ _ _ _ _ _ _ _ _ _) as [[result db1]|] eqn:Hrun;
    [|discriminate].
  intros Hout Hunique.
  destruct (updateConnectorStatus_closed _ _ _ _ _ _ _ Hrun Hunique) as [Hunique1 Hkept].
  cbn [snd] in *.
  destruct result; injection Hout as <-; now split.
Qed.

Lemma handleStatusNotification_returns (now : Z) (headers : OCPPHeader.t)
    (statusNotification : OCPPStatusNotificationRequestExtended.t) (db : DB.t) :
  exists bound,
    forall fuel, (bound <= fuel)%nat ->
      exists out,
        handleStatusNotification validateStatusNotification getTimezone
          ChargingStationTemplate getChargingStationTemplate
          enrichChargingStationConnectorWithTemplate fuel now headers
          statusNotification db = Some out.
Proof.
  unfold handleStatusNotification.
  destruct (OCPPUtils.checkAndGetTenantAndChargingStation headers db)
    as [[[chargingStation tenant]|e] db0]; [|exists 0%nat; eauto].
  destruct (validateStatusNotification statusNotification); [|exists 0%nat; eauto].
  destruct (0 <? _); [|exists 0%nat; eauto].
  destruct (updateConnectorStatus_returns now tenant chargingStation statusNotification
              db0) as [bound Hreturns].
  exists bound. intros fuel Hfuel.
  destruct (Hreturns fuel Hfuel) as [[[journal|e] db1] ->]; eauto.
Qed.

(** C6 (amended).  A stopped transaction is the last one of its connector
    and its extra inactivity is not computed yet.  An Available status
    notification for that connector arrives with a timestamp; the station
    is resolved, the payload is valid, the connector id is above 0, and
    the notification changes the status, the error code or the info the
    connector shows (one that repeats them is dropped).  When the check of
    the last transaction does not fail, the handler returns and the
    transaction is stored with [stop.extraInactivitySecs] equal to the
    notification timestamp minus [stop.timestamp] in whole seconds,
    rounded down; that value is non-negative exactly when the notification
    timestamp is not earlier than [stop.timestamp].
    [extraInactivityComputed] is set, and the inactivity status is the
    level of [stop.totalInactivitySecs] plus the extra inactivity.
    Whatever status notification the handler is given afterwards, for
    whatever station, it returns, and the stored stop block is the same
    afterwards. *)
Theorem extra_inactivity_computed_once (fuel : nat) (now : Z) (headers : OCPPHeader.t)
    (statusNotification : OCPPStatusNotificationRequestExtended.t) (db : DB.t)
    (chargingStation : ChargingStation.t) (tenant : Tenant.t) (connector : Connector.t)
    (last : Transaction.t) (stop : TransactionStop.t) (timestamp : Z) :
  uniqueTransactionIds db ->
  OCPPUtils.checkAndGetTenantAndChargingStation headers db
  = (Ok (chargingStation, tenant), db) ->
  validateStatusNotification statusNotification = true ->
  0 < OCPPStatusNotificationRequestExtended.connectorId statusNotification ->
  Utils.getConnectorFromID chargingStation
    (OCPPStatusNotificationRequestExtended.connectorId statusNotification)
  = Some connector ->
  sameStatus connector statusNotification = false ->
  OCPPStatusNotificationRequestExtended.status statusNotification
  = ChargePointStatus.AVAILABLE ->
  OCPPStatusNotificationRequestExtended.timestamp statusNotification = Some timestamp ->
  TransactionStorage.getLastTransactionFromChargingStation (Tenant.id tenant)
    (ChargingStation.id chargingStation)
    (OCPPStatusNotificationRequestExtended.connectorId statusNotification) db
  = Some last ->
  Transaction.stop last = Some stop ->
  TransactionStop.extraInactivityComputed stop = false ->
  let checked :=
    checkLastTransaction tenant chargingStation statusNotification connector db in
  fst checked = Ok tt ->
  (activeTransactions (Tenant.id tenant) (ChargingStation.id chargingStation)
     (OCPPStatusNotificationRequestExtended.connectorId statusNotification)
     (snd checked) + 2 <= fuel)%nat ->
  exists journal db' stop1,
    handleStatusNotification validateStatusNotification getTimezone
      ChargingStationTemplate getChargingStationTemplate
      enrichChargingStationConnectorWithTemplate fuel now headers statusNotification db
    = Some (journal, db')
    /\ storedStop (Tenant.id tenant) (Transaction.id last) db' = Some stop1
    /\ TransactionStop.extraInactivitySecs stop1
       = (timestamp - TransactionStop.timestamp stop) / 1000
    /\ (0 <= TransactionStop.extraInactivitySecs stop1
        <-> TransactionStop.timestamp stop <= timestamp)
    /\ TransactionStop.extraInactivityComputed stop1 = true
    /\ TransactionStop.inactivityStatus stop1
       = getInactivityStatusLevel
           (ChargingStationStorage.getChargingStation (Tenant.id tenant)
              (Transaction.chargeBoxID last) db)
           (Transaction.connectorId last)
           (TransactionStop.totalInactivitySecs stop
            + TransactionStop.extraInactivitySecs stop1)
    /\ forall (now' : Z) (headers' : OCPPHeader.t)
         (again : OCPPStatusNotificationRequestExtended.t),
         exists bound,
           forall fuel', (bound <= fuel')%nat ->
             exists out,
               handleStatusNotification validateStatusNotification getTimezone
                 ChargingStationTemplate getChargingStationTemplate
                 enrichChargingStationConnectorWithTemplate fuel' now' headers' again db'
               = Some out
               /\ storedStop (Tenant.id tenant) (Transaction.id last) (snd out)
                  = Some stop1.
Proof.
  intros Hunique Hres Hval Hpositive Hfound Hchanged Hstatus Htimestamp Hlast Hstop
    Hflag checked Hok Hfuel.
  assert (Hconnector :
            Connector.connectorId connector
            = OCPPStatusNotificationRequestExtended.connectorId statusNotification).
  { unfold Utils.getConnectorFromID in Hfound.
    apply find_some in Hfound as [_ Hid]. now apply Z.eqb_eq in Hid. }
  rewrite <- Hconnector in Hlast.
  (* the check *)
  destruct (checkLastTransaction_computes_once keepsStop tenant chargingStation connector
              statusNotification db last stop timestamp Hunique Hlast Hstop Hflag
              Hstatus Htimestamp Hok)
    as (stored & stop1 & Hlast1 & Hsession1 & Hstop1 & Hsecs & Hsign & Hcomputed
        & Hlevel & _).
  fold checked in Hlast1.
  destruct (checkLastTransaction_closed keepsStop tenant chargingStation
              statusNotification connector db Hunique) as [Hunique1 _].
  cbv zeta in Hunique1. fold checked in Hunique1.
  assert (Hstored1 : storedStop (Tenant.id tenant) (Transaction.id last) (snd checked)
                     = Some stop1).
  { unfold storedStop. destruct Hsession1 as (<- & _).
    now rewrite (getLastTransaction_stored _ _ _ _ _ Hunique1 Hlast1). }
  (* the handler *)
  assert (Hrun : exists journal db',
            handleStatusNotification validateStatusNotification getTimezone
              ChargingStationTemplate getChargingStationTemplate
              enrichChargingStationConnectorWithTemplate fuel now headers
              statusNotification db = Some (journal, db')
            /\ uniqueTransactionIds db'
            /\ storedStop (Tenant.id tenant) (Transaction.id last) db' = Some stop1).
  { unfold handleStatusNotification. rewrite Hres, Hval.
    pose proof Hpositive as Hpos. apply Z.ltb_lt in Hpos. rewrite Hpos.
    unfold updateConnectorStatus. cbv zeta. rewrite Hfound, Hchanged.
    fold checked. destruct checked as [[[]|e] db1]; cbn [fst snd] in *;
      [|discriminate].
    match goal with
    | |- context [checkStatusNotificationOngoingTransaction fuel now tenant ?s ?n ?c
                    ?d] =>
        destruct (checkStatusNotificationOngoingTransaction_returns keepsSession fuel
                    now tenant s n c d) as [[station' db2] Hongoing];
        [unfold assignFoundConnector; cbn; exact Hfuel|]
    end.
    rewrite Hongoing.
    destruct (checkStatusNotificationOngoingTransaction_closed keepsSession _ _ _ _ _ _
                _ _ _ Hongoing Hunique1) as [Hunique2 Hkept2].
    eexists _, _. split; [reflexivity|].
    split; [exact Hunique2|].
    rewrite <- (Hkept2 _ _ _ Hstored1). now apply storedStop_transactions. }
  destruct Hrun as (journal & db' & Hrun & Hunique' & Hstored').
  exists journal, db', stop1.
  split; [exact Hrun|]. split; [exact Hstored'|]. split; [exact Hsecs|].
  split; [exact Hsign|]. split; [exact Hcomputed|]. split; [exact Hlevel|].
  intros now' headers' again.
  destruct (handleStatusNotification_returns now' headers' again db')
    as [bound Hreturns].
  exists bound. intros fuel' Hfuel'.
  destruct (Hreturns fuel' Hfuel') as [out Hout].
  exists out. split; [exact Hout|].
  destruct (handleStatusNotification_closed _ _ _ _ _ _ Hout Hunique') as [_ Hkept].
  now apply Hkept.
Qed.

End ExtraInactivity.

(** The session was stopped at 200 s; the station reports the connector
    Available at 206 s: six seconds of extra inactivity are stored. *)
Lemma extra_inactivity_computed_once_witness :
  option_map
    (fun out =>
       option_map TransactionStop.extraInactivitySecs (storedStop "t1" 42 (snd out)))
    (@handleStatusNotification (Sample.integrations true) (fun _ => true)
       (fun _ => None) unit (fun _ => None)
       (fun _ chargingStation _ _ => chargingStation) 3 300000
       (Sample.headers "CS1" None)
       (Sample.statusNotification ChargePointStatus.AVAILABLE (Some 206000))
       (Sample.db [Sample.transaction 42 1200 (Some (Sample.stopBlock 200000))] []))
  = Some (Some 6).
Proof.
  destruct (@extra_inactivity_computed_once (Sample.integrations true)
              (sample_integrations_keep_stop true)
              (sample_integrations_keep_session true)
              (fun _ => true) (fun _ => None) unit (fun _ => None)
              (fun _ chargingStation _ _ => chargingStation) 3 300000
              (Sample.headers "CS1" None)
              (Sample.statusNotification ChargePointStatus.AVAILABLE (Some 206000))
              (Sample.db [Sample.transaction 42 1200 (Some (Sample.stopBlock 200000))] [])
              Sample.station Sample.tenant (Sample.connector 42)
              (Sample.transaction 42 1200 (Some (Sample.stopBlock 200000)))
              (Sample.stopBlock 200000) 206000)
    as (journal & db' & stop1 & Hrun & Hstored & Hsecs & _).
  - apply sample_transactions_unique.
  - reflexivity.
  - reflexivity.
  - reflexivity.
  - reflexivity.
  - reflexivity.
  - reflexivity.
  - reflexivity.
  - vm_compute. reflexivity.
  - reflexivity.
  - reflexivity.
  - vm_compute. reflexivity.
  - vm_compute. lia.
  - rewrite Hrun. cbn [option_map snd].
    change "t1" with (Tenant.id Sample.tenant).
    change 42 with (Transaction.id
                      (Sample.transaction 42 1200 (Some (Sample.stopBlock 200000)))).
    rewrite Hstored. cbn [option_map]. rewrite Hsecs. reflexivity.
Defined.
